(** * The chat widget's turn lifecycle, chart-intent detection and
      enrichment poller (src/chat-widget.js), embedded in Rocq.

    Strings are sequences of 8-bit code units ([string]); case mapping is
    the ASCII one.  The widget's free-floating variables become the fields
    of one [State] record that every handler threads through; the two
    [async] functions are cut at their [await]s into the synchronous
    prefix and the continuations the event loop runs when the transport
    settles.  The presenter (bubbles, tables, charts) is recorded as the
    sequence of calls made on it. *)

From Stdlib Require Import String Ascii List Bool Arith Lia.
From stdpp Require Import base list.
From Equations Require Import Equations.
Import ListNotations.

Open Scope string_scope.
Open Scope list_scope.
Open Scope nat_scope.

(** ** JavaScript string primitives *)

Module Js.

(** [c.toLowerCase()] on one code unit: 'A'..'Z' move to 'a'..'z'. *)
Definition lowerChar (c : ascii) : ascii :=
  let n := nat_of_ascii c in
  if (65 <=? n) && (n <=? 90) then ascii_of_nat (n + 32) else c.

Fixpoint toLowerCase (s : string) : string :=
  match s with
  | EmptyString => EmptyString
  | String c rest => String (lowerChar c) (toLowerCase rest)
  end.

(** [s.startsWith(p)] *)
Fixpoint startsWith (s p : string) {struct p} : bool :=
  match p, s with
  | EmptyString, _ => true
  | String _ _, EmptyString => false
  | String a p', String b s' => Ascii.eqb a b && startsWith s' p'
  end.

(** [s.includes(sub)]: [sub] occurs at some offset of [s]. *)
Fixpoint includes (s sub : string) : bool :=
  match s with
  | EmptyString => startsWith EmptyString sub
  | String _ rest => startsWith s sub || includes rest sub
  end.

(** White space as [String.prototype.trim] sees it, among 8-bit units:
    TAB, LF, VT, FF, CR, SPACE and NBSP. *)
Definition isWhiteSpace (c : ascii) : bool :=
  let n := nat_of_ascii c in
  ((9 <=? n) && (n <=? 13)) || (n =? 32) || (n =? 160).

Fixpoint trimStart (s : string) : string :=
  match s with
  | EmptyString => EmptyString
  | String c rest => if isWhiteSpace c then trimStart rest else s
  end.

(** Drops the trailing white space: a unit is kept when it is not white
    space or when something is kept after it. *)
Fixpoint trimEnd (s : string) : string :=
  match s with
  | EmptyString => EmptyString
  | String c rest =>
      match trimEnd rest with
      | EmptyString => if isWhiteSpace c then EmptyString else String c EmptyString
      | kept => String c kept
      end
  end.

Definition trim (s : string) : string := trimEnd (trimStart s).

(** Truthiness of a string value: the empty string is falsy. *)
Definition truthy (s : string) : bool :=
  match s with EmptyString => false | _ => true end.

(** [v || fallback] for an optional string property ([undefined] when
    the property is missing). *)
Definition orElse (v : option string) (fallback : string) : string :=
  match v with
  | Some s => if truthy s then s else fallback
  | None => fallback
  end.

End Js.

(** ** Chart-intent detection: [detectChartRequest] *)

Module ChartIntent.
Import Js.

Definition chartKeywords : list string :=
  [ "chart"; "graph"; "plot"; "visualization"; "visualize"; "visual";
    "bar chart"; "line chart"; "pie chart"; "scatter plot"; "histogram";
    "area chart"; "donut chart"; "bubble chart";
    "show"; "display"; "create"; "generate"; "draw"; "make"; "build";
    "show me a chart"; "create a graph"; "generate visualization";
    "display chart"; "make a plot"; "draw a graph"; "build a chart";
    "show visualization"; "create visualization"; "display graph";
    "show graph"; "make graph"; "generate chart"; "generate graph";
    "trend"; "trending"; "pattern"; "growth"; "comparison"; "compare";
    "over time"; "by month"; "by year"; "by quarter"; "distribution" ].

Definition phrases : list string :=
  [ "show me a chart"; "create a graph"; "generate visualization";
    "display chart"; "make a plot"; "draw a graph"; "build a chart";
    "show visualization"; "create visualization"; "display graph";
    "show graph"; "make graph"; "generate chart"; "generate graph";
    "bar chart"; "line chart"; "pie chart"; "scatter plot";
    "area chart"; "donut chart"; "bubble chart"; "over time" ].

Definition chartRelated : list string :=
  [ "chart"; "graph"; "plot"; "visualization"; "visual"; "trend"; "pattern" ].

(** The verbs the keyword loop accepts only together with a
    chart-related term. *)
Definition genericVerbs : list string :=
  [ "show"; "display"; "create"; "generate"; "make" ].

(** [keyword === 'show' || keyword === 'display' || ...] *)
Definition needsContext (keyword : string) : bool :=
  String.eqb keyword "show" || String.eqb keyword "display"
  || String.eqb keyword "create" || String.eqb keyword "generate"
  || String.eqb keyword "make".

(** [chartRelated.some(term => queryLower.includes(term))] *)
Definition hasChartContext (queryLower : string) : bool :=
  existsb (fun term => includes queryLower term) chartRelated.

(** [for (const phrase of phrases) if (queryLower.includes(phrase)) return true;] *)
Fixpoint phraseLoop (queryLower : string) (ps : list string) : bool :=
  match ps with
  | [] => false
  | phrase :: rest =>
      if includes queryLower phrase then true else phraseLoop queryLower rest
  end.

(** The second loop; falling off its end is the final [return false]. *)
Fixpoint keywordLoop (queryLower : string) (kws : list string) : bool :=
  match kws with
  | [] => false
  | keyword :: rest =>
      if includes queryLower keyword then
        if needsContext keyword then
          if hasChartContext queryLower then true
          else keywordLoop queryLower rest
        else true
      else keywordLoop queryLower rest
  end.

Definition detectChartRequest (query : string) : bool :=
  let queryLower := toLowerCase query in
  if phraseLoop queryLower phrases then true
  else keywordLoop queryLower chartKeywords.

End ChartIntent.

(** ** The widget: state, DOM handlers, request lifecycle *)

Module Widget.
Import Js ChartIntent.

Inductive Role : Type := user | assistant.

Record Turn : Type := { role : Role; content : string }.

(** A JSON payload the core only hands on to the presenter. *)
Definition Json : Type := string.

(** One user message container of the DOM, as the handlers read and
    write it: the bubble's [contentEditable], its [is-editing] class,
    whether [onEditableBubbleKeydown] is registered on it, and the
    action bar with its copy and edit buttons. *)
Record Container : Type := {
  contentEditable : bool;
  isEditing : bool;
  keydownHooked : bool;
  hasActions : bool;
  hasCopyButton : bool;
  hasEditButton : bool
}.

(** What the core appends to one AI message group. *)
Inductive Part : Type :=
| MessageBubble (message : string)
| IntroBubble (message : string)
| TableBubble (data : list Json)
| ChartBubble (chartId : nat) (chart : Json) (tableData : list Json)
| InsightsPending (requestId : string)
| TableContainer (data : list Json)
| Avatar.

(** Children of the message area. *)
Inductive Item : Type :=
| Welcome
| UserMessage (container : nat) (message : string)
| AiMessage (message : string)
| AiGroup (parts : list Part)
| Loading.

Record Button : Type := { textContent : string; dataState : option string }.

(** The parsed body of a response: every property is optional. *)
Record Body : Type := {
  detail : option string;
  error : option string;
  question : option string;
  data : option (list Json);
  chart : option Json;
  request_id : option string;
  conversation_history : option (list Turn)
}.

(** A rejection reason, with the properties the catch blocks read. *)
Record Error : Type := { name : string; code : option nat; message : string }.

(** The JSON body of a POST to the ask endpoint. *)
Record AskBody : Type := {
  ask_query : string;
  ask_conversation_history : list Turn;
  ask_show_charts : bool
}.

Inductive Origin : Type := FromInput | FromEdit.

Inductive Phase : Type := AwaitFetch | AwaitJson (ok : bool).

(** A suspended run of [sendMessage] ([FromInput]) or [startRequest]
    ([FromEdit]): the locals it captured, the request it sent, and the
    [await] it is parked on.  The [AbortController] made for request
    [n] is named [n] as well. *)
Record Pending : Type := {
  req : nat;
  origin : Origin;
  isChartRequest : bool;
  shouldShowCharts : bool;
  sent : AskBody;
  phase : Phase
}.

Record State : Type := {
  isProcessing : bool;
  currentAbortController : option nat;
  lastUserMessageContainer : option nat;
  activeEditableBubble : option nat;
  conversationHistory : list Turn;
  chartCounter : nat;
  showChartVisualization : bool;
  inputValue : string;               (* inputField.value *)
  sendButton : Button;
  nodes : list Container;            (* user containers, by creation index *)
  messageArea : list Item;
  abortedSignals : list nat;         (* controllers whose abort() ran *)
  inflight : list Pending;
  nextRequest : nat;
  pollers : list string              (* enrichment jobs started, by request id *)
}.

Definition set_isProcessing (v : bool) (s : State) : State :=
  {| isProcessing := v;
     currentAbortController := currentAbortController s;
     lastUserMessageContainer := lastUserMessageContainer s;
     activeEditableBubble := activeEditableBubble s;
     conversationHistory := conversationHistory s;
     chartCounter := chartCounter s;
     showChartVisualization := showChartVisualization s;
     inputValue := inputValue s; sendButton := sendButton s;
     nodes := nodes s; messageArea := messageArea s;
     abortedSignals := abortedSignals s; inflight := inflight s;
     nextRequest := nextRequest s; pollers := pollers s |}.

Definition set_currentAbortController (v : option nat) (s : State) : State :=
  {| isProcessing := isProcessing s;
     currentAbortController := v;
     lastUserMessageContainer := lastUserMessageContainer s;
     activeEditableBubble := activeEditableBubble s;
     conversationHistory := conversationHistory s;
     chartCounter := chartCounter s;
     showChartVisualization := showChartVisualization s;
     inputValue := inputValue s; sendButton := sendButton s;
     nodes := nodes s; messageArea := messageArea s;
     abortedSignals := abortedSignals s; inflight := inflight s;
     nextRequest := nextRequest s; pollers := pollers s |}.

Definition set_lastUserMessageContainer (v : option nat) (s : State) : State :=
  {| isProcessing := isProcessing s;
     currentAbortController := currentAbortController s;
     lastUserMessageContainer := v;
     activeEditableBubble := activeEditableBubble s;
     conversationHistory := conversationHistory s;
     chartCounter := chartCounter s;
     showChartVisualization := showChartVisualization s;
     inputValue := inputValue s; sendButton := sendButton s;
     nodes := nodes s; messageArea := messageArea s;
     abortedSignals := abortedSignals s; inflight := inflight s;
     nextRequest := nextRequest s; pollers := pollers s |}.

Definition set_activeEditableBubble (v : option nat) (s : State) : State :=
  {| isProcessing := isProcessing s;
     currentAbortController := currentAbortController s;
     lastUserMessageContainer := lastUserMessageContainer s;
     activeEditableBubble := v;
     conversationHistory := conversationHistory s;
     chartCounter := chartCounter s;
     showChartVisualization := showChartVisualization s;
     inputValue := inputValue s; sendButton := sendButton s;
     nodes := nodes s; messageArea := messageArea s;
     abortedSignals := abortedSignals s; inflight := inflight s;
     nextRequest := nextRequest s; pollers := pollers s |}.

Definition set_conversationHistory (v : list Turn) (s : State) : State :=
  {| isProcessing := isProcessing s;
     currentAbortController := currentAbortController s;
     lastUserMessageContainer := lastUserMessageContainer s;
     activeEditableBubble := activeEditableBubble s;
     conversationHistory := v;
     chartCounter := chartCounter s;
     showChartVisualization := showChartVisualization s;
     inputValue := inputValue s; sendButton := sendButton s;
     nodes := nodes s; messageArea := messageArea s;
     abortedSignals := abortedSignals s; inflight := inflight s;
     nextRequest := nextRequest s; pollers := pollers s |}.

Definition set_chartCounter (v : nat) (s : State) : State :=
  {| isProcessing := isProcessing s;
     currentAbortController := currentAbortController s;
     lastUserMessageContainer := lastUserMessageContainer s;
     activeEditableBubble := activeEditableBubble s;
     conversationHistory := conversationHistory s;
     chartCounter := v;
     showChartVisualization := showChartVisualization s;
     inputValue := inputValue s; sendButton := sendButton s;
     nodes := nodes s; messageArea := messageArea s;
     abortedSignals := abortedSignals s; inflight := inflight s;
     nextRequest := nextRequest s; pollers := pollers s |}.

Definition set_showChartVisualization (v : bool) (s : State) : State :=
  {| isProcessing := isProcessing s;
     currentAbortController := currentAbortController s;
     lastUserMessageContainer := lastUserMessageContainer s;
     activeEditableBubble := activeEditableBubble s;
     conversationHistory := conversationHistory s;
     chartCounter := chartCounter s;
     showChartVisualization := v;
     inputValue := inputValue s; sendButton := sendButton s;
     nodes := nodes s; messageArea := messageArea s;
     abortedSignals := abortedSignals s; inflight := inflight s;
     nextRequest := nextRequest s; pollers := pollers s |}.

Definition set_inputValue (v : string) (s : State) : State :=
  {| isProcessing := isProcessing s;
     currentAbortController := currentAbortController s;
     lastUserMessageContainer := lastUserMessageContainer s;
     activeEditableBubble := activeEditableBubble s;
     conversationHistory := conversationHistory s;
     chartCounter := chartCounter s;
     showChartVisualization := showChartVisualization s;
     inputValue := v; sendButton := sendButton s;
     nodes := nodes s; messageArea := messageArea s;
     abortedSignals := abortedSignals s; inflight := inflight s;
     nextRequest := nextRequest s; pollers := pollers s |}.

Definition set_sendButton (v : Button) (s : State) : State :=
  {| isProcessing := isProcessing s;
     currentAbortController := currentAbortController s;
     lastUserMessageContainer := lastUserMessageContainer s;
     activeEditableBubble := activeEditableBubble s;
     conversationHistory := conversationHistory s;
     chartCounter := chartCounter s;
     showChartVisualization := showChartVisualization s;
     inputValue := inputValue s; sendButton := v;
     nodes := nodes s; messageArea := messageArea s;
     abortedSignals := abortedSignals s; inflight := inflight s;
     nextRequest := nextRequest s; pollers := pollers s |}.

Definition set_nodes (v : list Container) (s : State) : State :=
  {| isProcessing := isProcessing s;
     currentAbortController := currentAbortController s;
     lastUserMessageContainer := lastUserMessageContainer s;
     activeEditableBubble := activeEditableBubble s;
     conversationHistory := conversationHistory s;
     chartCounter := chartCounter s;
     showChartVisualization := showChartVisualization s;
     inputValue := inputValue s; sendButton := sendButton s;
     nodes := v; messageArea := messageArea s;
     abortedSignals := abortedSignals s; inflight := inflight s;
     nextRequest := nextRequest s; pollers := pollers s |}.

Definition set_messageArea (v : list Item) (s : State) : State :=
  {| isProcessing := isProcessing s;
     currentAbortController := currentAbortController s;
     lastUserMessageContainer := lastUserMessageContainer s;
     activeEditableBubble := activeEditableBubble s;
     conversationHistory := conversationHistory s;
     chartCounter := chartCounter s;
     showChartVisualization := showChartVisualization s;
     inputValue := inputValue s; sendButton := sendButton s;
     nodes := nodes s; messageArea := v;
     abortedSignals := abortedSignals s; inflight := inflight s;
     nextRequest := nextRequest s; pollers := pollers s |}.

Definition set_abortedSignals (v : list nat) (s : State) : State :=
  {| isProcessing := isProcessing s;
     currentAbortController := currentAbortController s;
     lastUserMessageContainer := lastUserMessageContainer s;
     activeEditableBubble := activeEditableBubble s;
     conversationHistory := conversationHistory s;
     chartCounter := chartCounter s;
     showChartVisualization := showChartVisualization s;
     inputValue := inputValue s; sendButton := sendButton s;
     nodes := nodes s; messageArea := messageArea s;
     abortedSignals := v; inflight := inflight s;
     nextRequest := nextRequest s; pollers := pollers s |}.

Definition set_inflight (v : list Pending) (s : State) : State :=
  {| isProcessing := isProcessing s;
     currentAbortController := currentAbortController s;
     lastUserMessageContainer := lastUserMessageContainer s;
     activeEditableBubble := activeEditableBubble s;
     conversationHistory := conversationHistory s;
     chartCounter := chartCounter s;
     showChartVisualization := showChartVisualization s;
     inputValue := inputValue s; sendButton := sendButton s;
     nodes := nodes s; messageArea := messageArea s;
     abortedSignals := abortedSignals s; inflight := v;
     nextRequest := nextRequest s; pollers := pollers s |}.

Definition set_nextRequest (v : nat) (s : State) : State :=
  {| isProcessing := isProcessing s;
     currentAbortController := currentAbortController s;
     lastUserMessageContainer := lastUserMessageContainer s;
     activeEditableBubble := activeEditableBubble s;
     conversationHistory := conversationHistory s;
     chartCounter := chartCounter s;
     showChartVisualization := showChartVisualization s;
     inputValue := inputValue s; sendButton := sendButton s;
     nodes := nodes s; messageArea := messageArea s;
     abortedSignals := abortedSignals s; inflight := inflight s;
     nextRequest := v; pollers := pollers s |}.

Definition set_pollers (v : list string) (s : State) : State :=
  {| isProcessing := isProcessing s;
     currentAbortController := currentAbortController s;
     lastUserMessageContainer := lastUserMessageContainer s;
     activeEditableBubble := activeEditableBubble s;
     conversationHistory := conversationHistory s;
     chartCounter := chartCounter s;
     showChartVisualization := showChartVisualization s;
     inputValue := inputValue s; sendButton := sendButton s;
     nodes := nodes s; messageArea := messageArea s;
     abortedSignals := abortedSignals s; inflight := inflight s;
     nextRequest := nextRequest s; pollers := v |}.

(** The widget as the page loads it: the welcome message, an empty
    input, the button reading "Send". *)
Definition initial : State :=
  {| isProcessing := false;
     currentAbortController := None;
     lastUserMessageContainer := None;
     activeEditableBubble := None;
     conversationHistory := [];
     chartCounter := 0;
     showChartVisualization := false;
     inputValue := "";
     sendButton := {| textContent := "Send"; dataState := None |};
     nodes := []; messageArea := [Welcome];
     abortedSignals := []; inflight := [];
     nextRequest := 0; pollers := [] |}.

(** *** The DOM helpers *)

(** Applies [f] to the container behind a reference; a null reference
    ([if (!container) return;]) changes nothing. *)
Definition onNode (ref : option nat) (f : Container -> Container)
    (s : State) : State :=
  match ref with
  | Some i => set_nodes (alter f i (nodes s)) s
  | None => s
  end.

Definition freshContainer : Container :=
  {| contentEditable := false; isEditing := false; keydownHooked := false;
     hasActions := false; hasCopyButton := false; hasEditButton := false |}.

(** Creates the action bar when it is missing, then the copy button
    when that is missing. *)
Definition ensureUserActions (c : Container) : Container :=
  {| contentEditable := contentEditable c; isEditing := isEditing c;
     keydownHooked := keydownHooked c;
     hasActions := true;
     hasCopyButton := true;
     hasEditButton := hasEditButton c |}.

Definition addEditButton (c : Container) : Container :=
  if negb (hasActions c) then c
  else if hasEditButton c then c
  else {| contentEditable := contentEditable c; isEditing := isEditing c;
          keydownHooked := keydownHooked c; hasActions := hasActions c;
          hasCopyButton := hasCopyButton c; hasEditButton := true |}.

Definition makeMessageEditable (c : Container) : Container :=
  addEditButton (ensureUserActions c).

Definition removeEditToolbar (c : Container) : Container :=
  {| contentEditable := contentEditable c; isEditing := false;
     keydownHooked := false; hasActions := hasActions c;
     hasCopyButton := hasCopyButton c; hasEditButton := false |}.

Definition setContentEditable (v : bool) (c : Container) : Container :=
  {| contentEditable := v; isEditing := isEditing c;
     keydownHooked := keydownHooked c; hasActions := hasActions c;
     hasCopyButton := hasCopyButton c; hasEditButton := hasEditButton c |}.

(** [enableEditing(container)], the edit button's click listener. *)
Definition enableEditing (i : nat) (s : State) : State :=
  let s := onNode (Some i)
             (fun c => {| contentEditable := true; isEditing := true;
                          keydownHooked := true; hasActions := hasActions c;
                          hasCopyButton := hasCopyButton c;
                          hasEditButton := hasEditButton c |}) s in
  set_activeEditableBubble (Some i) s.

Definition setProcessingState (processing : bool) (s : State) : State :=
  let s := set_isProcessing processing s in
  if processing
  then set_sendButton {| textContent := "Stop"; dataState := Some "processing" |} s
  else set_sendButton {| textContent := "Send"; dataState := None |} s.

(** [document.querySelector(".ai-chat-widget-loading")] and [remove()]:
    the first loading indicator goes. *)
Fixpoint removeLoading (area : list Item) : list Item :=
  match area with
  | [] => []
  | Loading :: rest => rest
  | item :: rest => item :: removeLoading rest
  end.

Definition displayLoading (isLoading : bool) (s : State) : State :=
  let area := removeLoading (messageArea s) in
  set_messageArea (if isLoading then area ++ [Loading] else area) s.

(** [displayMessage(message, type)]: a user message gets a container with
    the copy action and is pushed onto the history; any other type only
    gets a bubble.  Returns the reference a caller may keep. *)
Definition displayMessage (message type : string) (s : State)
    : option nat * State :=
  if String.eqb type "user" then
    let i := length (nodes s) in
    let s := set_nodes (nodes s ++ [ensureUserActions freshContainer]) s in
    let s := set_messageArea (messageArea s ++ [UserMessage i message]) s in
    let s := set_conversationHistory
               (conversationHistory s
                  ++ [{| role := user; content := message |}]) s in
    (Some i, s)
  else
    (None, set_messageArea (messageArea s ++ [AiMessage message]) s).

Definition clearConversationHistory (s : State) : State :=
  let s := set_conversationHistory [] s in
  let s := set_messageArea [Welcome] s in
  set_chartCounter 0 s.

Definition toggleChartVisualization (s : State) : State :=
  set_showChartVisualization (negb (showChartVisualization s)) s.

(** *** The transport *)

(** [controller.abort()]; a second call on the same controller does
    nothing. *)
Definition abort (ctrl : nat) (s : State) : State :=
  if existsb (Nat.eqb ctrl) (abortedSignals s) then s
  else set_abortedSignals (ctrl :: abortedSignals s) s.

Definition isAborted (ctrl : nat) (s : State) : bool :=
  existsb (Nat.eqb ctrl) (abortedSignals s).

(** [currentAbortController = new AbortController(); fetch(ask, ...)]:
    the body is serialised now, with the history as it stands. *)
Definition fetchAsk (from : Origin) (query : string)
    (chartRequest showCharts : bool) (s : State) : State :=
  let n := nextRequest s in
  let s := set_nextRequest (S n) s in
  let s := set_currentAbortController (Some n) s in
  set_inflight
    (inflight s
       ++ [{| req := n; origin := from;
              isChartRequest := chartRequest;
              shouldShowCharts := showCharts;
              sent := {| ask_query := query;
                         ask_conversation_history := conversationHistory s;
                         ask_show_charts := showCharts |};
              phase := AwaitFetch |}]) s.

(** *** Sending *)

(** [sendMessage], up to its first [await]. *)
Definition sendMessage (s : State) : State :=
  let query := trim (inputValue s) in
  if String.eqb query "" then s
  else
    let chartRequest := detectChartRequest query in
    let showCharts := showChartVisualization s || chartRequest in
    let '(container, s) := displayMessage query "user" s in
    let s := set_lastUserMessageContainer container s in
    let s := set_inputValue "" s in
    let s := displayLoading true s in
    let s := setProcessingState true s in
    fetchAsk FromInput query chartRequest showCharts s.

(** [startRequest(query)], up to its first [await]. *)
Definition startRequest (query : string) (s : State) : State :=
  let chartRequest := detectChartRequest query in
  let showCharts := showChartVisualization s || chartRequest in
  let s := displayLoading true s in
  let s := setProcessingState true s in
  fetchAsk FromEdit query chartRequest showCharts s.

(** [conversationHistory.length > 0 && last.role === 'user'] then
    [pop()]. *)
Definition popLastIfUser (history : list Turn) : list Turn :=
  match last history with
  | Some {| role := user |} => removelast history
  | _ => history
  end.

Definition stopRequest (s : State) : State :=
  let s := match currentAbortController s with
           | Some ctrl => abort ctrl s
           | None => s
           end in
  let s := displayLoading false s in
  let s := setProcessingState false s in
  let s := set_conversationHistory (popLastIfUser (conversationHistory s)) s in
  onNode (lastUserMessageContainer s) makeMessageEditable s.

(** The part shared by the two commit paths, once [edited] is known to
    be non-empty. *)
Definition commitEdit (edited : string) (s : State) : State :=
  let s := set_conversationHistory
             (conversationHistory s
                ++ [{| role := user; content := edited |}]) s in
  let s := onNode (lastUserMessageContainer s) removeEditToolbar s in
  let s := onNode (activeEditableBubble s) (setContentEditable false) s in
  let s := set_activeEditableBubble None s in
  startRequest edited s.

(** [handleSendButtonClick]; [innerText] is what
    [activeEditableBubble.innerText] reads when the click arrives (the
    text the user left in the bubble). *)
Definition handleSendButtonClick (innerText : string) (s : State) : State :=
  if isProcessing s then stopRequest s
  else
    match activeEditableBubble s with
    | Some _ =>
        let edited := trim innerText in
        if negb (truthy edited) then s else commitEdit edited s
    | None => sendMessage s
    end.

Inductive Key : Type := Enter | OtherKey.

(** [onEditableBubbleKeydown(event)], with [innerText] as above. *)
Definition onEditableBubbleKeydown (key : Key) (shiftKey : bool)
    (innerText : string) (s : State) : State :=
  match key with
  | Enter =>
      if shiftKey then s
      else
        match activeEditableBubble s with
        | None => s
        | Some _ =>
            let edited := trim innerText in
            if negb (truthy edited) then s else commitEdit edited s
        end
  | OtherKey => s
  end.

(** The [keydown] listener of the input field. *)
Definition onInputKeydown (key : Key) (s : State) : State :=
  match key with
  | Enter =>
      if isProcessing s then s
      else
        match activeEditableBubble s with
        | None => sendMessage s
        | Some _ => s
        end
  | OtherKey => s
  end.

(** *** Settling *)

Definition apology : string :=
  "Sorry, could not connect to the AI service. Please ensure the backend is running.".

(** [error.name === 'AbortError' || error.code === 20] *)
Definition aborted (e : Error) : bool :=
  String.eqb (name e) "AbortError"
  || match code e with Some n => n =? 20 | None => false end.

Definition findPending (n : nat) (s : State) : option Pending :=
  find (fun p => req p =? n) (inflight s).

Definition dropPending (n : nat) (s : State) : State :=
  set_inflight (List.filter (fun p => negb (req p =? n)) (inflight s)) s.

Definition park (p : Pending) (ph : Phase) (s : State) : State :=
  set_inflight
    (map (fun q => if req q =? req p
                   then {| req := req q; origin := origin q;
                           isChartRequest := isChartRequest q;
                           shouldShowCharts := shouldShowCharts q;
                           sent := sent q; phase := ph |}
                   else q) (inflight s)) s.

(** After [await fetch(...)] resolved, up to [await response.json()]. *)
Definition afterFetch (p : Pending) (ok : bool) (s : State) : State :=
  let s := displayLoading false s in
  let s := setProcessingState false s in
  let s := set_currentAbortController None s in
  park p (AwaitJson ok) s.

(** The [!response.ok] branch, after its body was parsed. *)
Definition afterErrorBody (errorData : Body) (s : State) : State :=
  let shown := orElse (detail errorData) "An unknown error occurred." in
  let s := snd (displayMessage shown "ai" s) in
  set_conversationHistory
    (conversationHistory s ++ [{| role := assistant; content := shown |}]) s.

Definition truthyField (v : option string) : bool :=
  match v with Some x => truthy x | None => false end.

(** The enrichment block: the pending slot is appended and the progress
    timer and the first poll are scheduled (see [Poller]). *)
Definition startEnrichment (requestId : string)
    (group : list Part) (s : State) : list Part * State :=
  (group ++ [InsightsPending requestId],
   set_pollers (pollers s ++ [requestId]) s).

(** The success branch, after the body was parsed. [sendMessage] tests
    the [shouldShowCharts] it captured; [startRequest] reads the toggle
    again. *)
Definition afterResult (p : Pending) (result : Body) (s : State) : State :=
  let s := match conversation_history result with
           | Some (t :: ts) => set_conversationHistory (t :: ts) s
           | _ => s
           end in
  let '(group, s) :=
    if truthyField (error result) then
      ([MessageBubble (default "" (error result))],
       set_conversationHistory
         (conversationHistory s
            ++ [{| role := assistant;
                   content := "An error occurred. Please check the logs." |}]) s)
    else if truthyField (question result) then
      ([MessageBubble (default "" (question result))], s)
    else
      match data result with
      | Some (row :: rows) =>
          let rowsAll := row :: rows in
          let charts := match origin p with
                        | FromInput => shouldShowCharts p
                        | FromEdit => showChartVisualization s || isChartRequest p
                        end in
          match chart result with
          | Some ch =>
              if charts then
                let group := [IntroBubble "Here's a visualization of your data:"] in
                let s := set_chartCounter (S (chartCounter s)) s in
                let group := group ++ [ChartBubble (chartCounter s) ch rowsAll] in
                let '(group, s) :=
                  if truthyField (request_id result)
                  then startEnrichment (default "" (request_id result)) group s
                  else (group, s) in
                (group ++ [TableContainer rowsAll], s)
              else
                ([IntroBubble "Here are the results for your query:";
                  TableBubble rowsAll], s)
          | None =>
              ([IntroBubble "Here are the results for your query:";
                TableBubble rowsAll], s)
          end
      | _ => ([MessageBubble "No results found for your query."], s)
      end in
  set_messageArea (messageArea s ++ [AiGroup (group ++ [Avatar])]) s.

(** The [catch] block of both functions. *)
Definition onRejected (e : Error) (s : State) : State :=
  let s := displayLoading false s in
  let s := setProcessingState false s in
  if aborted e then s
  else snd (displayMessage apology "ai" s).

(** *** The event loop *)

Inductive Event : Type :=
| TypeInput (text : string)
| InputKeydown (key : Key)
| SendButtonClick (innerText : string)
| EditButtonClick (container : nat)
| BubbleKeydown (container : nat) (key : Key) (shiftKey : bool)
                (innerText : string)
| RefreshButtonClick
| VisualizationToggle
| FetchResolved (request : nat) (ok : bool)
| JsonResolved (request : nat) (body : Body)
| Rejected (request : nat) (error : Error).

(** One task of the event loop.  A click or key press reaches a listener
    only where the DOM has one: the edit button must exist, the bubble
    must be editable and carry the keydown listener.  A settlement
    resumes the run that is parked on it; a fetch whose signal was
    aborted can only reject. *)
Definition handleEvent (e : Event) (s : State) : State :=
  match e with
  | TypeInput text => set_inputValue text s
  | InputKeydown key => onInputKeydown key s
  | SendButtonClick innerText => handleSendButtonClick innerText s
  | EditButtonClick i =>
      match nodes s !! i with
      | Some c => if hasEditButton c then enableEditing i s else s
      | None => s
      end
  | BubbleKeydown i key shiftKey innerText =>
      match nodes s !! i with
      | Some c =>
          if keydownHooked c && contentEditable c
          then onEditableBubbleKeydown key shiftKey innerText s
          else s
      | None => s
      end
  | RefreshButtonClick => clearConversationHistory s
  | VisualizationToggle => toggleChartVisualization s
  | FetchResolved n ok =>
      match findPending n s with
      | Some p =>
          match phase p with
          | AwaitFetch => if isAborted n s then s else afterFetch p ok s
          | AwaitJson _ => s
          end
      | None => s
      end
  | JsonResolved n body =>
      match findPending n s with
      | Some p =>
          match phase p with
          | AwaitJson true => afterResult p body (dropPending n s)
          | AwaitJson false => afterErrorBody body (dropPending n s)
          | AwaitFetch => s
          end
      | None => s
      end
  | Rejected n error =>
      match findPending n s with
      | Some _ => onRejected error (dropPending n s)
      | None => s
      end
  end.

Definition run (events : list Event) (s : State) : State :=
  fold_left (fun st e => handleEvent e st) events s.

(** The requests whose fetch is under way: dispatched, not settled, not
    aborted. *)
Definition live (s : State) : list Pending :=
  List.filter
    (fun p => match phase p with
              | AwaitFetch => negb (isAborted (req p) s)
              | AwaitJson _ => false
              end) (inflight s).

(** *** Values the scenarios below are told with *)

Definition idleButton : Button := {| textContent := "Send"; dataState := None |}.

Definition stopButton : Button :=
  {| textContent := "Stop"; dataState := Some "processing" |}.

Definition userTurn (text : string) : Turn := {| role := user; content := text |}.

Definition assistantTurn (text : string) : Turn :=
  {| role := assistant; content := text |}.

(** The reason an aborted signal rejects its fetch with: a DOMException
    named AbortError, legacy code 20; the wording varies by browser. *)
Definition abortError (wording : string) : Error :=
  {| name := "AbortError"; code := Some 20; message := wording |}.

(** What [fetch] rejects with when the network is unreachable. *)
Definition networkError (wording : string) : Error :=
  {| name := "TypeError"; code := None; message := wording |}.


(** A 200 answer with rows and the server's history. *)
Definition rowsWithHistory (rows : list Json) (h : list Turn) : Body :=
  {| detail := None; error := None; question := None; data := Some rows;
     chart := None; request_id := None; conversation_history := Some h |}.

(** A 200 answer that reports an error next to the server's history. *)
Definition failureWithHistory (text : string) (h : list Turn) : Body :=
  {| detail := None; error := Some text; question := None; data := None;
     chart := None; request_id := None; conversation_history := Some h |}.

(** A non-2xx body with its structured detail. *)
Definition errorDetail (text : string) : Body :=
  {| detail := Some text; error := None; question := None; data := None;
     chart := None; request_id := None; conversation_history := None |}.

(** Whether the bubble of container [i] can be typed into. *)
Definition editable (i : nat) (s : State) : bool :=
  match nodes s !! i with
  | Some c => contentEditable c
  | None => false
  end.

End Widget.

(** ** The enrichment poller *)

Module Poller.
Import Js.

(** The parsed body of a status check. *)
Record StatusBody : Type := {
  status : string;
  insights : option string;
  follow_up_questions : option (list string)
}.

(** How one status check settles: with a parsed body, or with the
    [fetch] or the [json()] rejecting.  Every check is taken to settle. *)
Inductive Outcome : Type :=
| Answered (j : StatusBody)
| Failed.

(** The three ways the slot of the pending insights ends up. *)
Inductive Terminal : Type :=
| ReadyPayload (shownInsights : option string) (shownFollowUps : list string)
| Unavailable            (* 'Insights unavailable.' *)
| TookTooLong.           (* 'Insights took too long to generate.' *)

(** What a polling run does, in order. *)
Inductive Effect : Type :=
| SetInterval (ms : nat)      (* the progress timer starts *)
| SetTimeout (ms : nat)       (* setTimeout(poll, ms) *)
| FetchStatus                 (* fetch of the insights status *)
| ClearInterval               (* clearInterval(stepTimer) *)
| Render (t : Terminal).      (* the slot is emptied and refilled *)

Definition maxAttempts : nat := 20.

(** The [try] block of [poll]: it either returns, after clearing the
    timer and rendering, or falls through to [attempts++] (also from the
    empty [catch]). *)
Inductive Verdict : Type :=
| Return (effects : list Effect)
| FallThrough.

Definition tryBlock (o : Outcome) : Verdict :=
  match o with
  | Answered j =>
      if String.eqb (status j) "ready" then
        Return
          [ClearInterval;
           Render (ReadyPayload
                     (match insights j with
                      | Some text => if truthy text then Some text else None
                      | None => None
                      end)
                     (match follow_up_questions j with
                      | Some (q :: qs) => q :: qs
                      | _ => []
                      end))]
      else if String.eqb (status j) "error" then
        Return [ClearInterval; Render Unavailable]
      else FallThrough
  | Failed => FallThrough
  end.

(** [poll], with the closure variable [attempts] as an argument;
    [checks n] is how the status check made after [n] counted attempts
    settles.  [setTimeout(poll, 1000)] is the recursive call. *)
Equations? poll (checks : nat -> Outcome) (attempts : nat) : list Effect
  by wf (maxAttempts - attempts) lt :=
  poll checks attempts with tryBlock (checks attempts) := {
    | Return effects => FetchStatus :: effects
    | FallThrough with lt_dec (S attempts) maxAttempts := {
        | left more =>
            FetchStatus :: SetTimeout 1000 :: poll checks (S attempts)
        | right _ =>
            [FetchStatus; ClearInterval; Render TookTooLong] } }.
Proof. unfold maxAttempts in *. lia. Qed.

(** What the response handler sets going when the result carries a
    [request_id]. *)
Definition startPolling (checks : nat -> Outcome) : list Effect :=
  SetInterval 900 :: SetTimeout 1000 :: poll checks 0.

Definition isFetch (e : Effect) : bool :=
  match e with FetchStatus => true | _ => false end.

Definition isRender (e : Effect) : bool :=
  match e with Render _ => true | _ => false end.

Definition isTimeout (e : Effect) : bool :=
  match e with SetTimeout _ => true | _ => false end.

Definition isClear (e : Effect) : bool :=
  match e with ClearInterval => true | _ => false end.

Definition count (f : Effect -> bool) (trace : list Effect) : nat :=
  length (List.filter f trace).

(** Whether the progress timer is running once [trace] has happened. *)
Fixpoint timerRunning (running : bool) (trace : list Effect) : bool :=
  match trace with
  | [] => running
  | SetInterval _ :: rest => timerRunning true rest
  | ClearInterval :: rest => timerRunning false rest
  | _ :: rest => timerRunning running rest
  end.

(** [k] checks that fall through, each followed by its rescheduling. *)
Fixpoint retries (k : nat) : list Effect :=
  match k with
  | 0 => []
  | S k' => FetchStatus :: SetTimeout 1000 :: retries k'
  end.

(** Nothing of the poll loop is left: no check and no timeout. *)
Definition quiet (trace : list Effect) : bool :=
  forallb (fun e => negb (isFetch e || isTimeout e)) trace.

End Poller.

(** ** The event loop as a step relation, and what it keeps *)

Module Lifecycle.
Import Js ChartIntent Widget.

(** What one task of the event loop can do to the state: nothing (a guard
    refused it, or there was no listener), or one of the handlers with
    the condition under which [handleEvent] runs it. *)
Inductive Step : State -> State -> Prop :=
| StepNone (s : State) : Step s s
| StepType (text : string) (s : State) : Step s (set_inputValue text s)
| StepSend (s : State) :
    isProcessing s = false -> trim (inputValue s) <> "" ->
    Step s (sendMessage s)
| StepStop (s : State) : isProcessing s = true -> Step s (stopRequest s)
| StepCommit (innerText : string) (s : State) :
    trim innerText <> "" -> Step s (commitEdit (trim innerText) s)
| StepEdit (i : nat) (c : Container) (s : State) :
    nodes s !! i = Some c -> hasEditButton c = true ->
    Step s (enableEditing i s)
| StepClear (s : State) : Step s (clearConversationHistory s)
| StepToggle (s : State) : Step s (toggleChartVisualization s)
| StepFetched (p : Pending) (ok : bool) (s : State) :
    In p (inflight s) -> Step s (afterFetch p ok s)
| StepResult (p : Pending) (result : Body) (s : State) :
    In p (inflight s) -> Step s (afterResult p result (dropPending (req p) s))
| StepErrorBody (n : nat) (errorData : Body) (s : State) :
    Step s (afterErrorBody errorData (dropPending n s))
| StepRejected (n : nat) (e : Error) (s : State) :
    Step s (onRejected e (dropPending n s)).

(** The states the widget can be in: those some sequence of events leads
    to from the page as loaded. *)
Definition reachable (s : State) : Prop :=
  exists events, s = run events initial.

Definition isLoading (item : Item) : bool :=
  match item with Loading => true | _ => false end.

Definition loadingCount (area : list Item) : nat :=
  length (List.filter isLoading area).

(** At most one loading indicator, and only while the flag is set. *)
Definition loadingKept (s : State) : Prop :=
  loadingCount (messageArea s) <= 1
  /\ (loadingCount (messageArea s) = 1 -> isProcessing s = true).

(** The action control reads "Stop" exactly while the flag is set. *)
Definition buttonKept (s : State) : Prop :=
  sendButton s = if isProcessing s then stopButton else idleButton.

(** The two references into the DOM point at containers that exist, and
    the bubble in edit mode can be typed into and has the key listener. *)
Definition referencesKept (s : State) : Prop :=
  (forall i, lastUserMessageContainer s = Some i -> i < length (nodes s))
  /\ (forall i, activeEditableBubble s = Some i ->
        exists c, nodes s !! i = Some c
                  /\ contentEditable c = true /\ keydownHooked c = true).


(** What every request that was sent looks like. *)
Definition wellFormedRequest (p : Pending) : Prop :=
  ask_query (sent p) <> ""
  /\ trim (ask_query (sent p)) = ask_query (sent p)
  /\ last (ask_conversation_history (sent p))
     = Some (userTurn (ask_query (sent p)))
  /\ isChartRequest p = detectChartRequest (ask_query (sent p))
  /\ ask_show_charts (sent p) = shouldShowCharts p
  /\ (isChartRequest p = true -> ask_show_charts (sent p) = true).

Definition bodiesKept (s : State) : Prop :=
  forall p, In p (inflight s) -> wellFormedRequest p.




(** Nothing but white space, as [trim] sees it. *)
Fixpoint blank (text : string) : bool :=
  match text with
  | EmptyString => true
  | String c rest => isWhiteSpace c && blank rest
  end.

End Lifecycle.

(** ** Status checks, by what they leave to do *)

Module Checks.
Import Js Poller.

(** A check that leaves the job undecided: its transport failed, or it
    answered with a status other than 'ready' and 'error'. *)
Definition undecided (o : Outcome) : bool :=
  match o with
  | Failed => true
  | Answered j =>
      negb (String.eqb (status j) "ready")
      && negb (String.eqb (status j) "error")
  end.

End Checks.

(** ** Resizing the chat window *)

From Stdlib Require Import ZArith.

Module Resize.
Import Js.

(** What [initResize] remembers of the moment the drag began. *)
Record ResizeState : Type := {
  width : Z; height : Z; x : Z; y : Z; direction : string
}.

Record MouseEvent : Type := { clientX : Z; clientY : Z }.

(** The chat window as the three handlers see it: its inline size in
    pixels (when one was set), the drag in progress, and whether the
    mousemove and mouseup listeners are registered on [window]. *)
Record Window : Type := {
  styleWidth : option Z;
  styleHeight : option Z;
  initialResizeState : option ResizeState;
  listening : bool
}.

Definition minWidth : Z := 280.
Definition minHeight : Z := 300.

(** [initResize(e)]; [attribute] is the handle's [data-direction] and
    [offsetWidth], [offsetHeight] what the layout reports for the window
    when the button goes down. *)
Definition initResize (attribute : option string) (offsetWidth offsetHeight : Z)
    (e : MouseEvent) (w : Window) : Window :=
  match attribute with
  | None => w
  | Some d =>
      if negb (truthy d) then w
      else {| styleWidth := styleWidth w; styleHeight := styleHeight w;
              initialResizeState :=
                Some {| width := offsetWidth; height := offsetHeight;
                        x := clientX e; y := clientY e; direction := d |};
              listening := true |}
  end.

Definition startResizing (e : MouseEvent) (w : Window) : Window :=
  match initialResizeState w with
  | None => w
  | Some st =>
      let dx := (clientX e - x st)%Z in
      let dy := (clientY e - y st)%Z in
      let newWidth :=
        if includes (direction st) "e" then (width st + dx)%Z
        else if includes (direction st) "w" then (width st - dx)%Z
        else width st in
      let newHeight :=
        if includes (direction st) "s" then (height st + dy)%Z
        else if includes (direction st) "n" then (height st - dy)%Z
        else height st in
      let newWidth := if (newWidth <? minWidth)%Z then minWidth else newWidth in
      let newHeight := if (newHeight <? minHeight)%Z then minHeight else newHeight in
      {| styleWidth := Some newWidth; styleHeight := Some newHeight;
         initialResizeState := initialResizeState w;
         listening := listening w |}
  end.

Definition stopResizing (w : Window) : Window :=
  {| styleWidth := styleWidth w; styleHeight := styleHeight w;
     initialResizeState := None; listening := false |}.

(** A mouse move reaches [startResizing] only while the listeners are
    registered. *)
Definition onMouseMove (e : MouseEvent) (w : Window) : Window :=
  if listening w then startResizing e w else w.

Definition onMouseUp (w : Window) : Window :=
  if listening w then stopResizing w else w.

End Resize.

(** ** Chart types *)

Module ChartTypes.
Import Js.

(** The two tables of [CHART_CONFIG] the widget reads. *)
Record ChartConfig : Type := {
  enabledCharts : option (list (string * bool));
  advancedCharts : option (list (string * bool))
}.

(** The configuration object of config.js.  It is declared there with
    [const], which makes no property of [window]: unless the page assigns
    [window.CHART_CONFIG] itself, [isChartTypeEnabled] runs without a
    configuration ([None] below). *)
Definition CHART_CONFIG : ChartConfig :=
  {| enabledCharts :=
       Some [ ("bar", true); ("column", true); ("line", true); ("area", true);
              ("pie", true); ("doughnut", true); ("scatter", true);
              ("stackedColumn", true); ("spline", false); ("bubble", false);
              ("stacked", false); ("stackedBar", false); ("radar", false);
              ("polar", false); ("funnel", false); ("pyramid", false);
              ("heatmap", false); ("boxplot", false); ("waterfall", false) ];
     advancedCharts :=
       Some [ ("kpi", true); ("combo", true); ("map_scatter", false);
              ("map_bubble", false); ("map_pie", false);
              ("map_bubble_pie", false); ("pivot", false); ("web", false) ] |}.

(** [obj.hasOwnProperty(key)] and [obj[key]] in one: the value of an own
    property. *)
Fixpoint own {V : Type} (key : string) (obj : list (string * V)) : option V :=
  match obj with
  | [] => None
  | (k, v) :: rest => if String.eqb k key then Some v else own key rest
  end.

Definition coreChartTypes : list string :=
  [ "bar"; "column"; "line"; "area"; "pie"; "doughnut"; "scatter";
    "stackedColumn"; "kpi"; "combo" ].

(** [isChartTypeEnabled(type)], with [window.CHART_CONFIG] as an
    argument ([None] when the page did not define it). *)
Definition isChartTypeEnabled (config : option ChartConfig) (type : string) : bool :=
  match config with
  | None => true
  | Some config =>
      match match enabledCharts config with
            | Some table => own type table
            | None => None
            end with
      | Some flag => flag
      | None =>
          match match advancedCharts config with
                | Some table => own type table
                | None => None
                end with
          | Some flag => flag
          | None => existsb (String.eqb type) coreChartTypes
          end
      end
  end.

(** What the chart functions read of [chartData]. *)
Record ChartData : Type := {
  type : string;
  labels : option (list string)
}.

Definition getFallbackChartType (config : option ChartConfig)
    (originalType : string) (data : ChartData) : string :=
  if isChartTypeEnabled config originalType then originalType
  else
    match labels data with
    | Some l =>
        let labelCount := length l in
        if labelCount <=? 6 then "pie"
        else if 10 <? labelCount then "column"
        else "bar"
    | None => "bar"
    end.

(** [renderChart], up to the call of the chart library: the type of
    [chartData] is overwritten with the validated one. *)
Definition renderChart (config : option ChartConfig) (chartData : ChartData)
    : ChartData :=
  let originalType := type chartData in
  let validatedType := getFallbackChartType config (type chartData) chartData in
  if negb (String.eqb validatedType originalType)
  then {| type := validatedType; labels := labels chartData |}
  else chartData.

Definition typeMap : list (string * string) :=
  [ ("bar", "Bar"); ("horizontalBar", "Bar"); ("line", "Line"); ("pie", "Pie");
    ("doughnut", "Doughnut"); ("area", "Area"); ("scatter", "Scatter");
    ("column", "Column"); ("stackedColumn", "StackedColumn");
    ("spline", "Line"); ("bubble", "Scatter"); ("stacked", "StackedColumn");
    ("stackedBar", "StackedColumn"); ("radar", "Column"); ("polar", "Column");
    ("funnel", "Bar"); ("pyramid", "Bar"); ("heatmap", "Column");
    ("boxplot", "Column"); ("waterfall", "Column") ].

(** The names every object literal inherits from [Object.prototype]; a
    lookup of one of them in [typeMap] finds the inherited member. *)
Definition objectPrototypeMembers : list string :=
  [ "constructor"; "__defineGetter__"; "__defineSetter__"; "hasOwnProperty";
    "__lookupGetter__"; "__lookupSetter__"; "isPrototypeOf";
    "propertyIsEnumerable"; "toString"; "valueOf"; "__proto__";
    "toLocaleString" ].

(** What [typeMap[chartJsType] || 'Column'] evaluates to: a series name,
    or an inherited member (truthy, not a string). *)
Inductive Looked : Type :=
| Series (name : string)
| Inherited (member : string).

Definition mapChartTypeToSyncfusion (chartJsType : string) : Looked :=
  match own chartJsType typeMap with
  | Some name => Series name
  | None =>
      if existsb (String.eqb chartJsType) objectPrototypeMembers
      then Inherited chartJsType
      else Series "Column"
  end.

End ChartTypes.

(** ** Tables and their CSV export *)

Module Csv.
Import Js.

(** A cell of a result row, for the primitive JSON values.  A number
    carries the text [String(n)] gives for it and whether it is truthy
    (neither 0 nor NaN).  [Member] is no JSON value: it stands for the
    member of [Object.prototype] that a lookup by that name finds on a row
    which has no such column. *)
Inductive Cell : Type :=
| Text (s : string)
| Number (shown : string) (nonzero : bool)
| Boolean (b : bool)
| Null
| Member (name : string).

(** A row object: its own properties in the order [Object.keys] lists
    them. *)
Definition Row : Type := list (string * Cell).

Definition quoteChar : ascii := ascii_of_nat 34.
Definition quote : string := String quoteChar EmptyString.
Definition CRLF : string :=
  String (ascii_of_nat 13) (String (ascii_of_nat 10) EmptyString).

Definition truthyCell (c : Cell) : bool :=
  match c with
  | Text s => truthy s
  | Number _ nonzero => nonzero
  | Boolean b => b
  | Null => false
  | Member _ => true
  end.

(** [rowData[header]]: the row's own property, or else the member of that
    name inherited from [Object.prototype]; [None] for [undefined]. *)
Definition property (rowData : Row) (header : string) : option Cell :=
  match ChartTypes.own header rowData with
  | Some v => Some v
  | None =>
      if existsb (String.eqb header) ChartTypes.objectPrototypeMembers
      then Some (Member header)
      else None
  end.

(** The text [String] gives for a member of [Object.prototype], as V8
    prints it: the prototype itself for [__proto__], a native function
    for every other name (the constructor is [Object]).  The white space
    inside it differs between engines. *)
Definition memberText (name : string) : string :=
  if String.eqb name "__proto__" then "[object Object]"
  else if String.eqb name "constructor" then "function Object() { [native code] }"
  else ("function " ++ name ++ "() { [native code] }")%string.

(** The [replace] of [downloadCSV]: every double quote of the cell is
    written twice. *)
Fixpoint doubleQuotes (s : string) : string :=
  match s with
  | EmptyString => EmptyString
  | String c rest =>
      if Ascii.eqb c quoteChar then String c (String c (doubleQuotes rest))
      else String c (doubleQuotes rest)
  end.

(** The callback of [headers.map] in [downloadCSV]. *)
Definition exportCell (rowData : Row) (header : string) : Cell :=
  let cell := match property rowData header with
              | Some v => if truthyCell v then v else Text ""
              | None => Text ""
              end in
  match cell with
  | Text s =>
      if includes s "," || includes s quote
      then Text (quote ++ doubleQuotes s ++ quote)%string
      else cell
  | _ => cell
  end.

(** The text [Array.prototype.join] puts for an element. *)
Definition joined (c : Cell) : string :=
  match c with
  | Text s => s
  | Number shown _ => shown
  | Boolean true => "true"
  | Boolean false => "false"
  | Null => ""
  | Member name => memberText name
  end.

Fixpoint join (separator : string) (items : list string) : string :=
  match items with
  | [] => ""
  | [item] => item
  | item :: rest => (item ++ separator ++ join separator rest)%string
  end.

(** One pass of [data.forEach] in [downloadCSV]. *)
Definition csvLine (headers : list string) (rowData : Row) : string :=
  (join "," (map (fun header => joined (exportCell rowData header)) headers)
   ++ CRLF)%string.

(** [downloadCSV(data, headers)], up to [csvContent] as it is handed to
    [encodeURI]. *)
Definition downloadCSV (data : list Row) (headers : list string) : string :=
  fold_left
    (fun csvContent rowData => (csvContent ++ csvLine headers rowData)%string)
    data
    ("data:text/csv;charset=utf-8," ++ join "," headers ++ CRLF)%string.

Fixpoint occurrences (c : ascii) (s : string) : nat :=
  match s with
  | EmptyString => 0
  | String d rest => (if Ascii.eqb d c then 1 else 0) + occurrences c rest
  end.

(** Reading a field's content back: every doubled quote becomes one; a
    single quote is refused. *)
Fixpoint undouble (s : string) : option string :=
  match s with
  | EmptyString => Some EmptyString
  | String c rest =>
      if Ascii.eqb c quoteChar
      then match rest with
           | String d rest' =>
               if Ascii.eqb d quoteChar
               then option_map (String c) (undouble rest')
               else None
           | EmptyString => None
           end
      else option_map (String c) (undouble rest)
  end.

(** What [createTableBubble] builds: the header cells, the body rows with
    their serial number, and the headers its CSV button exports. *)
Record Table : Type := {
  headerRow : list string;
  bodyRows : list (nat * list Cell);
  csvHeaders : list string
}.

(** [createTableBubble(data)]; [Object.keys(data[0])] throws on an empty
    [data] ([None]). *)
Definition createTableBubble (data : list Row) : option Table :=
  match data with
  | [] => None
  | first :: _ =>
      let headers := map fst first in
      Some {| headerRow := "Sr. No." :: headers;
              bodyRows := imap (fun index rowData => (index + 1, map snd rowData)) data;
              csvHeaders := headers |}
  end.

End Csv.

(** ** Message bubbles and code fences *)

Module Bubble.
Import Js.

Definition fence : string := "```".

(** [s.substring(n)] *)
Fixpoint substring (n : nat) (s : string) : string :=
  match n, s with
  | 0, _ => s
  | S n', String _ rest => substring n' rest
  | S _, EmptyString => EmptyString
  end.

(** The text before the first fence of [s] and the text after it, when
    there is a fence. *)
Fixpoint cut (s : string) : option (string * string) :=
  match s with
  | EmptyString => None
  | String c rest =>
      if startsWith s fence then Some (EmptyString, substring 3 s)
      else match cut rest with
           | Some (before, after) => Some (String c before, after)
           | None => None
           end
  end.

(** [message.split(/```([\s\S]*?)```/)]: text, code, text, code, ...,
    text.  A match needs an opening fence and the nearest closing one;
    what follows the last match is the last text.  [fuel] bounds the
    number of matches. *)
Fixpoint splitParts (fuel : nat) (s : string) : list string :=
  match fuel with
  | 0 => [s]
  | S fuel' =>
      match cut s with
      | None => [s]
      | Some (before, rest) =>
          match cut rest with
          | None => [s]
          | Some (code, after) => before :: code :: splitParts fuel' after
          end
      end
  end.

Definition split (message : string) : list string :=
  splitParts (String.length message) message.

Definition newline : ascii := ascii_of_nat 10.

(** The first line of [s]: what [split] on a line feed gives at index 0. *)
Fixpoint firstLine (s : string) : string :=
  match s with
  | EmptyString => EmptyString
  | String c rest =>
      if Ascii.eqb c newline then EmptyString else String c (firstLine rest)
  end.

Definition preOpen : string :=
  ("<pre class=" ++ Csv.quote ++ "ai-chat-widget-code-block" ++ Csv.quote
   ++ "><code>")%string.

Definition preClose : string := "</code></pre>".

(** The odd branch of the loop over [parts]. *)
Definition formatCode (part : string) : string :=
  let codeContent := trim part in
  let language := trim (firstLine codeContent) in
  let code := if truthy language
              then trim (substring (String.length language) codeContent)
              else codeContent in
  (preOpen ++ code ++ preClose)%string.

(** The loop over [parts]; [odd] tells whether the next part is code. *)
Fixpoint formatParts (odd : bool) (parts : list string) : string :=
  match parts with
  | [] => EmptyString
  | part :: rest =>
      ((if odd then formatCode part else part) ++ formatParts (negb odd) rest)%string
  end.

(** How a bubble gets its content. *)
Inductive Content : Type :=
| InnerText (text : string)
| InnerHTML (markup : string).

(** [createMessageBubble(message)] for a string message. *)
Definition createMessageBubble (message : string) : Content :=
  if includes message fence
  then InnerHTML (formatParts false (split message))
  else InnerText message.

Fixpoint noBacktick (s : string) : bool :=
  match s with
  | EmptyString => true
  | String c rest => negb (Ascii.eqb c "`"%char) && noBacktick rest
  end.

Fixpoint noNewline (s : string) : bool :=
  match s with
  | EmptyString => true
  | String c rest => negb (Ascii.eqb c newline) && noNewline rest
  end.

(** A message written as text, fenced code, text, fenced code, ...,
    text, and what it is rendered to. *)
Fixpoint fenced (blocks : list (string * string)) (closing : string) : string :=
  match blocks with
  | [] => closing
  | (text, code) :: rest =>
      (text ++ fence ++ code ++ fence ++ fenced rest closing)%string
  end.

Fixpoint rendered (blocks : list (string * string)) (closing : string) : string :=
  match blocks with
  | [] => closing
  | (text, code) :: rest =>
      (text ++ formatCode code ++ rendered rest closing)%string
  end.

Definition plain (blocks : list (string * string)) : bool :=
  forallb (fun block => noBacktick (fst block) && noBacktick (snd block)) blocks.

End Bubble.

(** ** Follow-up questions *)

Module FollowUp.

Definition apostrophe : ascii := ascii_of_nat 39.

(** [s.replace(/c/g, replacement)] for a pattern of one character. *)
Fixpoint replaceAll (c : ascii) (replacement s : string) : string :=
  match s with
  | EmptyString => EmptyString
  | String d rest =>
      if Ascii.eqb d c then (replacement ++ replaceAll c replacement rest)%string
      else String d (replaceAll c replacement rest)
  end.

(** The value written for the [data-question] attribute of a question's
    button. *)
Definition dataQuestion (question : string) : string :=
  replaceAll apostrophe "&#39;" (replaceAll Csv.quoteChar "&quot;" question).

(** One item of [createFollowUpQuestionsBubble]: its number, the text put
    in the markup and the attribute value. *)
Record QuestionItem : Type := {
  number : nat;
  text : string;
  attribute : string
}.

Definition createFollowUpQuestionsBubble (questions : list string)
    : list QuestionItem :=
  imap (fun index question =>
          {| number := index + 1; text := question;
             attribute := dataQuestion question |})
       questions.

End FollowUp.

(** * Properties *)

(** ** Strings *)

Module JsFacts.
Import Js.

Lemma startsWith_spec (s p : string) :
  startsWith s p = true <-> exists rest, s = (p ++ rest)%string.
Proof.
  revert s; induction p as [|a p IH]; intros s; simpl.
  - split; [intros _; now exists s | reflexivity].
  - destruct s as [|b s].
    + split; [discriminate | intros [rest H]; discriminate].
    + rewrite andb_true_iff, Ascii.eqb_eq, IH. split.
      * intros [-> [rest ->]]. now exists rest.
      * intros [rest H]. injection H as -> ->. split; [reflexivity | now exists rest].
Qed.

Lemma includes_spec (s sub : string) :
  includes s sub = true
  <-> exists before after, s = (before ++ sub ++ after)%string.
Proof.
  induction s as [|c s IH]; simpl.
  - rewrite startsWith_spec. split.
    + intros [rest H]. exists EmptyString, rest. exact H.
    + intros [[|b before] [after H]]; simpl in H.
      * now exists after.
      * discriminate.
  - rewrite orb_true_iff, startsWith_spec, IH. split.
    + intros [[rest H] | [before [after H]]].
      * exists EmptyString, rest. exact H.
      * exists (String c before), after. simpl. now rewrite H.
    + intros [[|b before] [after H]]; simpl in H.
      * left. now exists after.
      * right. injection H as _ H. now exists before, after.
Qed.

Lemma toLowerCase_app (a b : string) :
  toLowerCase (a ++ b) = (toLowerCase a ++ toLowerCase b)%string.
Proof. induction a as [|c a IH]; simpl; [reflexivity | now rewrite IH]. Qed.

(** Containment survives lowering both sides. *)
Lemma includes_toLowerCase (s sub : string) :
  includes s sub = true ->
  includes (toLowerCase s) (toLowerCase sub) = true.
Proof.
  rewrite !includes_spec. intros [before [after ->]].
  exists (toLowerCase before), (toLowerCase after).
  now rewrite !toLowerCase_app.
Qed.

End JsFacts.

(** ** Chart-intent detection *)

Module ChartIntentFacts.
Import Js ChartIntent JsFacts.

(** Walks a hypothesis [In x [a; b; ...]] down the list. *)
Ltac each_member H :=
  simpl in H;
  repeat (destruct H as [H | H]; [subst | ]);
  try contradiction.

Lemma phrases_lowercase (p : string) : In p phrases -> toLowerCase p = p.
Proof. intros H. each_member H; reflexivity. Qed.

Lemma phraseLoop_true (ql : string) (ps : list string) (p : string) :
  In p ps -> includes ql p = true -> phraseLoop ql ps = true.
Proof.
  induction ps as [|x ps IH]; simpl; [contradiction |].
  intros [-> | Hin] Hp.
  - now rewrite Hp.
  - destruct (includes ql x); [reflexivity | now apply IH].
Qed.

Lemma phraseLoop_false (ql : string) (ps : list string) :
  (forall p, In p ps -> includes ql p = false) -> phraseLoop ql ps = false.
Proof.
  induction ps as [|x ps IH]; simpl; [reflexivity |].
  intros H. rewrite (H x) by now left.
  apply IH. intros p Hp. apply H. now right.
Qed.

(** A keyword outside the guarded verbs ends the loop with [true]
    wherever it stands in the list. *)
Lemma keywordLoop_direct (ql : string) (kws : list string) (k : string) :
  In k kws -> needsContext k = false -> includes ql k = true ->
  keywordLoop ql kws = true.
Proof.
  induction kws as [|x kws IH]; simpl; [contradiction |].
  intros [-> | Hin] Hn Hk.
  - now rewrite Hk, Hn.
  - destruct (includes ql x); [| now apply IH].
    destruct (needsContext x); [| reflexivity].
    destruct (hasChartContext ql); [reflexivity | now apply IH].
Qed.

Lemma keywordLoop_guarded (ql : string) (kws : list string) (k : string) :
  In k kws -> includes ql k = true -> hasChartContext ql = true ->
  keywordLoop ql kws = true.
Proof.
  induction kws as [|x kws IH]; simpl; [contradiction |].
  intros [-> | Hin] Hk Hc.
  - rewrite Hk, Hc. now destruct (needsContext k).
  - destruct (includes ql x); [| now apply IH].
    destruct (needsContext x); [| reflexivity].
    now rewrite Hc.
Qed.

Lemma keywordLoop_false (ql : string) (kws : list string) :
  (forall k, In k kws -> includes ql k = true -> needsContext k = true) ->
  hasChartContext ql = false ->
  keywordLoop ql kws = false.
Proof.
  intros H Hc. induction kws as [|x kws IH]; simpl; [reflexivity |].
  assert (IH' : keywordLoop ql kws = false).
  { apply IH. intros k Hk. apply H. now right. }
  destruct (includes ql x) eqn:Hx; [| exact IH'].
  rewrite (H x) by (auto; now left). now rewrite Hc.
Qed.

Lemma needsContext_spec (k : string) :
  needsContext k = true <-> In k genericVerbs.
Proof.
  unfold needsContext, genericVerbs. simpl.
  rewrite !orb_true_iff, !String.eqb_eq. intuition congruence.
Qed.

Lemma hasChartContext_false (ql : string) :
  (forall term, In term chartRelated -> includes ql term = false) ->
  hasChartContext ql = false.
Proof.
  intros H. unfold hasChartContext.
  destruct (existsb _ _) eqn:E; [| reflexivity].
  apply existsb_exists in E as [term [Hin Ht]].
  now rewrite (H term Hin) in Ht.
Qed.

(** Without the guard the function reads: some listed phrase, or some
    keyword other than the five generic verbs, occurs in the lowered
    query.  (Every chart-related term is such a keyword itself.) *)
Lemma detectChartRequest_true_iff (query : string) :
  detectChartRequest query = true
  <-> exists k, In k (phrases ++ chartKeywords)
                /\ needsContext k = false
                /\ includes (toLowerCase query) k = true.
Proof.
  unfold detectChartRequest. set (ql := toLowerCase query). split.
  - destruct (phraseLoop ql phrases) eqn:Hp.
    + intros _.
      assert (exists p, In p phrases /\ includes ql p = true) as [p [Hin Hi]].
      { clear -Hp. induction phrases as [|x ps IH]; simpl in *; [discriminate |].
        destruct (includes ql x) eqn:Hx.
        - exists x. auto.
        - destruct (IH Hp) as [p [? ?]]. exists p. auto. }
      exists p. split; [apply in_or_app; now left |]. split; [| exact Hi].
      clear -Hin. each_member Hin; reflexivity.
    + intros Hk.
      assert (exists k, In k chartKeywords /\ includes ql k = true
                        /\ (needsContext k = false \/ hasChartContext ql = true))
        as [k [Hin [Hi Hc]]].
      { clear -Hk. induction chartKeywords as [|x ks IH]; simpl in *; [discriminate |].
        destruct (includes ql x) eqn:Hx.
        - destruct (needsContext x) eqn:Hn.
          + destruct (hasChartContext ql) eqn:Hc.
            * exists x. auto.
            * destruct (IH Hk) as [k [? ?]]. exists k. auto.
          + exists x. auto.
        - destruct (IH Hk) as [k [? ?]]. exists k. auto. }
      destruct Hc as [Hn | Hc].
      * exists k. split; [apply in_or_app; now right | auto].
      * apply existsb_exists in Hc as [term [Ht Hit]].
        exists term. split; [| split; [| exact Hit]].
        -- apply in_or_app. right. clear -Ht. each_member Ht; simpl; tauto.
        -- clear -Ht. each_member Ht; reflexivity.
  - intros [k [Hin [Hn Hi]]].
    destruct (phraseLoop ql phrases) eqn:Hp; [reflexivity |].
    apply in_app_or in Hin as [Hin | Hin].
    + now rewrite (phraseLoop_true ql phrases k Hin Hi) in Hp.
    + now apply keywordLoop_direct with k.
Qed.

Lemma phrases_not_generic (p : string) :
  In p phrases -> In p genericVerbs -> False.
Proof.
  intros Hp Hg. each_member Hp; simpl in Hg; intuition discriminate.
Qed.

(** C5. [detectChartRequest] answers [true] for every query that
    contains "over time" or any other phrase of the fixed list, as typed
    or after lowering; a keyword other than the five generic verbs, and
    a generic verb together with a chart-related term, answer [true]
    wherever they stand in the list; a query in which nothing but
    generic verbs matches and no chart-related term occurs answers
    [false], and so does a query in which nothing matches at all. *)
Theorem detectChartRequest_phrases_and_guarded_verbs (query : string) :
  let queryLower := toLowerCase query in
  (includes query "over time" = true -> detectChartRequest query = true)
  /\ (forall phrase, In phrase phrases ->
        includes query phrase = true \/ includes queryLower phrase = true ->
        detectChartRequest query = true)
  /\ (forall keyword, In keyword chartKeywords ->
        ~ In keyword genericVerbs ->
        includes queryLower keyword = true ->
        detectChartRequest query = true)
  /\ (forall verb term, In verb genericVerbs -> In term chartRelated ->
        includes queryLower verb = true ->
        includes queryLower term = true ->
        detectChartRequest query = true)
  /\ ((forall keyword, In keyword (phrases ++ chartKeywords) ->
         includes queryLower keyword = true -> In keyword genericVerbs) ->
      (forall term, In term chartRelated ->
         includes queryLower term = false) ->
      detectChartRequest query = false)
  /\ ((forall keyword, In keyword (phrases ++ chartKeywords) ->
         includes queryLower keyword = false) ->
      detectChartRequest query = false).
Proof.
  intros queryLower.
  assert (Hphrase : forall phrase, In phrase phrases ->
            includes query phrase = true \/ includes queryLower phrase = true ->
            detectChartRequest query = true).
  { intros phrase Hin Hinc.
    assert (Hl : includes queryLower phrase = true).
    { destruct Hinc as [Hraw | Hl]; [| exact Hl].
      apply includes_toLowerCase in Hraw.
      now rewrite (phrases_lowercase phrase Hin) in Hraw. }
    unfold detectChartRequest. fold queryLower.
    now rewrite (phraseLoop_true queryLower phrases phrase Hin Hl). }
  assert (Hguarded : (forall keyword, In keyword (phrases ++ chartKeywords) ->
                        includes queryLower keyword = true ->
                        In keyword genericVerbs) ->
                     (forall term, In term chartRelated ->
                        includes queryLower term = false) ->
                     detectChartRequest query = false).
  { intros Honly Hnone. unfold detectChartRequest. fold queryLower.
    rewrite phraseLoop_false.
    - apply keywordLoop_false; [| now apply hasChartContext_false].
      intros k Hk Hi. apply needsContext_spec.
      apply Honly; [apply in_or_app; now right | exact Hi].
    - intros p Hp. destruct (includes queryLower p) eqn:Hi; [| reflexivity].
      exfalso. apply (phrases_not_generic p Hp).
      apply Honly; [apply in_or_app; now left | exact Hi]. }
  split; [| split; [| split; [| split; [| split]]]].
  - intros H. apply (Hphrase "over time"); [simpl; tauto | now left].
  - exact Hphrase.
  - intros keyword Hin Hng Hi.
    unfold detectChartRequest. fold queryLower.
    destruct (phraseLoop queryLower phrases); [reflexivity |].
    apply keywordLoop_direct with keyword; [exact Hin | | exact Hi].
    destruct (needsContext keyword) eqn:Hn; [| reflexivity].
    exfalso. apply Hng. now apply needsContext_spec.
  - intros verb term Hv Ht Hiv Hit.
    unfold detectChartRequest. fold queryLower.
    destruct (phraseLoop queryLower phrases); [reflexivity |].
    apply keywordLoop_guarded with verb; [| exact Hiv |].
    + clear -Hv. each_member Hv; simpl; tauto.
    + apply existsb_exists. now exists term.
  - exact Hguarded.
  - intros Hnone. apply Hguarded.
    + intros k Hk Hi. rewrite (Hnone k Hk) in Hi. discriminate.
    + intros term Ht. apply Hnone. apply in_or_app. right.
      clear -Ht. each_member Ht; simpl; tauto.
Qed.

(** C5 at "Sales over time" and at "show all open tickets". *)
Lemma detectChartRequest_phrases_and_guarded_verbs_witness :
  detectChartRequest "Sales over time" = true
  /\ detectChartRequest "show all open tickets" = false.
Proof.
  split.
  - apply (proj1 (detectChartRequest_phrases_and_guarded_verbs "Sales over time")).
    reflexivity.
  - apply (proj1 (proj2 (proj2 (proj2 (proj2
             (detectChartRequest_phrases_and_guarded_verbs
                "show all open tickets")))))).
    + intros keyword Hin Hi. simpl in Hin.
      repeat (destruct Hin as [Hin | Hin];
              [subst keyword; first [discriminate Hi | simpl; tauto] |]).
      contradiction.
    + intros term Hin. simpl in Hin.
      repeat (destruct Hin as [Hin | Hin]; [subst term; reflexivity |]).
      contradiction.
Defined.

(** C10. Keywords are matched by containment in the lowered query, and
    'draw' and 'build' are outside the guarded verbs: a query whose
    lowered text contains either one answers [true], whatever else it
    contains. *)
Theorem detectChartRequest_draw_build (query : string) :
  needsContext "draw" = false
  /\ needsContext "build" = false
  /\ (includes (toLowerCase query) "draw" = true
      \/ includes (toLowerCase query) "build" = true ->
      detectChartRequest query = true).
Proof.
  split; [reflexivity | split; [reflexivity |]].
  intros [H | H]; apply detectChartRequest_true_iff.
  - exists "draw". split; [simpl; tauto | split; [reflexivity | exact H]].
  - exists "build". split; [simpl; tauto | split; [reflexivity | exact H]].
Qed.

(** C10 at 'withdraw' and 'BUILDING', with no chart-related term. *)
Lemma detectChartRequest_draw_build_witness :
  hasChartContext (toLowerCase "Withdraw cash") = false
  /\ detectChartRequest "Withdraw cash" = true
  /\ hasChartContext (toLowerCase "New BUILDING list") = false
  /\ detectChartRequest "New BUILDING list" = true.
Proof.
  split; [reflexivity | split; [| split; [reflexivity |]]].
  - apply (proj2 (proj2 (detectChartRequest_draw_build "Withdraw cash"))).
    left. reflexivity.
  - apply (proj2 (proj2 (detectChartRequest_draw_build "New BUILDING list"))).
    right. reflexivity.
Defined.

End ChartIntentFacts.

(** ** The turn lifecycle *)

Module WidgetFacts.
Import Js ChartIntent Widget Lifecycle.

#[local] Arguments detectChartRequest : simpl never.
#[local] Arguments trim : simpl never.

Lemma popLastIfUser_snoc_user (h : list Turn) (text : string) :
  popLastIfUser (h ++ [userTurn text]) = h.
Proof.
  unfold popLastIfUser. rewrite last_snoc. simpl. apply removelast_last.
Qed.



Lemma stopRequest_inflight (s : State) :
  inflight (stopRequest s) = inflight s /\ nextRequest (stopRequest s) = nextRequest s.
Proof.
  unfold stopRequest, onNode, abort, setProcessingState, displayLoading.
  destruct s as [pr [c|] [l|] ae h cc sv iv sb nd ma ab inf nx po]; simpl;
    try destruct (existsb _ ab); split; reflexivity.
Qed.

(** The two guards of the turn lifecycle: while the flag is set, Enter in
    the input field does nothing and the action button cancels. *)
Lemma onInputKeydown_processing (key : Key) (s : State) :
  isProcessing s = true -> onInputKeydown key s = s.
Proof. intros H. unfold onInputKeydown. destruct key; [now rewrite H | reflexivity]. Qed.

Lemma onInputKeydown_processing_no (s : State) :
  isProcessing s = false -> activeEditableBubble s = None ->
  onInputKeydown Enter s = sendMessage s.
Proof. intros Hp Ha. unfold onInputKeydown. now rewrite Hp, Ha. Qed.

Lemma handleSendButtonClick_processing (innerText : string) (s : State) :
  isProcessing s = true -> handleSendButtonClick innerText s = stopRequest s.
Proof. intros H. unfold handleSendButtonClick. now rewrite H. Qed.


(** *** One request at a time *)

Lemma guarded_entries_start_nothing (s : State) (key : Key) (innerText : string) :
  isProcessing s = true ->
  inflight (handleEvent (InputKeydown key) s) = inflight s
  /\ inflight (handleEvent (SendButtonClick innerText) s) = inflight s
  /\ handleEvent (InputKeydown key) s = s
  /\ handleEvent (SendButtonClick innerText) s = stopRequest s.
Proof.
  intros H. simpl.
  rewrite onInputKeydown_processing, handleSendButtonClick_processing by exact H.
  repeat split. apply stopRequest_inflight.
Qed.

(** C4, on the code: a turn is cancelled, which leaves its edit button
    in place; a second turn is sent; while that request is under way the
    old bubble is put into edit mode and Enter is pressed in it.
    [onEditableBubbleKeydown] does not test the processing flag and
    starts request 2 while request 1 is still live. *)
Theorem bubble_enter_starts_second_request :
  let before :=
    run [TypeInput "A"; InputKeydown Enter; SendButtonClick "";
         Rejected 0 (abortError "The user aborted a request.");
         TypeInput "B"; InputKeydown Enter; EditButtonClick 0] initial in
  let after := handleEvent (BubbleKeydown 0 Enter false "A") before in
  isProcessing before = true
  /\ sendButton before = stopButton
  /\ map req (live before) = [1]
  /\ map req (live after) = [1; 2]
  /\ conversationHistory after = [userTurn "B"; userTurn "A"].
Proof. vm_compute. repeat split. Qed.

(** *** Failures, by kind *)

Lemma removeLoading_absent (area : list Item) :
  ~ In Loading area -> removeLoading area = area.
Proof.
  induction area as [|item area IH]; simpl; [reflexivity |].
  intros H. destruct item; try (f_equal; apply IH; tauto).
  exfalso. apply H. now left.
Qed.

Lemma afterErrorBody_shows_detail (body : Body) (s : State) (d : string) :
  detail body = Some d -> truthy d = true ->
  messageArea (afterErrorBody body s) = messageArea s ++ [AiMessage d]
  /\ conversationHistory (afterErrorBody body s)
     = conversationHistory s ++ [assistantTurn d].
Proof.
  intros Hd Ht. unfold afterErrorBody, orElse. rewrite Hd, Ht.
  split; reflexivity.
Qed.

Lemma onRejected_aborted_idle (e : Error) (s : State) :
  aborted e = true ->
  isProcessing s = false -> sendButton s = idleButton ->
  ~ In Loading (messageArea s) ->
  onRejected e s = s.
Proof.
  intros Ha Hp Hb Hl. unfold onRejected. rewrite Ha.
  unfold setProcessingState, displayLoading.
  destruct s as [pr c l ae h cc sv iv sb nd ma ab inf nx po]; simpl in *.
  subst pr sb. rewrite (removeLoading_absent ma Hl). reflexivity.
Qed.

(** The test of the catch blocks, on the properties it reads. *)
Lemma aborted_by_name_or_code (e : Error) :
  aborted e = true <-> name e = "AbortError" \/ code e = Some 20.
Proof.
  unfold aborted. rewrite orb_true_iff, String.eqb_eq. split.
  - intros [H | H]; [now left | right].
    destruct (code e) as [n|]; [| discriminate H].
    apply Nat.eqb_eq in H. now subst n.
  - intros [H | H]; [now left | right]. rewrite H. reflexivity.
Qed.

Lemma not_aborted_by_name_and_code (e : Error) :
  name e <> "AbortError" -> code e <> Some 20 -> aborted e = false.
Proof.
  intros Hn Hc. destruct (aborted e) eqn:E; [| reflexivity].
  apply aborted_by_name_or_code in E as [E | E]; contradiction.
Qed.

(** C8. A non-2xx answer's detail is shown as given and recorded as an
    assistant turn.  A rejection is routed as the user's abort exactly
    when its reason is named AbortError or has code 20, which is the
    reason an aborted signal rejects with: it shows nothing, leaves the
    history alone and, coming after [stopRequest] has reset the flag, the
    control and the loading indicator, changes nothing at all.  Every
    other rejection shows the fixed apology and leaves the history
    alone.  The wording of the reason is never read. *)
Theorem failures_routed_by_kind (s : State) :
  (forall body d, detail body = Some d -> truthy d = true ->
     messageArea (afterErrorBody body s) = messageArea s ++ [AiMessage d]
     /\ conversationHistory (afterErrorBody body s)
        = conversationHistory s ++ [assistantTurn d])
  /\ (forall e, name e <> "AbortError" -> code e <> Some 20 ->
        let failed := onRejected e s in
        messageArea failed
        = removeLoading (messageArea s) ++ [AiMessage apology]
        /\ conversationHistory failed = conversationHistory s
        /\ isProcessing failed = false /\ sendButton failed = idleButton)
  /\ (forall e, name e = "AbortError" \/ code e = Some 20 ->
        let stopped := onRejected e s in
        messageArea stopped = removeLoading (messageArea s)
        /\ conversationHistory stopped = conversationHistory s
        /\ isProcessing stopped = false /\ sendButton stopped = idleButton)
  /\ (forall e, name e = "AbortError" \/ code e = Some 20 ->
        isProcessing s = false -> sendButton s = idleButton ->
        ~ In Loading (messageArea s) ->
        onRejected e s = s)
  /\ (forall e1 e2, name e1 = name e2 -> code e1 = code e2 ->
        onRejected e1 s = onRejected e2 s)
  /\ (forall wording,
        onRejected (abortError wording) s
        = set_sendButton idleButton
            (set_isProcessing false
               (set_messageArea (removeLoading (messageArea s)) s))
        /\ messageArea (onRejected (networkError wording) s)
           = removeLoading (messageArea s) ++ [AiMessage apology]).
Proof.
  split; [intros body d; apply afterErrorBody_shows_detail |].
  split.
  { intros e Hn Hc. unfold onRejected.
    rewrite (not_aborted_by_name_and_code e Hn Hc). repeat split. }
  split.
  { intros e He. apply aborted_by_name_or_code in He.
    unfold onRejected. rewrite He. repeat split. }
  split.
  { intros e He. apply aborted_by_name_or_code in He.
    now apply onRejected_aborted_idle. }
  split.
  { intros e1 e2 Hn Hc. unfold onRejected, aborted. now rewrite Hn, Hc. }
  intros wording. split; reflexivity.
Qed.

(** C8 on one turn that fails with a detail, one that is cancelled and
    then sees its fetch reject with the abort reason, and one whose fetch
    rejects for the network. *)
Lemma failures_routed_by_kind_witness :
  (let s := run [TypeInput "A"; InputKeydown Enter; FetchResolved 0 false]
                initial in
   conversationHistory (handleEvent (JsonResolved 0 (errorDetail "No such table")) s)
   = [userTurn "A"; assistantTurn "No such table"])
  /\ (let s := run [TypeInput "A"; InputKeydown Enter; SendButtonClick ""]
                   initial in
      onRejected (abortError "The operation was aborted.") (dropPending 0 s)
      = dropPending 0 s)
  /\ (let s := run [TypeInput "A"; InputKeydown Enter] initial in
      conversationHistory
        (onRejected (networkError "Failed to fetch") (dropPending 0 s))
      = conversationHistory (dropPending 0 s)).
Proof.
  split; [| split].
  - intros s.
    pose proof (proj2 (proj1 (failures_routed_by_kind (dropPending 0 s))
                         (errorDetail "No such table") "No such table"
                         eq_refl eq_refl)) as H.
    vm_compute in H |- *. exact H.
  - intros s.
    assert (Hp : isProcessing (dropPending 0 s) = false) by (vm_compute; reflexivity).
    assert (Hb : sendButton (dropPending 0 s) = idleButton) by (vm_compute; reflexivity).
    assert (Hl : ~ In Loading (messageArea (dropPending 0 s))).
    { vm_compute. intuition discriminate. }
    pose proof (proj1 (proj2 (proj2 (proj2 (failures_routed_by_kind (dropPending 0 s)))))
                  (abortError "The operation was aborted.")
                  (or_introl eq_refl) Hp Hb Hl) as H.
    vm_compute in H |- *. exact H.
  - intros s.
    assert (Hn : name (networkError "Failed to fetch") <> "AbortError")
      by (intros H; discriminate H).
    assert (Hc : code (networkError "Failed to fetch") <> Some 20)
      by (intros H; discriminate H).
    exact (proj1 (proj2 (proj1 (proj2 (failures_routed_by_kind (dropPending 0 s)))
                           (networkError "Failed to fetch") Hn Hc))).
Defined.

(** *** The server's history *)

(** C9, as stated, fails: an empty [conversation_history] is not
    adopted, and an answer that carries an [error] next to its history
    has a fixed assistant turn appended after the adoption. *)
Lemma server_history_not_always_verbatim :
  ~ (forall (n : nat) (result : Body) (s : State) (h : list Turn),
       error result = None ->
       conversation_history result = Some h ->
       (exists p, findPending n s = Some p /\ phase p = AwaitJson true) ->
       conversationHistory (handleEvent (JsonResolved n result) s) = h)
  /\ ~ (forall (n : nat) (result : Body) (s : State) (h : list Turn),
          conversation_history result = Some h ->
          (exists p, findPending n s = Some p /\ phase p = AwaitJson true) ->
          conversationHistory (handleEvent (JsonResolved n result) s) = h).
Proof.
  pose (s := run [TypeInput "A"; InputKeydown Enter; FetchResolved 0 true]
                 initial).
  assert (Hs : exists p, findPending 0 s = Some p /\ phase p = AwaitJson true).
  { eexists. split; vm_compute; reflexivity. }
  split; intros H.
  - specialize (H 0 (rowsWithHistory ["row"] []) s [] eq_refl eq_refl Hs).
    vm_compute in H. discriminate H.
  - specialize (H 0 (failureWithHistory "boom" [userTurn "A"; assistantTurn "x"])
                  s _ eq_refl Hs).
    vm_compute in H. discriminate H.
Qed.

(** C9, amended. A 2xx answer with a non-empty [conversation_history]
    replaces the whole local history by it; when the answer also carries
    an [error], the fixed assistant turn is appended to the adopted
    sequence; a missing or empty [conversation_history] leaves the local
    sequence in place (with the same turn appended on [error]). *)
Theorem server_history_adopted (p : Pending) (result : Body) (s : State) :
  let fixedTurn := assistantTurn "An error occurred. Please check the logs." in
  let appended := if truthyField (error result) then [fixedTurn] else [] in
  (forall t ts, conversation_history result = Some (t :: ts) ->
     conversationHistory (afterResult p result s) = (t :: ts) ++ appended)
  /\ (conversation_history result = Some [] \/ conversation_history result = None ->
      conversationHistory (afterResult p result s)
      = conversationHistory s ++ appended).
Proof.
  intros fixedTurn appended.
  assert (G : forall s0,
            conversationHistory
              (afterResult p
                 {| detail := detail result; error := error result;
                    question := question result; data := data result;
                    chart := chart result; request_id := request_id result;
                    conversation_history := None |} s0)
            = conversationHistory s0 ++ appended).
  { intros s0. unfold afterResult, startEnrichment. subst appended. simpl.
    destruct (truthyField (error result)); simpl; [reflexivity |].
    destruct (truthyField (question result)); simpl; [now rewrite app_nil_r |].
    destruct (data result) as [[|row rows]|]; simpl; try now rewrite app_nil_r.
    destruct (chart result); simpl; try now rewrite app_nil_r.
    destruct (match origin p with
              | FromInput => shouldShowCharts p
              | FromEdit => showChartVisualization s0 || isChartRequest p
              end); simpl; try now rewrite app_nil_r.
    destruct (truthyField (request_id result)); simpl; now rewrite app_nil_r. }
  split.
  - intros t ts Hh. unfold afterResult at 1. rewrite Hh.
    exact (G (set_conversationHistory (t :: ts) s)).
  - intros Hh. unfold afterResult at 1.
    destruct Hh as [-> | ->]; exact (G s).
Qed.

(** C9 amended, on an answer with data and the server's two turns. *)
Lemma server_history_adopted_witness :
  let s := run [TypeInput "A"; InputKeydown Enter; FetchResolved 0 true]
               initial in
  let answer :=
    {| detail := None; error := None; question := None;
       data := Some ["row"]; chart := None; request_id := None;
       conversation_history := Some [userTurn "A"; assistantTurn "SELECT 1"] |} in
  conversationHistory (handleEvent (JsonResolved 0 answer) s)
  = [userTurn "A"; assistantTurn "SELECT 1"].
Proof.
  intros s answer.
  pose proof (proj1 (server_history_adopted
                  {| req := 0; origin := FromInput; isChartRequest := false;
                     shouldShowCharts := false;
                     sent := {| ask_query := "A";
                                ask_conversation_history := [userTurn "A"];
                                ask_show_charts := false |};
                     phase := AwaitJson true |}
                  answer (dropPending 0 s))
           (userTurn "A") [assistantTurn "SELECT 1"] eq_refl) as H.
  vm_compute in H |- *. exact H.
Defined.

(** *** What the handlers leave behind, field by field *)

#[local] Arguments removeLoading : simpl never.

Lemma sendMessage_sends (s : State) :
  trim (inputValue s) <> "" ->
  let query := trim (inputValue s) in
  let showCharts := showChartVisualization s || detectChartRequest query in
  sendMessage s
  = {| isProcessing := true;
       currentAbortController := Some (nextRequest s);
       lastUserMessageContainer := Some (length (nodes s));
       activeEditableBubble := activeEditableBubble s;
       conversationHistory := conversationHistory s ++ [userTurn query];
       chartCounter := chartCounter s;
       showChartVisualization := showChartVisualization s;
       inputValue := "";
       sendButton := stopButton;
       nodes := nodes s ++ [ensureUserActions freshContainer];
       messageArea :=
         removeLoading (messageArea s ++ [UserMessage (length (nodes s)) query])
         ++ [Loading];
       abortedSignals := abortedSignals s;
       inflight :=
         inflight s
         ++ [{| req := nextRequest s; origin := FromInput;
                isChartRequest := detectChartRequest query;
                shouldShowCharts := showCharts;
                sent := {| ask_query := query;
                           ask_conversation_history :=
                             conversationHistory s ++ [userTurn query];
                           ask_show_charts := showCharts |};
                phase := AwaitFetch |}];
       nextRequest := S (nextRequest s);
       pollers := pollers s |}.
Proof.
  intros H query showCharts. subst query showCharts.
  apply String.eqb_neq in H. unfold sendMessage. rewrite H.
  reflexivity.
Qed.

Lemma stopRequest_stops (s : State) :
  stopRequest s
  = {| isProcessing := false;
       currentAbortController := currentAbortController s;
       lastUserMessageContainer := lastUserMessageContainer s;
       activeEditableBubble := activeEditableBubble s;
       conversationHistory := popLastIfUser (conversationHistory s);
       chartCounter := chartCounter s;
       showChartVisualization := showChartVisualization s;
       inputValue := inputValue s;
       sendButton := idleButton;
       nodes := match lastUserMessageContainer s with
                | Some i => alter makeMessageEditable i (nodes s)
                | None => nodes s
                end;
       messageArea := removeLoading (messageArea s);
       abortedSignals :=
         match currentAbortController s with
         | Some ctrl => if isAborted ctrl s then abortedSignals s
                        else ctrl :: abortedSignals s
         | None => abortedSignals s
         end;
       inflight := inflight s;
       nextRequest := nextRequest s;
       pollers := pollers s |}.
Proof.
  unfold stopRequest, onNode, abort, isAborted, setProcessingState, displayLoading.
  destruct s as [pr [c|] [l|] ae h cc sv iv sb nd ma ab inf nx po]; simpl;
    try destruct (existsb _ ab); reflexivity.
Qed.

Lemma commitEdit_commits (edited : string) (s : State) :
  let showCharts := showChartVisualization s || detectChartRequest edited in
  let history := conversationHistory s ++ [userTurn edited] in
  commitEdit edited s
  = {| isProcessing := true;
       currentAbortController := Some (nextRequest s);
       lastUserMessageContainer := lastUserMessageContainer s;
       activeEditableBubble := None;
       conversationHistory := history;
       chartCounter := chartCounter s;
       showChartVisualization := showChartVisualization s;
       inputValue := inputValue s;
       sendButton := stopButton;
       nodes :=
         (let unhooked := match lastUserMessageContainer s with
                          | Some l => alter removeEditToolbar l (nodes s)
                          | None => nodes s
                          end in
          match activeEditableBubble s with
          | Some b => alter (setContentEditable false) b unhooked
          | None => unhooked
          end);
       messageArea := removeLoading (messageArea s) ++ [Loading];
       abortedSignals := abortedSignals s;
       inflight :=
         inflight s
         ++ [{| req := nextRequest s; origin := FromEdit;
                isChartRequest := detectChartRequest edited;
                shouldShowCharts := showCharts;
                sent := {| ask_query := edited;
                           ask_conversation_history := history;
                           ask_show_charts := showCharts |};
                phase := AwaitFetch |}];
       nextRequest := S (nextRequest s);
       pollers := pollers s |}.
Proof.
  destruct s as [pr c [l|] [ae|] h cc sv iv sb nd ma ab inf nx po]; reflexivity.
Qed.

Lemma onRejected_aborted (e : Error) (s : State) :
  aborted e = true ->
  onRejected e s
  = set_sendButton idleButton
      (set_isProcessing false
         (set_messageArea (removeLoading (messageArea s)) s)).
Proof. intros H. unfold onRejected. rewrite H. reflexivity. Qed.

Lemma findPending_last (n : nat) (s : State) (p : Pending) (older : list Pending) :
  inflight s = older ++ [p] -> req p = n ->
  exists q, findPending n s = Some q.
Proof.
  intros Hi Hr. unfold findPending. rewrite Hi.
  destruct (find (fun p0 => req p0 =? n) (older ++ [p])) as [q|] eqn:E.
  - now exists q.
  - assert (Hn : (req p =? n) = false).
    { apply (find_none _ _ E p). apply in_or_app. right. now left. }
    apply Nat.eqb_neq in Hn. contradiction.
Qed.

Lemma alter_snoc {A : Type} (f : A -> A) (l : list A) (x : A) :
  alter f (length l) (l ++ [x]) = l ++ [f x].
Proof.
  rewrite <- (Nat.add_0_r (length l)) at 1. now rewrite alter_app_r.
Qed.

Lemma lookup_snoc {A : Type} (l : list A) (x : A) :
  (l ++ [x]) !! length l = Some x.
Proof. now apply list_lookup_middle. Qed.



(** *** A send that is cancelled *)




(** *** Cancel, edit, resubmit *)

(** The state a cancelled send settles in, once the aborted fetch has
    rejected: everything the lifecycle reads is as before the send, but
    for the new bubble with its edit button. *)
Lemma cancelled_send_settles (s : State) (a ignored : string) (e : Error) :
  isProcessing s = false -> activeEditableBubble s = None ->
  trim a <> "" -> aborted e = true ->
  let settled :=
    run [TypeInput a; InputKeydown Enter; SendButtonClick ignored;
         Rejected (nextRequest s) e] s in
  conversationHistory settled = conversationHistory s
  /\ isProcessing settled = false
  /\ activeEditableBubble settled = None
  /\ lastUserMessageContainer settled = Some (length (nodes s))
  /\ nodes settled
     = nodes s ++ [makeMessageEditable (ensureUserActions freshContainer)]
  /\ showChartVisualization settled = showChartVisualization s
  /\ nextRequest settled = S (nextRequest s).
Proof.
  intros Hp Ha Hq He. unfold run. cbn [fold_left handleEvent].
  rewrite onInputKeydown_processing_no by assumption.
  set (s1 := set_inputValue a s).
  assert (Hq1 : trim (inputValue s1) <> "") by exact Hq.
  pose proof (sendMessage_sends s1 Hq1) as E2. simpl in E2.
  set (s2 := sendMessage s1) in *.
  assert (P2 : isProcessing s2 = true) by now rewrite E2.
  rewrite (handleSendButtonClick_processing ignored s2 P2).
  pose proof (stopRequest_stops s2) as E3.
  set (s3 := stopRequest s2) in *.
  rewrite E2 in E3. simpl in E3.
  rewrite alter_snoc, popLastIfUser_snoc_user in E3.
  destruct (findPending_last (nextRequest s) s3
              {| req := nextRequest s; origin := FromInput;
                 isChartRequest := detectChartRequest (trim a);
                 shouldShowCharts :=
                   showChartVisualization s || detectChartRequest (trim a);
                 sent := {| ask_query := trim a;
                            ask_conversation_history :=
                              conversationHistory s ++ [userTurn (trim a)];
                            ask_show_charts :=
                              showChartVisualization s
                              || detectChartRequest (trim a) |};
                 phase := AwaitFetch |} (inflight s)) as [q Hfind];
    [now rewrite E3 | reflexivity |].
  rewrite Hfind, (onRejected_aborted e _ He).
  unfold dropPending. simpl. rewrite E3. simpl.
  repeat split; assumption.
Qed.

Lemma truthy_nonempty (text : string) : text <> "" -> truthy text = true.
Proof. destruct text; [congruence | reflexivity]. Qed.

(** C2. Compose "A", send it, cancel (the aborted fetch rejects), open
    the bubble with its edit button, leave the text "B" in it and commit
    with the send button or with Enter without Shift: the history is the
    one before the send followed by the single user turn "B" (trimmed,
    as every submitted text is); the commit issues the request that
    [sendMessage] would issue for "B" typed into the input field, and no
    second bubble is made. *)
Theorem edit_resubmit_round_trip
    (s : State) (a b ignored : string) (e : Error) (commit : Event) :
  isProcessing s = false -> activeEditableBubble s = None ->
  trim a <> "" -> trim b <> "" -> aborted e = true ->
  let i := length (nodes s) in
  let settled :=
    run [TypeInput a; InputKeydown Enter; SendButtonClick ignored;
         Rejected (nextRequest s) e] s in
  let editing := handleEvent (EditButtonClick i) settled in
  let resubmitted := handleEvent commit editing in
  let history := conversationHistory s ++ [userTurn (trim b)] in
  let request :=
    {| ask_query := trim b;
       ask_conversation_history := history;
       ask_show_charts :=
         showChartVisualization s || detectChartRequest (trim b) |} in
  commit = SendButtonClick b \/ commit = BubbleKeydown i Enter false b ->
  conversationHistory resubmitted = history
  /\ last (conversationHistory resubmitted) = Some (userTurn (trim b))
  /\ last (map sent (inflight resubmitted)) = Some request
  /\ last (map sent (inflight (sendMessage (set_inputValue b editing))))
     = Some request
  /\ (isProcessing resubmitted = true /\ sendButton resubmitted = stopButton)
  /\ (activeEditableBubble resubmitted = None
      /\ editable i resubmitted = false)
  /\ length (nodes resubmitted) = S (length (nodes s)).
Proof.
  intros Hp Ha Hqa Hqb He i settled editing resubmitted history request Hcommit.
  destruct (cancelled_send_settles s a ignored e Hp Ha Hqa He)
    as (Hh & Hp' & Ha' & Hl & Hn & Hv & Hx).
  fold settled in Hh, Hp', Ha', Hl, Hn, Hv, Hx.
  assert (Hedit : editing = enableEditing i settled).
  { subst editing i. simpl. now rewrite Hn, lookup_snoc. }
  assert (Hen : nodes editing
                = nodes s ++ [{| contentEditable := true; isEditing := true;
                                keydownHooked := true; hasActions := true;
                                hasCopyButton := true; hasEditButton := true |}]).
  { rewrite Hedit. unfold enableEditing. simpl. subst i.
    now rewrite Hn, alter_snoc. }
  assert (Hcommitted : resubmitted = commitEdit (trim b) editing).
  { subst resubmitted.
    assert (Hae : activeEditableBubble editing = Some i) by now rewrite Hedit.
    assert (Hpe : isProcessing editing = false) by now rewrite Hedit.
    destruct Hcommit as [-> | ->]; simpl.
    - unfold handleSendButtonClick.
      now rewrite Hpe, Hae, (truthy_nonempty _ Hqb).
    - subst i. rewrite Hen, lookup_snoc. simpl.
      now rewrite Hae, (truthy_nonempty _ Hqb). }
  assert (Hhe : conversationHistory editing = conversationHistory s)
    by now rewrite Hedit.
  assert (Hve : showChartVisualization editing = showChartVisualization s)
    by now rewrite Hedit.
  assert (Hhist : conversationHistory resubmitted = history).
  { rewrite Hcommitted, commitEdit_commits. simpl. now rewrite Hhe. }
  split; [exact Hhist |].
  split; [rewrite Hhist; apply last_snoc |].
  split.
  { rewrite Hcommitted, commitEdit_commits. simpl.
    rewrite map_app. cbn [map]. rewrite last_snoc. simpl. subst request history.
    now rewrite Hhe, Hve. }
  split.
  { rewrite sendMessage_sends by exact Hqb. simpl.
    rewrite map_app. cbn [map]. rewrite last_snoc. simpl. subst request history.
    now rewrite Hhe, Hve. }
  split; [rewrite Hcommitted, commitEdit_commits; split; reflexivity |].
  assert (Hnodes : nodes resubmitted
                   = nodes s ++ [{| contentEditable := false; isEditing := false;
                                   keydownHooked := false; hasActions := true;
                                   hasCopyButton := true;
                                   hasEditButton := false |}]).
  { rewrite Hcommitted, commitEdit_commits. simpl.
    replace (lastUserMessageContainer editing) with (Some i)
      by now rewrite Hedit.
    replace (activeEditableBubble editing) with (Some i)
      by now rewrite Hedit.
    subst i. now rewrite Hen, !alter_snoc. }
  split.
  - split; [now rewrite Hcommitted, commitEdit_commits |].
    unfold editable. subst i. now rewrite Hnodes, lookup_snoc.
  - rewrite Hnodes, length_app. simpl. lia.
Qed.

(** C2 on a fresh widget: "A" is sent and cancelled, " B " is committed
    with the send button and reaches the history as "B". *)
Lemma edit_resubmit_round_trip_witness :
  let settled :=
    run [TypeInput "A"; InputKeydown Enter; SendButtonClick "";
         Rejected (nextRequest initial)
           (abortError "The user aborted a request.")] initial in
  let editing := handleEvent (EditButtonClick (length (nodes initial))) settled in
  conversationHistory (handleEvent (SendButtonClick " B ") editing)
  = conversationHistory initial ++ [userTurn (trim " B ")]
  /\ trim " B " = "B".
Proof.
  assert (Hqa : trim "A" <> "") by (intros H; discriminate H).
  assert (Hqb : trim " B " <> "") by (intros H; discriminate H).
  split; [| reflexivity].
  exact (proj1 (edit_resubmit_round_trip initial "A" " B " ""
                  (abortError "The user aborted a request.")
                  (SendButtonClick " B ")
                  eq_refl eq_refl Hqa Hqb eq_refl (or_introl eq_refl))).
Defined.

End WidgetFacts.

(** ** The enrichment poller *)

Module PollerFacts.
Import Js Poller.

Lemma tryBlock_return (o : Outcome) (effects : list Effect) :
  tryBlock o = Return effects ->
  exists t, effects = [ClearInterval; Render t].
Proof.
  destruct o as [j|]; simpl; [| discriminate].
  destruct (String.eqb (status j) "ready").
  - intros [= <-]. eexists. reflexivity.
  - destruct (String.eqb (status j) "error"); [| discriminate].
    intros [= <-]. eexists. reflexivity.
Qed.

(** Every run of [poll] is some checks that fall through, then one last
    check, the clearing of the progress timer and one render. *)
Lemma poll_shape (checks : nat -> Outcome) (attempts : nat) :
  exists k t,
    poll checks attempts = retries k ++ [FetchStatus; ClearInterval; Render t]
    /\ (attempts < maxAttempts -> attempts + k < maxAttempts).
Proof.
  funelim (poll checks attempts).
  - destruct (tryBlock_return _ _ Heq) as [t ->].
    exists 0, t. split; [reflexivity | lia].
  - destruct H as [k [t [Hk Hb]]].
    exists (S k), t. split; [simpl; now rewrite Hk | lia].
  - exists 0, TookTooLong. split; [reflexivity | lia].
Qed.

Lemma poll_returns (checks : nat -> Outcome) (attempts : nat)
    (effects : list Effect) :
  tryBlock (checks attempts) = Return effects ->
  poll checks attempts = FetchStatus :: effects.
Proof. intros H. simp poll. rewrite H. reflexivity. Qed.

Lemma poll_reschedules (checks : nat -> Outcome) (attempts : nat) :
  tryBlock (checks attempts) = FallThrough ->
  S attempts < maxAttempts ->
  poll checks attempts
  = FetchStatus :: SetTimeout 1000 :: poll checks (S attempts).
Proof.
  intros H Hl. simp poll. rewrite H. simpl.
  destruct (lt_dec (S attempts) maxAttempts); [| contradiction].
  simp poll. reflexivity.
Qed.

Lemma poll_gives_up (checks : nat -> Outcome) (attempts : nat) :
  tryBlock (checks attempts) = FallThrough ->
  ~ S attempts < maxAttempts ->
  poll checks attempts = [FetchStatus; ClearInterval; Render TookTooLong].
Proof.
  intros H Hl. simp poll. rewrite H. simpl.
  destruct (lt_dec (S attempts) maxAttempts); [contradiction |].
  simp poll. reflexivity.
Qed.

Lemma count_retries (f : Effect -> bool) (k : nat) (rest : list Effect) :
  count f (retries k ++ rest)
  = k * ((if f FetchStatus then 1 else 0) + (if f (SetTimeout 1000) then 1 else 0))
    + count f rest.
Proof.
  unfold count. induction k as [|k IH]; [reflexivity |].
  simpl retries. simpl app. simpl List.filter.
  destruct (f FetchStatus), (f (SetTimeout 1000)); simpl; rewrite IH; lia.
Qed.

Lemma retries_delay (k : nat) (ms : nat) :
  In (SetTimeout ms) (retries k) -> ms = 1000.
Proof.
  induction k as [|k IH]; simpl; [contradiction |].
  intros [H | [H | H]]; [discriminate | now injection H | now apply IH].
Qed.

Lemma timerRunning_retries (running : bool) (k : nat) (rest : list Effect) :
  timerRunning running (retries k ++ rest) = timerRunning running rest.
Proof. induction k as [|k IH]; [reflexivity | exact IH]. Qed.

(** What the [try] block makes of a check, by what the check answered. *)
Lemma tryBlock_ready (j : StatusBody) :
  status j = "ready" ->
  exists shown followUps,
    tryBlock (Answered j)
    = Return [ClearInterval; Render (ReadyPayload shown followUps)]
    /\ (forall text, insights j = Some text -> text <> "" -> shown = Some text)
    /\ (insights j = None \/ insights j = Some "" -> shown = None)
    /\ (forall qs, follow_up_questions j = Some qs -> followUps = qs)
    /\ (follow_up_questions j = None -> followUps = []).
Proof.
  intros Hs. simpl. rewrite Hs. simpl.
  eexists _, _. split; [reflexivity |].
  split; [| split; [| split]].
  - intros text Hi Ht. rewrite Hi. destruct text; [contradiction | reflexivity].
  - intros [Hi | Hi]; rewrite Hi; reflexivity.
  - intros qs Hq. rewrite Hq. now destruct qs.
  - intros Hq. now rewrite Hq.
Qed.

Lemma tryBlock_error (j : StatusBody) :
  status j = "error" ->
  tryBlock (Answered j) = Return [ClearInterval; Render Unavailable].
Proof. intros Hs. simpl. rewrite Hs. reflexivity. Qed.

Lemma tryBlock_pending (o : Outcome) :
  o = Failed
  \/ (exists j, o = Answered j /\ status j <> "ready" /\ status j <> "error") ->
  tryBlock o = FallThrough.
Proof.
  intros [-> | [j [-> [Hr He]]]]; [reflexivity |].
  apply String.eqb_neq in Hr, He. simpl. now rewrite Hr, He.
Qed.

(** C6. Whatever the status checks answer, a polling run makes between 1
    and [maxAttempts] = 20 checks, each one after a timeout of 1000 ms,
    and renders exactly one terminal state, as its last act.  A check
    answering 'ready' renders the payload it carries (the insights text
    when it is not empty, the follow-up questions in their order); one
    answering 'error' renders the unavailable notice.  A check whose
    transport fails, or which answers anything else, renders nothing: it
    counts as an attempt, the next check is scheduled after 1000 ms, and
    when it was the last of the budget the took-too-long notice is
    rendered. *)
Theorem polling_bounded_one_terminal (checks : nat -> Outcome) :
  let trace := startPolling checks in
  (1 <= count isFetch trace /\ count isFetch trace <= maxAttempts
   /\ maxAttempts = 20)
  /\ (count isTimeout trace = count isFetch trace
      /\ forall ms, In (SetTimeout ms) trace -> ms = 1000)
  /\ (count isRender trace = 1
      /\ exists before t, trace = before ++ [Render t]
                          /\ count isRender before = 0)
  /\ (forall attempts j,
        checks attempts = Answered j -> status j = "ready" ->
        exists shown followUps,
          poll checks attempts
          = [FetchStatus; ClearInterval; Render (ReadyPayload shown followUps)]
          /\ (forall text, insights j = Some text -> text <> "" ->
                shown = Some text)
          /\ (insights j = None \/ insights j = Some "" -> shown = None)
          /\ (forall qs, follow_up_questions j = Some qs -> followUps = qs)
          /\ (follow_up_questions j = None -> followUps = []))
  /\ (forall attempts j,
        checks attempts = Answered j -> status j = "error" ->
        poll checks attempts = [FetchStatus; ClearInterval; Render Unavailable])
  /\ (forall attempts,
        checks attempts = Failed
        \/ (exists j, checks attempts = Answered j
                      /\ status j <> "ready" /\ status j <> "error") ->
        (S attempts < maxAttempts ->
         poll checks attempts
         = FetchStatus :: SetTimeout 1000 :: poll checks (S attempts))
        /\ (~ S attempts < maxAttempts ->
            poll checks attempts
            = [FetchStatus; ClearInterval; Render TookTooLong])).
Proof.
  intros trace. subst trace. unfold startPolling.
  destruct (poll_shape checks 0) as [k [t [Hk Hb]]].
  assert (Hk20 : k < maxAttempts) by (apply Hb; unfold maxAttempts; lia).
  split; [| split; [| split; [| split; [| split]]]].
  - rewrite Hk.
    change (count isFetch (SetInterval 900 :: SetTimeout 1000 :: ?l))
      with (count isFetch l).
    rewrite count_retries. unfold count. simpl.
    unfold maxAttempts in *. lia.
  - split.
    + rewrite Hk.
      change (count isFetch (SetInterval 900 :: SetTimeout 1000 :: ?l))
        with (count isFetch l).
      change (count isTimeout (SetInterval 900 :: SetTimeout 1000 :: ?l))
        with (S (count isTimeout l)).
      rewrite !count_retries. unfold count. simpl. lia.
    + intros ms [H | [H | H]]; [discriminate | now injection H |].
      rewrite Hk in H. apply in_app_or in H as [H | H].
      * now apply retries_delay with k.
      * simpl in H. intuition discriminate.
  - rewrite Hk.
    change (count isRender (SetInterval 900 :: SetTimeout 1000 :: ?l))
      with (count isRender l).
    rewrite count_retries. split; [unfold count; simpl; lia |].
    exists (SetInterval 900 :: SetTimeout 1000
            :: retries k ++ [FetchStatus; ClearInterval]), t.
    split.
    + simpl. rewrite <- app_assoc. reflexivity.
    + change (count isRender (SetInterval 900 :: SetTimeout 1000 :: ?l))
        with (count isRender l).
      rewrite count_retries. unfold count. simpl. lia.
  - intros attempts j Hj Hs.
    destruct (tryBlock_ready j Hs) as (shown & followUps & Ht & Hpins).
    exists shown, followUps. split; [| exact Hpins].
    apply poll_returns. now rewrite Hj.
  - intros attempts j Hj Hs. apply poll_returns.
    rewrite Hj. now apply tryBlock_error.
  - intros attempts Hf. apply tryBlock_pending in Hf. split; intros Hl.
    + now apply poll_reschedules.
    + now apply poll_gives_up.
Qed.

(** C6 on a job that is pending at its first two checks and ready at the
    third, and on checks that all fail in transport. *)
Lemma polling_bounded_one_terminal_witness :
  let pending := Answered {| status := "pending"; insights := None;
                             follow_up_questions := None |} in
  let ready := {| status := "ready"; insights := Some "Up 4%";
                  follow_up_questions := Some ["Why?"; "Where?"] |} in
  let checks := fun n => if n <? 2 then pending else Answered ready in
  poll checks 2
  = [FetchStatus; ClearInterval;
     Render (ReadyPayload (Some "Up 4%") ["Why?"; "Where?"])]
  /\ poll checks 0 = FetchStatus :: SetTimeout 1000 :: poll checks 1
  /\ poll (fun _ => Failed) 19
     = [FetchStatus; ClearInterval; Render TookTooLong].
Proof.
  intros pending ready checks.
  split; [| split].
  - destruct (proj1 (proj2 (proj2 (proj2 (polling_bounded_one_terminal checks))))
                2 ready eq_refl eq_refl)
      as (shown & followUps & Hp & Hi & _ & Hq & _).
    assert (Hne : "Up 4%" <> "") by (intros H; discriminate H).
    rewrite Hp. rewrite (Hi "Up 4%" eq_refl Hne).
    rewrite (Hq ["Why?"; "Where?"] eq_refl). reflexivity.
  - apply (proj2 (proj2 (proj2 (proj2 (proj2
             (polling_bounded_one_terminal checks))))) 0).
    + right. eexists. split; [reflexivity |].
      split; intros H; discriminate H.
    + unfold maxAttempts. lia.
  - apply (proj2 (proj2 (proj2 (proj2 (proj2
             (polling_bounded_one_terminal (fun _ => Failed)))))) 19).
    + left. reflexivity.
    + unfold maxAttempts. lia.
Defined.

(** C7. The progress timer, started with a period of 900 ms, runs up to
    the last status check and is cleared exactly once, at the moment the
    poll loop stops: on 'ready', on 'error', and when the attempt budget
    is used up.  After the clearing no check and no timeout follows, so
    no timer is left once the loop has stopped. *)
Theorem progress_timer_cleared (checks : nat -> Outcome) :
  let trace := startPolling checks in
  (timerRunning false trace = false /\ count isClear trace = 1)
  /\ (exists before after,
        trace = SetInterval 900 :: before ++ ClearInterval :: after
        /\ timerRunning false (SetInterval 900 :: before) = true
        /\ count isClear before = 0
        /\ quiet after = true)
  /\ (forall j, status j = "ready" ->
        exists rest, tryBlock (Answered j) = Return (ClearInterval :: rest)
                     /\ quiet rest = true)
  /\ (forall j, status j = "error" ->
        exists rest, tryBlock (Answered j) = Return (ClearInterval :: rest)
                     /\ quiet rest = true)
  /\ (forall attempts,
        tryBlock (checks attempts) = FallThrough ->
        ~ S attempts < maxAttempts ->
        poll checks attempts = [FetchStatus; ClearInterval; Render TookTooLong]).
Proof.
  intros trace. subst trace. unfold startPolling.
  destruct (poll_shape checks 0) as [k [t [Hk _]]].
  split; [| split; [| split; [| split]]].
  - rewrite Hk. split.
    + simpl. now rewrite timerRunning_retries.
    + change (count isClear (SetInterval 900 :: SetTimeout 1000 :: ?l))
        with (count isClear l).
      rewrite count_retries. unfold count. simpl. lia.
  - exists (SetTimeout 1000 :: retries k ++ [FetchStatus]), [Render t].
    rewrite Hk. split; [| split; [| split]].
    + simpl. now rewrite <- app_assoc.
    + simpl. now rewrite timerRunning_retries.
    + change (count isClear (SetTimeout 1000 :: ?l)) with (count isClear l).
      rewrite count_retries. unfold count. simpl. lia.
    + reflexivity.
  - intros j Hs. simpl. rewrite Hs. simpl. eexists. split; reflexivity.
  - intros j Hs. simpl. rewrite Hs.
    destruct (String.eqb "error" "ready") eqn:E; [discriminate E |].
    eexists. split; reflexivity.
  - intros attempts. apply poll_gives_up.
Qed.

(** C7 on a job that is ready at its third check, and on the exhausted
    budget. *)
Lemma progress_timer_cleared_witness :
  (exists rest,
     tryBlock (Answered {| status := "ready"; insights := Some "Up 4%";
                           follow_up_questions := None |})
     = Return (ClearInterval :: rest))
  /\ poll (fun _ => Answered {| status := "pending"; insights := None;
                                follow_up_questions := None |}) 19
     = [FetchStatus; ClearInterval; Render TookTooLong].
Proof.
  split.
  - destruct (proj1 (proj2 (proj2 (progress_timer_cleared (fun _ => Failed))))
                {| status := "ready"; insights := Some "Up 4%";
                   follow_up_questions := None |} eq_refl) as [rest [H _]].
    exists rest. exact H.
  - apply (proj2 (proj2 (proj2 (proj2
             (progress_timer_cleared
                (fun _ => Answered {| status := "pending"; insights := None;
                                      follow_up_questions := None |})))))).
    + reflexivity.
    + unfold maxAttempts. lia.
Defined.

End PollerFacts.

(** ** What the event loop keeps *)

Module LifecycleFacts.
Import Js ChartIntent Widget Lifecycle JsFacts WidgetFacts.

#[local] Arguments detectChartRequest : simpl never.
#[local] Arguments trim : simpl never.
#[local] Arguments removeLoading : simpl never.

Lemma handleEvent_step (e : Event) (s : State) : Step s (handleEvent e s).
Proof.
  destruct e as [text|key|innerText|i|i key shiftKey innerText| | |n ok|n body|n err];
    simpl.
  - constructor.
  - unfold onInputKeydown. destruct key; [| constructor].
    destruct (isProcessing s) eqn:Hp; [constructor |].
    destruct (activeEditableBubble s); [constructor |].
    destruct (String.eqb (trim (inputValue s)) "") eqn:Hq.
    + unfold sendMessage. rewrite Hq. constructor.
    + apply StepSend; [exact Hp | now apply String.eqb_neq].
  - unfold handleSendButtonClick.
    destruct (isProcessing s) eqn:Hp; [now constructor |].
    destruct (activeEditableBubble s).
    + destruct (trim innerText) eqn:Ht; simpl; [constructor |].
      rewrite <- Ht. apply StepCommit. rewrite Ht. discriminate.
    + destruct (String.eqb (trim (inputValue s)) "") eqn:Hq.
      * unfold sendMessage. rewrite Hq. constructor.
      * apply StepSend; [exact Hp | now apply String.eqb_neq].
  - destruct (nodes s !! i) as [c|] eqn:Hn; [| constructor].
    destruct (hasEditButton c) eqn:Hb; [| constructor].
    now apply StepEdit with c.
  - destruct (nodes s !! i) as [c|]; [| constructor].
    destruct (keydownHooked c && contentEditable c); [| constructor].
    unfold onEditableBubbleKeydown. destruct key; [| constructor].
    destruct shiftKey; [constructor |].
    destruct (activeEditableBubble s); [| constructor].
    destruct (trim innerText) eqn:Ht; simpl; [constructor |].
    rewrite <- Ht. apply StepCommit. rewrite Ht. discriminate.
  - constructor.
  - constructor.
  - destruct (findPending n s) as [p|] eqn:Hf; [| constructor].
    destruct (phase p); [| constructor].
    destruct (isAborted n s); [constructor |].
    apply StepFetched. apply (find_some _ _ Hf).
  - destruct (findPending n s) as [p|] eqn:Hf; [| constructor].
    destruct (find_some _ _ Hf) as [Hin Hr]. apply Nat.eqb_eq in Hr.
    destruct (phase p) as [|[|]]; [constructor | |].
    + rewrite <- Hr. now apply StepResult.
    + constructor.
  - destruct (findPending n s); constructor.
Qed.

(** An invariant of the steps holds after every run. *)
Lemma kept_by_run (Inv : State -> Prop) :
  (forall s s', Step s s' -> Inv s -> Inv s') ->
  forall events s, Inv s -> Inv (run events s).
Proof.
  intros Hstep events. unfold run.
  induction events as [|e events IH]; intros s Hs; simpl; [exact Hs |].
  apply IH. apply (Hstep s); [apply handleEvent_step | exact Hs].
Qed.

Lemma kept_when_reachable (Inv : State -> Prop) :
  Inv initial ->
  (forall s s', Step s s' -> Inv s -> Inv s') ->
  forall s, reachable s -> Inv s.
Proof.
  intros H0 Hstep s [events ->]. now apply kept_by_run.
Qed.

Lemma afterFetch_frame (p : Pending) (ok : bool) (s : State) :
  afterFetch p ok s
  = {| isProcessing := false;
       currentAbortController := None;
       lastUserMessageContainer := lastUserMessageContainer s;
       activeEditableBubble := activeEditableBubble s;
       conversationHistory := conversationHistory s;
       chartCounter := chartCounter s;
       showChartVisualization := showChartVisualization s;
       inputValue := inputValue s;
       sendButton := idleButton;
       nodes := nodes s;
       messageArea := removeLoading (messageArea s);
       abortedSignals := abortedSignals s;
       inflight :=
         map (fun q => if req q =? req p
                       then {| req := req q; origin := origin q;
                               isChartRequest := isChartRequest q;
                               shouldShowCharts := shouldShowCharts q;
                               sent := sent q; phase := AwaitJson ok |}
                       else q) (inflight s);
       nextRequest := nextRequest s;
       pollers := pollers s |}.
Proof. reflexivity. Qed.

Lemma onRejected_frame (e : Error) (s : State) :
  onRejected e s
  = {| isProcessing := false;
       currentAbortController := currentAbortController s;
       lastUserMessageContainer := lastUserMessageContainer s;
       activeEditableBubble := activeEditableBubble s;
       conversationHistory := conversationHistory s;
       chartCounter := chartCounter s;
       showChartVisualization := showChartVisualization s;
       inputValue := inputValue s;
       sendButton := idleButton;
       nodes := nodes s;
       messageArea :=
         removeLoading (messageArea s)
         ++ (if aborted e then [] else [AiMessage apology]);
       abortedSignals := abortedSignals s;
       inflight := inflight s;
       nextRequest := nextRequest s;
       pollers := pollers s |}.
Proof.
  unfold onRejected. destruct (aborted e); simpl.
  - now rewrite app_nil_r.
  - reflexivity.
Qed.

Lemma afterErrorBody_frame (errorData : Body) (s : State) :
  let shown := orElse (detail errorData) "An unknown error occurred." in
  afterErrorBody errorData s
  = {| isProcessing := isProcessing s;
       currentAbortController := currentAbortController s;
       lastUserMessageContainer := lastUserMessageContainer s;
       activeEditableBubble := activeEditableBubble s;
       conversationHistory := conversationHistory s ++ [assistantTurn shown];
       chartCounter := chartCounter s;
       showChartVisualization := showChartVisualization s;
       inputValue := inputValue s;
       sendButton := sendButton s;
       nodes := nodes s;
       messageArea := messageArea s ++ [AiMessage shown];
       abortedSignals := abortedSignals s;
       inflight := inflight s;
       nextRequest := nextRequest s;
       pollers := pollers s |}.
Proof. reflexivity. Qed.

(** The success branch only appends one AI group; besides that it may
    replace or extend the history, count a chart and start a job. *)
Lemma afterResult_frame (p : Pending) (result : Body) (s : State) :
  exists group history counter jobs,
    afterResult p result s
    = {| isProcessing := isProcessing s;
         currentAbortController := currentAbortController s;
         lastUserMessageContainer := lastUserMessageContainer s;
         activeEditableBubble := activeEditableBubble s;
         conversationHistory := history;
         chartCounter := counter;
         showChartVisualization := showChartVisualization s;
         inputValue := inputValue s;
         sendButton := sendButton s;
         nodes := nodes s;
         messageArea := messageArea s ++ [AiGroup (group ++ [Avatar])];
         abortedSignals := abortedSignals s;
         inflight := inflight s;
         nextRequest := nextRequest s;
         pollers := jobs |}.
Proof.
  unfold afterResult, startEnrichment.
  destruct (conversation_history result) as [[|t ts]|];
    destruct (truthyField (error result));
    try (do 4 eexists; reflexivity);
    destruct (truthyField (question result));
    try (do 4 eexists; reflexivity);
    destruct (data result) as [[|row rows]|];
    try (do 4 eexists; reflexivity);
    destruct (chart result);
    try (do 4 eexists; reflexivity);
    destruct (origin p); simpl;
    try destruct (shouldShowCharts p);
    try destruct (showChartVisualization s || isChartRequest p);
    try (do 4 eexists; reflexivity);
    destruct (truthyField (request_id result));
    do 4 eexists; reflexivity.
Qed.

Lemma loadingCount_app (a b : list Item) :
  loadingCount (a ++ b) = loadingCount a + loadingCount b.
Proof. unfold loadingCount. now rewrite List.filter_app, length_app. Qed.

Lemma loadingCount_removeLoading (area : list Item) :
  loadingCount (removeLoading area) = pred (loadingCount area).
Proof.
  induction area as [|item area IH]; [reflexivity |].
  destruct item;
    try (change (removeLoading (?i :: area)) with (i :: removeLoading area);
         exact IH).
  reflexivity.
Qed.

Lemma loadingKept_step (s s' : State) : Step s s' -> loadingKept s -> loadingKept s'.
Proof.
  unfold loadingKept.
  intros Hstep [Hle Himp]; destruct Hstep as [s|text s|s Hidle Hquery|s Hbusy|innerText s Hquery
                    |i c s Hnode Hbutton|s|s|p ok s Hin|p result s Hin
                    |n errorData s|n e s].
  - auto.
  - auto.
  - rewrite sendMessage_sends by assumption. simpl.
    rewrite loadingCount_app, loadingCount_removeLoading, loadingCount_app.
    cbn. split; [lia | reflexivity].
  - rewrite stopRequest_stops. simpl. rewrite loadingCount_removeLoading.
    split; lia.
  - rewrite commitEdit_commits. simpl.
    rewrite loadingCount_app, loadingCount_removeLoading.
    cbn. split; [lia | reflexivity].
  - auto.
  - simpl. cbn. split; [lia | intros H; discriminate H].
  - auto.
  - rewrite afterFetch_frame. simpl. rewrite loadingCount_removeLoading.
    split; lia.
  - destruct (afterResult_frame p result (dropPending (req p) s))
      as (group & history & counter & jobs & ->).
    simpl. rewrite loadingCount_app. cbn. rewrite Nat.add_0_r. auto.
  - rewrite afterErrorBody_frame. simpl. rewrite loadingCount_app. cbn.
    rewrite Nat.add_0_r. auto.
  - rewrite onRejected_frame. simpl.
    rewrite loadingCount_app, loadingCount_removeLoading.
    destruct (aborted e); cbn; split; lia.
Qed.

Ltac step_cases Hstep :=
  destruct Hstep as [s|text s|s Hidle Hquery|s Hbusy|innerText s Hquery
                    |i c s Hnode Hbutton|s|s|p ok s Hin|p result s Hin
                    |n errorData s|n e s].

Lemma buttonKept_step (s s' : State) : Step s s' -> buttonKept s -> buttonKept s'.
Proof.
  unfold buttonKept. intros Hstep Hb; step_cases Hstep.
  - exact Hb.
  - exact Hb.
  - now rewrite sendMessage_sends by assumption.
  - now rewrite stopRequest_stops.
  - now rewrite commitEdit_commits.
  - exact Hb.
  - exact Hb.
  - exact Hb.
  - now rewrite afterFetch_frame.
  - destruct (afterResult_frame p result (dropPending (req p) s))
      as (group & history & counter & jobs & ->). exact Hb.
  - exact Hb.
  - now rewrite onRejected_frame.
Qed.



Lemma trimEnd_keeps_head (c : ascii) (rest : string) :
  isWhiteSpace c = false -> trimEnd (String c rest) = String c (trimEnd rest).
Proof. intros H. simpl. rewrite H. now destruct (trimEnd rest). Qed.

Lemma trimStart_shape (s : string) :
  trimStart s = ""
  \/ exists c rest, trimStart s = String c rest /\ isWhiteSpace c = false.
Proof.
  induction s as [|c s IH]; simpl; [now left |].
  destruct (isWhiteSpace c) eqn:E; [exact IH |].
  right. now exists c, s.
Qed.

Lemma trimEnd_idempotent (s : string) : trimEnd (trimEnd s) = trimEnd s.
Proof.
  induction s as [|c s IH]; [reflexivity |].
  simpl. destruct (trimEnd s) as [|k kept] eqn:E.
  - destruct (isWhiteSpace c) eqn:W; [reflexivity |].
    simpl. now rewrite W.
  - simpl. simpl in IH. destruct (trimEnd kept) as [|k' kept'] eqn:E'.
    + destruct (isWhiteSpace k); [discriminate IH |]. now rewrite IH.
    + now rewrite IH.
Qed.

Lemma trim_idempotent (s : string) : trim (trim s) = trim s.
Proof.
  unfold trim. destruct (trimStart_shape s) as [-> | (c & rest & -> & W)].
  - reflexivity.
  - rewrite (trimEnd_keeps_head c rest W). simpl trimStart. rewrite W.
    rewrite <- (trimEnd_keeps_head c rest W). apply trimEnd_idempotent.
Qed.

Lemma makeMessageEditable_keeps (c : Container) :
  contentEditable (makeMessageEditable c) = contentEditable c
  /\ keydownHooked (makeMessageEditable c) = keydownHooked c.
Proof.
  unfold makeMessageEditable, addEditButton, ensureUserActions. simpl.
  destruct (hasEditButton c); split; reflexivity.
Qed.

Lemma referencesKept_step (s s' : State) :
  Step s s' -> referencesKept s -> referencesKept s'.
Proof.
  unfold referencesKept. intros Hstep [Hlast Hactive]; step_cases Hstep.
  - auto.
  - auto.
  - rewrite sendMessage_sends by assumption. simpl. split.
    + intros i [= <-]. rewrite length_app. simpl. lia.
    + intros i Hi. destruct (Hactive i Hi) as (c & Hc & He & Hk).
      exists c. split; [| auto].
      rewrite lookup_app_l; [exact Hc | now apply lookup_lt_Some with c].
  - rewrite stopRequest_stops. simpl. split.
    + intros i Hi. destruct (lastUserMessageContainer s);
        [rewrite length_alter |]; auto.
    + intros i Hi. destruct (Hactive i Hi) as (c & Hc & He & Hk).
      destruct (lastUserMessageContainer s) as [l|]; [| now exists c].
      destruct (decide (l = i)) as [-> | Hne].
      * exists (makeMessageEditable c). rewrite list_lookup_alter_eq, Hc.
        destruct (makeMessageEditable_keeps c) as [-> ->]. auto.
      * exists c. now rewrite list_lookup_alter_ne.
  - rewrite commitEdit_commits. simpl. split; [| discriminate].
    intros i Hi. specialize (Hlast i Hi).
    destruct (activeEditableBubble s), (lastUserMessageContainer s);
      rewrite ?length_alter; auto.
  - unfold enableEditing. simpl. split.
    + intros j Hj. rewrite length_alter. auto.
    + intros j [= <-]. rewrite list_lookup_alter_eq, Hnode. simpl.
      eexists. split; [reflexivity | auto].
  - auto.
  - auto.
  - auto.
  - destruct (afterResult_frame p result (dropPending (req p) s))
      as (group & history & counter & jobs & ->). auto.
  - auto.
  - rewrite onRejected_frame. auto.
Qed.





Lemma wellFormedRequest_new (from : Origin) (text : string) (sv : bool)
    (history : list Turn) (n : nat) :
  trim text <> "" ->
  wellFormedRequest
    {| req := n; origin := from;
       isChartRequest := detectChartRequest (trim text);
       shouldShowCharts := sv || detectChartRequest (trim text);
       sent := {| ask_query := trim text;
                  ask_conversation_history := history ++ [userTurn (trim text)];
                  ask_show_charts := sv || detectChartRequest (trim text) |};
       phase := AwaitFetch |}.
Proof.
  intros H. unfold wellFormedRequest. simpl.
  split; [exact H |]. split; [apply trim_idempotent |].
  split; [apply last_snoc |]. split; [reflexivity |]. split; [reflexivity |].
  intros ->. apply orb_true_r.
Qed.

Lemma bodiesKept_step (s s' : State) :
  Step s s' -> bodiesKept s -> bodiesKept s'.
Proof.
  unfold bodiesKept. intros Hstep Hb; step_cases Hstep.
  - auto.
  - auto.
  - rewrite sendMessage_sends by assumption. simpl.
    intros p Hp. apply in_app_or in Hp as [Hp | [<- | []]]; [auto |].
    now apply wellFormedRequest_new.
  - rewrite stopRequest_stops. simpl. auto.
  - rewrite commitEdit_commits. simpl.
    intros p Hp. apply in_app_or in Hp as [Hp | [<- | []]]; [auto |].
    now apply wellFormedRequest_new.
  - auto.
  - auto.
  - auto.
  - rewrite afterFetch_frame. simpl.
    intros q Hq. apply in_map_iff in Hq as (q0 & <- & Hq0).
    specialize (Hb q0 Hq0). now destruct (req q0 =? req p).
  - destruct (afterResult_frame p result (dropPending (req p) s))
      as (group & history & counter & jobs & ->). simpl.
    intros q Hq. apply filter_In in Hq as [Hq _]. auto.
  - rewrite afterErrorBody_frame. simpl.
    intros q Hq. apply filter_In in Hq as [Hq _]. auto.
  - rewrite onRejected_frame. simpl.
    intros q Hq. apply filter_In in Hq as [Hq _]. auto.
Qed.

(** X1. In every state the widget can reach, the message area holds at
    most one loading indicator, and holds one only while the processing
    flag is set. *)
Theorem loading_indicator_kept (s : State) :
  reachable s ->
  loadingCount (messageArea s) <= 1
  /\ (loadingCount (messageArea s) = 1 -> isProcessing s = true).
Proof.
  apply (kept_when_reachable loadingKept).
  - split; [cbn; lia | intros H; discriminate H].
  - apply loadingKept_step.
Qed.

Lemma loading_indicator_kept_witness :
  let s := run [TypeInput "A"; InputKeydown Enter; RefreshButtonClick] initial in
  loadingCount (messageArea s) <= 1
  /\ (loadingCount (messageArea s) = 1 -> isProcessing s = true).
Proof.
  intros s. apply loading_indicator_kept.
  exists [TypeInput "A"; InputKeydown Enter; RefreshButtonClick]. reflexivity.
Defined.

(** X2. In every reachable state the action control shows "Stop" with
    its processing mark exactly when the processing flag is set, and
    "Send" without the mark otherwise. *)
Theorem action_control_follows_flag (s : State) :
  reachable s ->
  sendButton s = if isProcessing s then stopButton else idleButton.
Proof.
  apply (kept_when_reachable buttonKept); [reflexivity | apply buttonKept_step].
Qed.

Lemma action_control_follows_flag_witness :
  let s := run [TypeInput "A"; InputKeydown Enter; FetchResolved 0 true] initial in
  sendButton s = if isProcessing s then stopButton else idleButton.
Proof.
  intros s. apply action_control_follows_flag.
  exists [TypeInput "A"; InputKeydown Enter; FetchResolved 0 true]. reflexivity.
Defined.

(** X3. In every reachable state [lastUserMessageContainer] and
    [activeEditableBubble] refer to containers that were created, and the
    bubble in edit mode is content-editable and carries the keydown
    listener. *)
Theorem references_kept (s : State) :
  reachable s ->
  (forall i, lastUserMessageContainer s = Some i -> i < length (nodes s))
  /\ (forall i, activeEditableBubble s = Some i ->
        exists c, nodes s !! i = Some c
                  /\ contentEditable c = true /\ keydownHooked c = true).
Proof.
  apply (kept_when_reachable referencesKept).
  - split; intros i H; discriminate H.
  - apply referencesKept_step.
Qed.

Lemma references_kept_witness :
  let s := run [TypeInput "A"; InputKeydown Enter; SendButtonClick "";
                EditButtonClick 0] initial in
  (forall i, lastUserMessageContainer s = Some i -> i < length (nodes s))
  /\ (forall i, activeEditableBubble s = Some i ->
        exists c, nodes s !! i = Some c
                  /\ contentEditable c = true /\ keydownHooked c = true).
Proof.
  intros s. apply references_kept.
  exists [TypeInput "A"; InputKeydown Enter; SendButtonClick "";
          EditButtonClick 0]. reflexivity.
Defined.

(** X5. Every request the widget has sent and not yet settled carries a
    query that is non-empty and trimmed, a [conversation_history] whose
    last entry is that same query as a user turn, and [show_charts] set
    whenever [detectChartRequest] accepts the query. *)
Theorem requests_well_formed (s : State) (p : Pending) :
  reachable s -> In p (inflight s) ->
  let body := sent p in
  ask_query body <> ""
  /\ trim (ask_query body) = ask_query body
  /\ last (ask_conversation_history body) = Some (userTurn (ask_query body))
  /\ (detectChartRequest (ask_query body) = true -> ask_show_charts body = true).
Proof.
  intros Hr Hin.
  assert (H : bodiesKept s).
  { revert s Hr Hin. intros s Hr _. revert s Hr.
    apply (kept_when_reachable bodiesKept).
    - intros q [].
    - apply bodiesKept_step. }
  destruct (H p Hin) as (H1 & H2 & H3 & H4 & H5 & H6).
  simpl. split; [exact H1 | split; [exact H2 | split; [exact H3 |]]].
  intros Hd. apply H6. now rewrite H4.
Qed.

Lemma requests_well_formed_witness :
  let s := run [TypeInput " Sales over time "; InputKeydown Enter] initial in
  let p := {| req := 0; origin := FromInput; isChartRequest := true;
              shouldShowCharts := true;
              sent := {| ask_query := "Sales over time";
                         ask_conversation_history := [userTurn "Sales over time"];
                         ask_show_charts := true |};
              phase := AwaitFetch |} in
  In p (inflight s)
  /\ trim (ask_query (sent p)) = ask_query (sent p)
  /\ last (ask_conversation_history (sent p)) = Some (userTurn (ask_query (sent p))).
Proof.
  intros s p.
  assert (Hr : reachable s).
  { exists [TypeInput " Sales over time "; InputKeydown Enter]. reflexivity. }
  assert (Hin : In p (inflight s)) by (change (In p [p]); left; reflexivity).
  destruct (requests_well_formed s p Hr Hin) as (_ & H2 & H3 & _).
  split; [exact Hin | split; [exact H2 | exact H3]].
Defined.

Lemma trim_blank (text : string) : blank text = true -> trim text = "".
Proof.
  unfold trim. induction text as [|c text IH]; simpl; [reflexivity |].
  intros H. apply andb_true_iff in H as [Hc Ht]. rewrite Hc. auto.
Qed.

(** X6. White space alone is never sent: with a blank input field, Enter
    in the field leaves the state as it is, and so does a click on the
    action control when no request is in flight and no bubble is being
    edited; with a bubble in edit mode whose text is blank, the click and
    Enter in the bubble leave the state as it is; Enter with Shift and
    any other key in the bubble never commit. *)
Theorem blank_text_is_not_sent (s : State) :
  (blank (inputValue s) = true ->
   onInputKeydown Enter s = s
   /\ (isProcessing s = false -> activeEditableBubble s = None ->
       forall innerText, handleSendButtonClick innerText s = s))
  /\ (forall innerText, blank innerText = true ->
        (isProcessing s = false -> activeEditableBubble s <> None ->
         handleSendButtonClick innerText s = s)
        /\ forall key shiftKey,
             onEditableBubbleKeydown key shiftKey innerText s = s)
  /\ (forall innerText key,
        onEditableBubbleKeydown key true innerText s = s
        /\ onEditableBubbleKeydown OtherKey false innerText s = s).
Proof.
  split; [| split].
  - intros Hb. pose proof (trim_blank _ Hb) as Ht.
    assert (Hs : sendMessage s = s) by (unfold sendMessage; now rewrite Ht).
    split.
    + unfold onInputKeydown.
      destruct (isProcessing s), (activeEditableBubble s); auto.
    + intros Hp Ha innerText. unfold handleSendButtonClick. now rewrite Hp, Ha.
  - intros innerText Hb. pose proof (trim_blank _ Hb) as Ht. split.
    + intros Hp Ha. unfold handleSendButtonClick. rewrite Hp, Ht.
      now destruct (activeEditableBubble s).
    + intros key shiftKey. unfold onEditableBubbleKeydown. rewrite Ht.
      destruct key, shiftKey, (activeEditableBubble s); reflexivity.
  - intros innerText key. split; [now destruct key | reflexivity].
Qed.

Lemma blank_text_is_not_sent_witness :
  let s := set_inputValue "   " initial in
  onInputKeydown Enter s = s.
Proof.
  intros s. apply (proj1 (blank_text_is_not_sent s)). reflexivity.
Defined.



Lemma dropPending_frame (n : nat) (s : State) :
  dropPending n s
  = {| isProcessing := isProcessing s;
       currentAbortController := currentAbortController s;
       lastUserMessageContainer := lastUserMessageContainer s;
       activeEditableBubble := activeEditableBubble s;
       conversationHistory := conversationHistory s;
       chartCounter := chartCounter s;
       showChartVisualization := showChartVisualization s;
       inputValue := inputValue s;
       sendButton := sendButton s;
       nodes := nodes s;
       messageArea := messageArea s;
       abortedSignals := abortedSignals s;
       inflight := List.filter (fun p => negb (req p =? n)) (inflight s);
       nextRequest := nextRequest s;
       pollers := pollers s |}.
Proof. reflexivity. Qed.

(** The history the success branch leaves: the server's when it sent a
    non-empty one, the local one otherwise, plus the fixed turn on
    [error]. *)
Lemma afterResult_history (p : Pending) (result : Body) (s : State) :
  conversationHistory (afterResult p result s)
  = match conversation_history result with
    | Some (t :: ts) => t :: ts
    | _ => conversationHistory s
    end
    ++ (if truthyField (error result)
        then [assistantTurn "An error occurred. Please check the logs."]
        else []).
Proof.
  unfold afterResult, startEnrichment.
  destruct (conversation_history result) as [[|t ts]|];
    destruct (truthyField (error result)); simpl; try reflexivity;
    destruct (truthyField (question result)); simpl;
    rewrite ?app_nil_r; try reflexivity;
    destruct (data result) as [[|row rows]|]; simpl;
    rewrite ?app_nil_r; try reflexivity;
    destruct (chart result); simpl; rewrite ?app_nil_r; try reflexivity;
    destruct (origin p); simpl;
    try destruct (shouldShowCharts p);
    try destruct (showChartVisualization s || isChartRequest p);
    simpl; rewrite ?app_nil_r; try reflexivity;
    destruct (truthyField (request_id result)); simpl;
    rewrite ?app_nil_r; reflexivity.
Qed.

(** The run that [afterFetch] parks on its body is found under the same
    number. *)
Lemma findPending_parked (n : nat) (p : Pending) (ok : bool) (s : State) :
  findPending n s = Some p ->
  findPending n (afterFetch p ok s)
  = Some {| req := req p; origin := origin p;
            isChartRequest := isChartRequest p;
            shouldShowCharts := shouldShowCharts p;
            sent := sent p; phase := AwaitJson ok |}.
Proof.
  intros Hf. rewrite afterFetch_frame. unfold findPending in *. simpl.
  destruct (find_some _ _ Hf) as [_ Hr]. apply Nat.eqb_eq in Hr.
  induction (inflight s) as [|q l IH]; [discriminate Hf |].
  simpl in Hf |- *. destruct (req q =? n) eqn:Eq.
  - injection Hf as ->. rewrite Nat.eqb_refl. simpl. now rewrite Eq.
  - replace (req q =? req p) with false by (now rewrite Hr, Eq).
    rewrite Eq. exact (IH Hf).
Qed.

(** X7. The refresh button does not cancel: it empties the history and
    the message area but leaves the processing flag, the abort controller
    and the suspended requests as they are; when the request that was in
    flight, its fetch still pending or its body still being read, is
    answered afterwards with the server's history, that history becomes
    the conversation again. *)
Theorem refresh_does_not_cancel
    (s : State) (n : nat) (p : Pending) (result : Body) (t : Turn) (ts : list Turn) :
  findPending n s = Some p ->
  conversation_history result = Some (t :: ts) ->
  truthyField (error result) = false ->
  let cleared := handleEvent RefreshButtonClick s in
  (conversationHistory cleared = [] /\ messageArea cleared = [Welcome])
  /\ (isProcessing cleared = isProcessing s
      /\ currentAbortController cleared = currentAbortController s
      /\ inflight cleared = inflight s
      /\ live cleared = live s)
  /\ (phase p = AwaitFetch -> isAborted n s = false ->
      conversationHistory
        (run [FetchResolved n true; JsonResolved n result] cleared)
      = t :: ts)
  /\ (phase p = AwaitJson true ->
      conversationHistory (handleEvent (JsonResolved n result) cleared) = t :: ts).
Proof.
  intros Hf Hh He cleared. subst cleared. simpl handleEvent at 1 2 3 4 5 6.
  split; [split; reflexivity |]. split; [repeat split |].
  assert (Hfc : findPending n (clearConversationHistory s) = Some p) by exact Hf.
  split.
  - intros Hph Hab. unfold run. cbn [fold_left].
    cbn [handleEvent]. rewrite Hfc, Hph.
    change (isAborted n (clearConversationHistory s)) with (isAborted n s).
    rewrite Hab. cbn [handleEvent].
    rewrite (findPending_parked n p true _ Hfc). cbn [phase].
    rewrite afterResult_history, Hh, He. apply app_nil_r.
  - intros Hph. cbn [handleEvent].
    rewrite Hfc, Hph, afterResult_history, Hh, He. apply app_nil_r.
Qed.

Lemma refresh_does_not_cancel_witness :
  let s := {| isProcessing := true; currentAbortController := Some 0;
              lastUserMessageContainer := Some 0; activeEditableBubble := None;
              conversationHistory := [userTurn "A"]; chartCounter := 0;
              showChartVisualization := false; inputValue := "";
              sendButton := stopButton;
              nodes := [ensureUserActions freshContainer];
              messageArea := [Welcome; UserMessage 0 "A"; Loading];
              abortedSignals := [];
              inflight := [{| req := 0; origin := FromInput;
                              isChartRequest := false; shouldShowCharts := false;
                              sent := {| ask_query := "A";
                                         ask_conversation_history := [userTurn "A"];
                                         ask_show_charts := false |};
                              phase := AwaitFetch |}];
              nextRequest := 1; pollers := [] |} in
  s = run [TypeInput "A"; InputKeydown Enter] initial
  /\ conversationHistory
       (run [FetchResolved 0 true;
             JsonResolved 0 (rowsWithHistory ["row"]
                               [userTurn "A"; assistantTurn "SELECT 1"])]
          (handleEvent RefreshButtonClick s))
     = [userTurn "A"; assistantTurn "SELECT 1"].
Proof.
  intros s. split; [reflexivity |].
  exact (proj1 (proj2 (proj2 (refresh_does_not_cancel s 0 _
                  (rowsWithHistory ["row"] [userTurn "A"; assistantTurn "SELECT 1"])
                  (userTurn "A") [assistantTurn "SELECT 1"]
                  eq_refl eq_refl eq_refl))) eq_refl eq_refl).
Defined.



Ltac afterResult_cases p result s :=
  unfold afterResult, startEnrichment;
  destruct (conversation_history result) as [[|? ?]|];
  destruct (error result) as [[|? ?]|];
  destruct (question result) as [[|? ?]|];
  destruct (data result) as [[|? ?]|];
  destruct (chart result);
  destruct (request_id result) as [[|? ?]|];
  destruct (origin p);
  destruct (shouldShowCharts p);
  destruct (showChartVisualization s);
  destruct (isChartRequest p);
  simpl.

(** X8. What [sendMessage] renders for an answer does not depend on the
    visualization toggle at the time the answer arrives: toggling while
    the request is in flight changes neither the rendered group, nor the
    started jobs, nor the history. *)
Theorem sent_turn_ignores_later_toggle (p : Pending) (result : Body) (s : State) :
  origin p = FromInput ->
  let toggled := toggleChartVisualization s in
  messageArea (afterResult p result toggled) = messageArea (afterResult p result s)
  /\ pollers (afterResult p result toggled) = pollers (afterResult p result s)
  /\ conversationHistory (afterResult p result toggled)
     = conversationHistory (afterResult p result s)
  /\ chartCounter (afterResult p result toggled)
     = chartCounter (afterResult p result s).
Proof.
  intros Ho toggled. subst toggled. unfold toggleChartVisualization.
  unfold afterResult, startEnrichment. rewrite Ho.
  destruct (conversation_history result) as [[|? ?]|];
    destruct (truthyField (error result));
    destruct (truthyField (question result));
    destruct (data result) as [[|? ?]|];
    destruct (chart result);
    destruct (truthyField (request_id result));
    destruct (shouldShowCharts p);
    simpl; repeat split; reflexivity.
Qed.

Lemma sent_turn_ignores_later_toggle_witness :
  let p := {| req := 0; origin := FromInput; isChartRequest := false;
              shouldShowCharts := false;
              sent := {| ask_query := "A";
                         ask_conversation_history := [userTurn "A"];
                         ask_show_charts := false |};
              phase := AwaitJson true |} in
  let result := {| detail := None; error := None; question := None;
                   data := Some ["row"]; chart := Some "bars";
                   request_id := Some "r1"; conversation_history := None |} in
  pollers (afterResult p result (toggleChartVisualization initial))
  = pollers (afterResult p result initial).
Proof.
  intros p result.
  exact (proj1 (proj2 (sent_turn_ignores_later_toggle p result initial eq_refl))).
Defined.



Ltac leaf :=
  simpl;
  lazymatch goal with
  | |- exists group, _ ++ [AiGroup ?g] = _ /\ _ => exists (removelast g)
  end;
  split; [reflexivity |];
  repeat split; intros; simpl in *;
  repeat match goal with
         | H : _ \/ _ |- _ => destruct H
         | H : False |- _ => destruct H
         | H : @eq Part _ _ |- _ => first [discriminate H | injection H as; subst]
         | H : @eq (option _) _ _ |- _ => first [discriminate H | injection H as; subst]
         | H : @eq bool _ _ |- _ => discriminate H
         | H : forall id, ~ _ |- _ => exfalso; eapply H; eauto 10
         end;
  try discriminate; try reflexivity; eauto 10.

(** X9. How an answer is rendered: always as one AI group that ends with
    the avatar; an [error] wins over everything else, a [question] over
    data; a table is only ever built from a non-empty [data]; a pending
    insights slot appears only next to a chart, only for the answer's own
    [request_id], and exactly then one enrichment job is started. *)
Theorem answer_rendering (p : Pending) (result : Body) (s : State) :
  exists group,
    messageArea (afterResult p result s)
    = messageArea s ++ [AiGroup (group ++ [Avatar])]
    /\ (forall e, error result = Some e -> truthy e = true ->
          group = [MessageBubble e])
    /\ (forall q, truthyField (error result) = false ->
          question result = Some q -> truthy q = true ->
          group = [MessageBubble q])
    /\ (forall rows, In (TableBubble rows) group \/ In (TableContainer rows) group ->
          rows <> [] /\ data result = Some rows)
    /\ (forall id, In (InsightsPending id) group ->
          request_id result = Some id
          /\ pollers (afterResult p result s) = pollers s ++ [id]
          /\ exists k ch rows, In (ChartBubble k ch rows) group
                               /\ chart result = Some ch)
    /\ ((forall id, ~ In (InsightsPending id) group) ->
        pollers (afterResult p result s) = pollers s).
Proof.
  unfold afterResult, startEnrichment.
  destruct (conversation_history result) as [[|t ts]|];
    (destruct (error result) as [[|e0 e]|]; simpl; [| leaf |];
     (destruct (question result) as [[|q0 q]|]; simpl; [| leaf |];
      (destruct (data result) as [[|row rows]|]; simpl; [leaf | | leaf];
       (destruct (chart result) as [ch|]; simpl; [| leaf];
        (match goal with
         | |- context [match origin p with _ => _ end] =>
             destruct (match origin p with
                       | FromInput => shouldShowCharts p
                       | FromEdit => _
                       end); simpl; [| leaf]
         end;
         destruct (request_id result) as [[|r0 r]|]; simpl; leaf))))).
Qed.

Lemma answer_rendering_witness :
  let p := {| req := 0; origin := FromInput; isChartRequest := false;
              shouldShowCharts := false;
              sent := {| ask_query := "A";
                         ask_conversation_history := [userTurn "A"];
                         ask_show_charts := false |};
              phase := AwaitJson true |} in
  let result := {| detail := None; error := Some "boom"; question := Some "Which?";
                   data := Some ["row"]; chart := Some "bars";
                   request_id := Some "r1"; conversation_history := None |} in
  exists group,
    messageArea (afterResult p result initial)
    = messageArea initial ++ [AiGroup (group ++ [Avatar])]
    /\ group = [MessageBubble "boom"].
Proof.
  intros p result.
  destruct (answer_rendering p result initial) as (group & Hm & He & _).
  exists group. split; [exact Hm | exact (He "boom" eq_refl eq_refl)].
Defined.

End LifecycleFacts.

(** ** The cancel entry *)

Module CancelFacts.
Import Js ChartIntent Widget Lifecycle JsFacts WidgetFacts LifecycleFacts.

#[local] Arguments detectChartRequest : simpl never.
#[local] Arguments trim : simpl never.
#[local] Arguments removeLoading : simpl never.




















End CancelFacts.

(** ** More on the enrichment poller *)

Module PollerOrder.
Import Js Poller Checks PollerFacts.

Lemma poll_first_answer (checks : nat -> Outcome) (k attempts : nat)
    (effects : list Effect) :
  attempts + k < maxAttempts ->
  (forall j, j < k -> tryBlock (checks (attempts + j)) = FallThrough) ->
  tryBlock (checks (attempts + k)) = Return effects ->
  poll checks attempts = retries k ++ FetchStatus :: effects.
Proof.
  revert attempts. induction k as [|k IH]; intros attempts Hlt Hfall Hret.
  - rewrite Nat.add_0_r in Hret. now apply poll_returns.
  - rewrite poll_reschedules.
    + simpl. do 2 f_equal. apply IH.
      * lia.
      * intros j Hj. replace (S attempts + j) with (attempts + S j) by lia.
        apply Hfall. lia.
      * now replace (S attempts + k) with (attempts + S k) by lia.
    + specialize (Hfall 0). rewrite Nat.add_0_r in Hfall. apply Hfall. lia.
    + lia.
Qed.

Lemma poll_uses_budget (checks : nat -> Outcome) (k attempts : nat) :
  S (attempts + k) = maxAttempts ->
  (forall j, j <= k -> tryBlock (checks (attempts + j)) = FallThrough) ->
  poll checks attempts
  = retries k ++ [FetchStatus; ClearInterval; Render TookTooLong].
Proof.
  revert attempts. induction k as [|k IH]; intros attempts Heq Hfall.
  - apply poll_gives_up.
    + specialize (Hfall 0). rewrite Nat.add_0_r in Hfall. apply Hfall. lia.
    + lia.
  - rewrite poll_reschedules.
    + simpl. do 2 f_equal. apply IH.
      * lia.
      * intros j Hj. replace (S attempts + j) with (attempts + S j) by lia.
        apply Hfall. lia.
    + specialize (Hfall 0). rewrite Nat.add_0_r in Hfall. apply Hfall. lia.
    + lia.
Qed.

Lemma undecided_falls_through (o : Outcome) :
  undecided o = true -> tryBlock o = FallThrough.
Proof.
  destruct o as [j|]; [| reflexivity]. simpl.
  destruct (String.eqb (status j) "ready"); [discriminate |].
  destruct (String.eqb (status j) "error"); [discriminate | reflexivity].
Qed.

(** X10. Polling stops at the first status check that answers 'ready' or
    'error': when every check before the one numbered [k] (counting from
    0, [k] below the budget) left the job undecided, by a failing
    transport or by any other status, exactly [k + 1] checks are made and
    check [k] is rendered, whatever later checks would have answered;
    when all 20 leave it undecided, exactly 20 are made and the
    took-too-long notice is rendered. *)
Theorem polling_stops_at_first_answer (checks : nat -> Outcome) (k : nat) :
  (forall i, i < k -> undecided (checks i) = true) ->
  (forall j,
     k < maxAttempts -> checks k = Answered j ->
     status j = "ready" \/ status j = "error" ->
     exists t,
       startPolling checks
       = SetInterval 900 :: SetTimeout 1000
         :: retries k ++ [FetchStatus; ClearInterval; Render t]
       /\ (status j = "error" -> t = Unavailable)
       /\ (status j = "ready" ->
           exists shown followUps,
             t = ReadyPayload shown followUps
             /\ (forall text, insights j = Some text -> text <> "" ->
                   shown = Some text)
             /\ (forall qs, follow_up_questions j = Some qs -> followUps = qs))
       /\ count isFetch (startPolling checks) = S k
       /\ forall later,
            (forall i, i <= k -> later i = checks i) ->
            startPolling later = startPolling checks)
  /\ (S k = maxAttempts -> undecided (checks k) = true ->
      startPolling checks
      = SetInterval 900 :: SetTimeout 1000
        :: retries k ++ [FetchStatus; ClearInterval; Render TookTooLong]
      /\ count isFetch (startPolling checks) = maxAttempts).
Proof.
  intros Hund.
  assert (Hfall : forall i, i < k -> tryBlock (checks i) = FallThrough).
  { intros i Hi. apply undecided_falls_through. now apply Hund. }
  split.
  - intros j Hk Hj Hs.
    assert (Hret : exists t,
               tryBlock (checks k) = Return [ClearInterval; Render t]
               /\ (status j = "error" -> t = Unavailable)
               /\ (status j = "ready" ->
                   exists shown followUps,
                     t = ReadyPayload shown followUps
                     /\ (forall text, insights j = Some text -> text <> "" ->
                           shown = Some text)
                     /\ (forall qs, follow_up_questions j = Some qs ->
                           followUps = qs))).
    { rewrite Hj. destruct Hs as [Hs | Hs].
      - destruct (tryBlock_ready j Hs) as (shown & followUps & Ht & Hi & _ & Hq & _).
        exists (ReadyPayload shown followUps). split; [exact Ht |]. split.
        + intros He. rewrite Hs in He. discriminate He.
        + intros _. now exists shown, followUps.
      - exists Unavailable. split; [now apply tryBlock_error |].
        split; [reflexivity |].
        intros Hr. rewrite Hs in Hr. discriminate Hr. }
    destruct Hret as (t & Hret & Herr & Hready).
    assert (Hpoll : forall c, (forall i, i <= k -> c i = checks i) ->
              poll c 0 = retries k ++ [FetchStatus; ClearInterval; Render t]).
    { intros c Hc. apply poll_first_answer; simpl.
      - exact Hk.
      - intros i Hi. rewrite Hc by lia. now apply Hfall.
      - now rewrite Hc by lia. }
    exists t. unfold startPolling.
    split; [now rewrite (Hpoll checks) by reflexivity |].
    split; [exact Herr |]. split; [exact Hready |]. split.
    + rewrite (Hpoll checks) by reflexivity.
      change (count isFetch (SetInterval 900 :: SetTimeout 1000 :: ?l))
        with (count isFetch l).
      rewrite count_retries. unfold count. simpl. lia.
    + intros later Hl. now rewrite (Hpoll later Hl), (Hpoll checks).
  - intros Hk Hlast.
    assert (Hpoll : poll checks 0
                    = retries k ++ [FetchStatus; ClearInterval; Render TookTooLong]).
    { apply poll_uses_budget; simpl; [exact Hk |].
      intros i Hi. destruct (Nat.eq_dec i k) as [-> | Hne].
      - now apply undecided_falls_through.
      - apply Hfall. lia. }
    unfold startPolling. rewrite Hpoll. split; [reflexivity |].
    change (count isFetch (SetInterval 900 :: SetTimeout 1000 :: ?l))
      with (count isFetch l).
    rewrite count_retries. unfold count. simpl. lia.
Qed.

Lemma polling_stops_at_first_answer_witness :
  let pending := Answered {| status := "pending"; insights := None;
                             follow_up_questions := None |} in
  let failing := {| status := "error"; insights := None;
                    follow_up_questions := None |} in
  let checks := fun n => if n =? 0 then Failed
                         else if n =? 1 then pending else Answered failing in
  startPolling checks
  = SetInterval 900 :: SetTimeout 1000
    :: retries 2 ++ [FetchStatus; ClearInterval; Render Unavailable]
  /\ count isFetch (startPolling checks) = 3.
Proof.
  intros pending failing checks.
  assert (Hund : forall i, i < 2 -> undecided (checks i) = true).
  { intros i Hi. destruct i as [|[|i]]; [reflexivity | reflexivity | lia]. }
  assert (Hk : 2 < maxAttempts) by (unfold maxAttempts; lia).
  destruct (proj1 (polling_stops_at_first_answer checks 2 Hund)
              failing Hk eq_refl (or_intror eq_refl))
    as (t & Htrace & Herr & _ & Hcount & _).
  split; [| exact Hcount].
  rewrite Htrace, (Herr eq_refl). reflexivity.
Defined.

End PollerOrder.

(** ** Resizing *)

Module ResizeFacts.
Import Js Resize.

(** X11. While a drag is in progress every mouse move leaves the window
    at least 280 px wide and 300 px high, and the size it sets depends
    only on where the pointer is now, not on the moves before; once the
    button is released, moves change nothing. *)
Theorem resize_bounded_and_path_independent (w : Window) (e1 e2 : MouseEvent) :
  (initialResizeState w <> None ->
   exists nw nh,
     styleWidth (startResizing e1 w) = Some nw
     /\ styleHeight (startResizing e1 w) = Some nh
     /\ (280 <= nw)%Z /\ (300 <= nh)%Z)
  /\ startResizing e2 (startResizing e1 w) = startResizing e2 w
  /\ onMouseMove e2 (onMouseMove e1 w) = onMouseMove e2 w
  /\ onMouseMove e1 (stopResizing w) = stopResizing w
  /\ startResizing e1 (stopResizing w) = stopResizing w.
Proof.
  split; [| split; [| split; [| split]]].
  - intros H. unfold startResizing.
    destruct (initialResizeState w) as [st|]; [| contradiction].
    eexists _, _. split; [reflexivity | split; [reflexivity |]].
    unfold minWidth, minHeight. split.
    + match goal with |- context [if (?a <? 280)%Z then _ else _] =>
        destruct (Z.ltb_spec a 280) end; lia.
    + match goal with |- context [if (?a <? 300)%Z then _ else _] =>
        destruct (Z.ltb_spec a 300) end; lia.
  - unfold startResizing. destruct (initialResizeState w) as [st|] eqn:E; simpl.
    + reflexivity.
    + now rewrite E.
  - assert (Hl : listening (startResizing e1 w) = listening w).
    { unfold startResizing. now destruct (initialResizeState w). }
    assert (Hp : startResizing e2 (startResizing e1 w) = startResizing e2 w).
    { unfold startResizing. destruct (initialResizeState w) as [st|] eqn:E; simpl.
      - reflexivity.
      - now rewrite E. }
    unfold onMouseMove. destruct (listening w) eqn:L; cbn iota.
    + rewrite Hl. exact Hp.
    + now rewrite L.
  - reflexivity.
  - reflexivity.
Qed.

Lemma resize_bounded_and_path_independent_witness :
  let w := initResize (Some "se") 320 400 {| clientX := 900; clientY := 700 |}
             {| styleWidth := None; styleHeight := None;
                initialResizeState := None; listening := false |} in
  exists nw nh,
    styleWidth (startResizing {| clientX := 100; clientY := 100 |} w) = Some nw
    /\ styleHeight (startResizing {| clientX := 100; clientY := 100 |} w) = Some nh
    /\ (280 <= nw)%Z /\ (300 <= nh)%Z.
Proof.
  intros w.
  apply (proj1 (resize_bounded_and_path_independent w
                  {| clientX := 100; clientY := 100 |}
                  {| clientX := 0; clientY := 0 |})).
  discriminate.
Defined.

(** X13. A press on a handle that has no [data-direction], or an empty
    one, starts no drag; a press on a proper handle records the size the
    layout reports and the pointer position, and the first move back at
    that very position restores exactly that size when it is not below
    the minimum. *)
Theorem drag_starts_only_with_direction
    (attribute : option string) (ow oh : Z) (e : MouseEvent) (w : Window) :
  (attribute = None \/ attribute = Some "" ->
   initResize attribute ow oh e w = w)
  /\ (forall d, attribute = Some d -> d <> "" ->
        let started := initResize attribute ow oh e w in
        listening started = true
        /\ styleWidth started = styleWidth w
        /\ styleHeight started = styleHeight w
        /\ ((280 <= ow)%Z -> (300 <= oh)%Z ->
            styleWidth (onMouseMove e started) = Some ow
            /\ styleHeight (onMouseMove e started) = Some oh)).
Proof.
  split.
  - intros [-> | ->]; reflexivity.
  - intros d -> Hd.
    assert (Ht : truthy d = true) by (destruct d; [contradiction | reflexivity]).
    unfold initResize. rewrite Ht. cbn [negb].
    split; [reflexivity | split; [reflexivity | split; [reflexivity |]]].
    intros Hw Hh. unfold onMouseMove, startResizing.
    cbn [listening initialResizeState width height x y direction
         styleWidth styleHeight].
    rewrite !Z.sub_diag, !Z.add_0_r, !Z.sub_0_r. unfold minWidth, minHeight.
    assert (Hmax : forall m v, (m <= v)%Z -> (if (v <? m)%Z then m else v) = v).
    { intros m v H. destruct (Z.ltb_spec v m); lia. }
    destruct (includes d "e"), (includes d "w"),
      (includes d "s"), (includes d "n");
      rewrite !Hmax by lia; split; reflexivity.
Qed.

Lemma drag_starts_only_with_direction_witness :
  let w := {| styleWidth := None; styleHeight := None;
              initialResizeState := None; listening := false |} in
  initResize (Some "") 320 400 {| clientX := 1; clientY := 2 |} w = w.
Proof.
  intros w.
  apply (proj1 (drag_starts_only_with_direction (Some "") 320 400
                  {| clientX := 1; clientY := 2 |} w)).
  now right.
Defined.

End ResizeFacts.

(** ** Chart types *)

Module ChartTypeFacts.
Import Js ChartTypes.

Ltac members H :=
  simpl in H;
  repeat (destruct H as [H | H]; [subst | ]);
  try contradiction.

Lemma renderChart_fields (config : option ChartConfig) (chartData : ChartData) :
  type (renderChart config chartData)
  = getFallbackChartType config (type chartData) chartData
  /\ labels (renderChart config chartData) = labels chartData.
Proof.
  unfold renderChart.
  destruct (String.eqb_spec
              (getFallbackChartType config (type chartData) chartData)
              (type chartData)) as [Heq | Hne]; simpl; auto.
Qed.

Lemma renderChart_enabled (config : option ChartConfig) (chartData : ChartData) :
  isChartTypeEnabled config (type chartData) = true ->
  renderChart config chartData = chartData.
Proof.
  intros H. unfold renderChart, getFallbackChartType.
  now rewrite H, String.eqb_refl.
Qed.

(** X14. Chart type validation. Without a configuration every type
    passes unchanged.  With a configuration a disabled type is replaced
    by 'pie' for at most 6 labels, by 'column' for more than 10, by 'bar'
    otherwise or when there are no labels; whenever the configuration
    enables these three, the validated type is enabled and validating
    once more changes nothing. *)
Theorem chart_type_validation (config : ChartConfig) (chartData : ChartData) :
  let t := type (renderChart (Some config) chartData) in
  type (renderChart None chartData) = type chartData
  /\ (isChartTypeEnabled (Some config) (type chartData) = true ->
      t = type chartData)
  /\ (isChartTypeEnabled (Some config) (type chartData) = false ->
      t = match labels chartData with
          | Some l => if length l <=? 6 then "pie"
                      else if 10 <? length l then "column" else "bar"
          | None => "bar"
          end)
  /\ (isChartTypeEnabled (Some config) "pie" = true ->
      isChartTypeEnabled (Some config) "column" = true ->
      isChartTypeEnabled (Some config) "bar" = true ->
      isChartTypeEnabled (Some config) t = true
      /\ renderChart (Some config) (renderChart (Some config) chartData)
         = renderChart (Some config) chartData).
Proof.
  intros t. subst t.
  destruct (renderChart_fields (Some config) chartData) as [Ht Hl].
  rewrite Ht. unfold getFallbackChartType at 1 2 3.
  split; [| split; [| split]].
  - now rewrite renderChart_enabled.
  - now intros ->.
  - now intros ->.
  - intros Hpie Hcolumn Hbar.
    assert (He : isChartTypeEnabled (Some config)
                   (type (renderChart (Some config) chartData)) = true).
    { rewrite Ht. unfold getFallbackChartType.
      destruct (isChartTypeEnabled (Some config) (type chartData)) eqn:He;
        [exact He |].
      destruct (labels chartData) as [l|];
        [destruct (length l <=? 6); [| destruct (10 <? length l)] |];
        assumption. }
    split.
    + rewrite Ht in He. exact He.
    + now apply renderChart_enabled.
Qed.

Lemma chart_type_validation_witness :
  type (renderChart (Some CHART_CONFIG)
          {| type := "radar"; labels := Some ["a"; "b"; "c"] |}) = "pie"
  /\ isChartTypeEnabled (Some CHART_CONFIG)
       (type (renderChart (Some CHART_CONFIG)
                {| type := "radar"; labels := Some ["a"; "b"; "c"] |})) = true.
Proof.
  pose proof (chart_type_validation CHART_CONFIG
                {| type := "radar"; labels := Some ["a"; "b"; "c"] |}) as H.
  destruct H as (_ & _ & H3 & H4).
  split.
  - exact (H3 eq_refl).
  - exact (proj1 (H4 eq_refl eq_refl eq_refl)).
Defined.

Lemma own_typeMap_series (t name : string) :
  own t typeMap = Some name ->
  In name ["Bar"; "Line"; "Pie"; "Doughnut"; "Area"; "Scatter"; "Column";
           "StackedColumn"].
Proof.
  unfold typeMap, own.
  repeat match goal with
         | |- context [String.eqb ?k t] =>
             destruct (String.eqb_spec k t) as [<- | ?];
             [intros [= <-]; simpl; tauto |]
         end.
  discriminate.
Qed.

Lemma validated_type_enabled (config : ChartConfig) (chartData : ChartData) :
  isChartTypeEnabled (Some config) "pie" = true ->
  isChartTypeEnabled (Some config) "column" = true ->
  isChartTypeEnabled (Some config) "bar" = true ->
  isChartTypeEnabled (Some config) (type (renderChart (Some config) chartData))
  = true.
Proof.
  intros Hpie Hcolumn Hbar.
  destruct (renderChart_fields (Some config) chartData) as [Ht _].
  rewrite Ht. unfold getFallbackChartType.
  destruct (isChartTypeEnabled (Some config) (type chartData)) eqn:He;
    [exact He |].
  destruct (labels chartData) as [l|];
    [destruct (length l <=? 6); [| destruct (10 <? length l)] |];
    assumption.
Qed.

(** X15. [mapChartTypeToSyncfusion] answers one of the eight series
    'Bar', 'Line', 'Pie', 'Doughnut', 'Area', 'Scatter', 'Column',
    'StackedColumn' for every type name that is not a member of
    [Object.prototype], 'Column' when the name is not in its table; for
    such a member it answers the inherited member and no series.
    Without a configuration [renderChart] hands the type on as it came,
    so such a name reaches the map.  With a configuration that enables
    'pie', 'column' and 'bar' and none of these members, the validated
    type always gets a series. *)
Theorem chart_series (t : string) :
  (existsb (String.eqb t) objectPrototypeMembers = false ->
   exists name,
     mapChartTypeToSyncfusion t = Series name
     /\ In name ["Bar"; "Line"; "Pie"; "Doughnut"; "Area"; "Scatter"; "Column";
                 "StackedColumn"]
     /\ (own t typeMap = None -> name = "Column"))
  /\ (existsb (String.eqb t) objectPrototypeMembers = true ->
      mapChartTypeToSyncfusion t = Inherited t)
  /\ (forall l,
        mapChartTypeToSyncfusion
          (type (renderChart None {| type := t; labels := l |}))
        = mapChartTypeToSyncfusion t)
  /\ (forall config l,
        isChartTypeEnabled (Some config) "pie" = true ->
        isChartTypeEnabled (Some config) "column" = true ->
        isChartTypeEnabled (Some config) "bar" = true ->
        forallb (fun m => negb (isChartTypeEnabled (Some config) m))
          objectPrototypeMembers = true ->
        exists name,
          mapChartTypeToSyncfusion
            (type (renderChart (Some config) {| type := t; labels := l |}))
          = Series name).
Proof.
  assert (Hseries : forall u,
            existsb (String.eqb u) objectPrototypeMembers = false ->
            exists name,
              mapChartTypeToSyncfusion u = Series name
              /\ In name ["Bar"; "Line"; "Pie"; "Doughnut"; "Area"; "Scatter";
                          "Column"; "StackedColumn"]
              /\ (own u typeMap = None -> name = "Column")).
  { intros u Hm. unfold mapChartTypeToSyncfusion. rewrite Hm.
    destruct (own u typeMap) as [name|] eqn:Ho.
    - exists name. split; [reflexivity | split; [| discriminate]].
      now apply own_typeMap_series with u.
    - exists "Column". split; [reflexivity | split; [simpl; tauto | reflexivity]]. }
  split; [exact (Hseries t) | split; [| split]].
  - intros Hm. unfold mapChartTypeToSyncfusion.
    assert (Ho : own t typeMap = None).
    { apply existsb_exists in Hm as (k & Hk & He). apply String.eqb_eq in He.
      subst k. members Hk; reflexivity. }
    now rewrite Ho, Hm.
  - intros l. now rewrite renderChart_enabled.
  - intros config l Hpie Hcolumn Hbar Hnone.
    pose proof (validated_type_enabled config {| type := t; labels := l |}
                  Hpie Hcolumn Hbar) as He.
    set (u := type (renderChart (Some config) {| type := t; labels := l |})) in *.
    destruct (existsb (String.eqb u) objectPrototypeMembers) eqn:Hm.
    + apply existsb_exists in Hm as (m & Hin & Heq).
      apply String.eqb_eq in Heq. subst m.
      rewrite forallb_forall in Hnone. specialize (Hnone u Hin).
      rewrite He in Hnone. discriminate Hnone.
    + destruct (Hseries u Hm) as (name & Hname & _). now exists name.
Qed.

Lemma chart_series_witness :
  (exists name, mapChartTypeToSyncfusion "gauge" = Series name
                /\ name = "Column")
  /\ mapChartTypeToSyncfusion
       (type (renderChart None {| type := "constructor"; labels := None |}))
     = Inherited "constructor"
  /\ (exists name,
        mapChartTypeToSyncfusion
          (type (renderChart (Some CHART_CONFIG)
                   {| type := "constructor"; labels := None |}))
        = Series name).
Proof.
  split; [| split].
  - destruct (proj1 (chart_series "gauge") eq_refl) as (name & H1 & _ & H3).
    exists name. split; [exact H1 | exact (H3 eq_refl)].
  - rewrite (proj1 (proj2 (proj2 (chart_series "constructor"))) None).
    exact (proj1 (proj2 (chart_series "constructor")) eq_refl).
  - exact (proj2 (proj2 (proj2 (chart_series "constructor")))
             CHART_CONFIG None eq_refl eq_refl eq_refl eq_refl).
Defined.

End ChartTypeFacts.

(** ** Tables and their CSV export *)

Module CsvFacts.
Import Js ChartTypes Csv JsFacts.

Lemma occurrences_app (c : ascii) (a b : string) :
  occurrences c (a ++ b) = occurrences c a + occurrences c b.
Proof. induction a as [|d a IH]; simpl; [reflexivity | rewrite IH; lia]. Qed.

Lemma length_app (a b : string) :
  String.length (a ++ b) = String.length a + String.length b.
Proof. induction a as [|d a IH]; simpl; [reflexivity | now rewrite IH]. Qed.

Lemma occurrences_doubleQuotes (s : string) :
  occurrences quoteChar (doubleQuotes s) = 2 * occurrences quoteChar s.
Proof.
  induction s as [|c s IH]; simpl; [reflexivity |].
  destruct (Ascii.eqb c quoteChar) eqn:E; simpl; rewrite E, ?E, IH; lia.
Qed.

Lemma length_doubleQuotes (s : string) :
  String.length (doubleQuotes s) = String.length s + occurrences quoteChar s.
Proof.
  induction s as [|c s IH]; simpl; [reflexivity |].
  destruct (Ascii.eqb c quoteChar) eqn:E; simpl; rewrite IH; lia.
Qed.

Lemma undouble_doubleQuotes (s : string) : undouble (doubleQuotes s) = Some s.
Proof.
  induction s as [|c s IH]; simpl; [reflexivity |].
  destruct (Ascii.eqb c quoteChar) eqn:E; simpl; rewrite E, ?E, IH; reflexivity.
Qed.

Lemma includes_char (c : ascii) (s : string) :
  includes s (String c EmptyString) = false -> occurrences c s = 0.
Proof.
  induction s as [|d s IH]; simpl; [reflexivity |].
  rewrite orb_false_iff, andb_false_iff. intros [[E | E] Hs].
  - rewrite Ascii.eqb_sym, E. simpl. exact (IH Hs).
  - destruct s; discriminate E.
Qed.

Lemma append_assoc (a b c : string) :
  ((a ++ b) ++ c = a ++ (b ++ c))%string.
Proof. induction a as [|d a IH]; simpl; [reflexivity | now rewrite IH]. Qed.

Lemma append_empty (a : string) : (a ++ "")%string = a.
Proof. induction a as [|d a IH]; simpl; [reflexivity | now rewrite IH]. Qed.

Lemma fold_lines (headers : list string) (data : list Row) (start : string) :
  fold_left
    (fun csvContent rowData => (csvContent ++ csvLine headers rowData)%string)
    data start
  = (start ++ fold_right String.append "" (map (csvLine headers) data))%string.
Proof.
  revert start; induction data as [|row data IH]; intros start; simpl.
  - now rewrite append_empty.
  - now rewrite IH, append_assoc.
Qed.

Lemma own_In {V : Type} (key : string) (obj : list (string * V)) (v : V) :
  own key obj = Some v -> In v (map snd obj).
Proof.
  induction obj as [|[k w] obj IH]; simpl; [discriminate |].
  destruct (String.eqb k key).
  - intros [= ->]. now left.
  - intros H. right. exact (IH H).
Qed.

(** X17.  A text cell is exported inside double quotes exactly when it
    holds a comma or a double quote; each of its double quotes is then
    written twice, so the field holds an even number of them and its
    content can be read back.  Any other text, line breaks included, is
    exported as it is. *)
Theorem text_field_quoting (rowData : Row) (header s : string) :
  own header rowData = Some (Text s) ->
  let field := joined (exportCell rowData header) in
  (includes s "," || includes s quote = true ->
     field = (quote ++ doubleQuotes s ++ quote)%string
     /\ occurrences quoteChar field = 2 * occurrences quoteChar s + 2
     /\ String.length field = String.length s + occurrences quoteChar s + 2
     /\ undouble (doubleQuotes s) = Some s)
  /\ (includes s "," || includes s quote = false ->
     field = s
     /\ occurrences quoteChar s = 0 /\ occurrences ","%char s = 0).
Proof.
  intros Hown field. subst field. unfold exportCell, property. rewrite Hown.
  assert (Hcell : (if truthyCell (Text s) then Text s else Text "") = Text s).
  { destruct s; reflexivity. }
  rewrite Hcell. split; intros Hq; rewrite Hq; cbn [joined].
  - split; [reflexivity |]. split; [| split].
    + rewrite !occurrences_app, occurrences_doubleQuotes. simpl. lia.
    + rewrite !length_app, length_doubleQuotes. simpl. lia.
    + apply undouble_doubleQuotes.
  - apply orb_false_iff in Hq as [Hc Hd]. split; [reflexivity |].
    split; [exact (includes_char quoteChar s Hd) | exact (includes_char _ s Hc)].
Qed.

Lemma text_field_quoting_witness :
  let rowData := [("name", Text "Smith, John"); ("note", Text "plain")] in
  let field := joined (exportCell rowData "name") in
  (includes "Smith, John" "," || includes "Smith, John" quote = true ->
     field = (quote ++ doubleQuotes "Smith, John" ++ quote)%string
     /\ occurrences quoteChar field = 2 * occurrences quoteChar "Smith, John" + 2
     /\ String.length field
        = String.length "Smith, John" + occurrences quoteChar "Smith, John" + 2
     /\ undouble (doubleQuotes "Smith, John") = Some "Smith, John")
  /\ (includes "Smith, John" "," || includes "Smith, John" quote = false ->
     field = "Smith, John"
     /\ occurrences quoteChar "Smith, John" = 0
     /\ occurrences ","%char "Smith, John" = 0).
Proof.
  exact (text_field_quoting
           [("name", Text "Smith, John"); ("note", Text "plain")]
           "name" "Smith, John" eq_refl).
Defined.

(** X18.  A cell whose value is falsy (the number 0, [false], [null] or
    the empty text) is a cell of the table's row, after the row's serial
    number, but is exported to CSV as an empty field. *)
Theorem falsy_cell_shown_but_not_exported
    (data : list Row) (i : nat) (rowData : Row) (header : string) (v : Cell) :
  data !! i = Some rowData ->
  own header rowData = Some v ->
  truthyCell v = false ->
  (exists table cells,
     createTableBubble data = Some table
     /\ bodyRows table !! i = Some (i + 1, cells) /\ In v cells)
  /\ joined (exportCell rowData header) = "".
Proof.
  intros Hrow Hown Hfalsy. split.
  - destruct data as [|first rest]; [discriminate Hrow |].
    eexists; exists (map snd rowData). split; [reflexivity |].
    cbn [bodyRows]. split.
    + unfold Row in *. rewrite list_lookup_imap, Hrow. reflexivity.
    + exact (own_In header rowData v Hown).
  - unfold exportCell, property. rewrite Hown, Hfalsy. reflexivity.
Qed.

Lemma falsy_cell_shown_but_not_exported_witness :
  let data := [[("region", Text "North"); ("sales", Number "0" false)]] in
  (exists table cells,
     createTableBubble data = Some table
     /\ bodyRows table !! 0 = Some (0 + 1, cells)
     /\ In (Number "0" false) cells)
  /\ joined (exportCell [("region", Text "North"); ("sales", Number "0" false)]
               "sales") = "".
Proof.
  exact (falsy_cell_shown_but_not_exported
           [[("region", Text "North"); ("sales", Number "0" false)]] 0
           [("region", Text "North"); ("sales", Number "0" false)]
           "sales" (Number "0" false) eq_refl eq_refl eq_refl).
Defined.

Lemma memberText_shown (name : string) : memberText name <> "".
Proof.
  unfold memberText.
  destruct (String.eqb name "__proto__"); [discriminate |].
  destruct (String.eqb name "constructor"); discriminate.
Qed.

(** X19.  The CSV text is the prefix, the header line and one line per
    row in the order of the rows; a row's line is made from what the row
    gives at the headers alone, so that two rows with the same own values
    at the headers give the same line.  A header the row does not have
    gives an empty field, unless it is named like a member of
    [Object.prototype]: then the field is the text of that member. *)
Theorem csv_lines_follow_headers (data : list Row) (headers : list string) :
  downloadCSV data headers
  = ("data:text/csv;charset=utf-8," ++ join "," headers ++ CRLF
     ++ fold_right String.append "" (map (csvLine headers) data))%string
  /\ (forall row1 row2 : Row,
        (forall header, In header headers -> own header row1 = own header row2) ->
        csvLine headers row1 = csvLine headers row2)
  /\ (forall (rowData : Row) (header : string),
        own header rowData = None ->
        joined (exportCell rowData header)
        = if existsb (String.eqb header) objectPrototypeMembers
          then memberText header else ""%string)
  /\ (forall name, memberText name <> "").
Proof.
  split; [| split; [| split]].
  - unfold downloadCSV. rewrite fold_lines.
    now rewrite !append_assoc.
  - intros row1 row2 Hsame. unfold csvLine. do 2 f_equal.
    apply map_ext_in. intros header Hin. unfold exportCell, property.
    now rewrite (Hsame header Hin).
  - intros rowData header Hown. unfold exportCell, property. rewrite Hown.
    now destruct (existsb (String.eqb header) objectPrototypeMembers).
  - exact memberText_shown.
Qed.

Lemma csv_lines_follow_headers_witness :
  downloadCSV [[("city", Text "Pune"); ("visits", Number "12" true)]]
    ["city"; "visits"]
  = ("data:text/csv;charset=utf-8," ++ join "," ["city"; "visits"] ++ CRLF
     ++ fold_right String.append ""
          (map (csvLine ["city"; "visits"])
             [[("city", Text "Pune"); ("visits", Number "12" true)]]))%string
  /\ joined (exportCell [("city", Text "Pune")] "valueOf")
     = memberText "valueOf"
  /\ joined (exportCell [("city", Text "Pune")] "visits") = "".
Proof.
  split; [| split].
  - exact (proj1 (csv_lines_follow_headers
                    [[("city", Text "Pune"); ("visits", Number "12" true)]]
                    ["city"; "visits"])).
  - exact (proj1 (proj2 (proj2 (csv_lines_follow_headers [] [])))
             [("city", Text "Pune")] "valueOf" eq_refl).
  - exact (proj1 (proj2 (proj2 (csv_lines_follow_headers [] [])))
             [("city", Text "Pune")] "visits" eq_refl).
Defined.

End CsvFacts.

(** ** Message bubbles and code fences *)

Module BubbleFacts.
Import Js Bubble JsFacts LifecycleFacts CsvFacts.

Lemma cut_found (text rest : string) :
  noBacktick text = true -> cut (text ++ fence ++ rest) = Some (text, rest).
Proof.
  induction text as [|c text IH]; intros Hplain.
  - reflexivity.
  - simpl in Hplain. apply andb_true_iff in Hplain as [Hc Hplain].
    apply negb_true_iff in Hc.
    change (cut (String c text ++ fence ++ rest))
      with (if startsWith (String c (text ++ fence ++ rest)) fence
            then Some (EmptyString, substring 3 (String c (text ++ fence ++ rest)))
            else match cut (text ++ fence ++ rest) with
                 | Some (before, after) => Some (String c before, after)
                 | None => None
                 end).
    rewrite (IH Hplain).
    assert (Hs : startsWith (String c (text ++ fence ++ rest)) fence = false).
    { unfold fence. cbn [startsWith]. rewrite Ascii.eqb_sym, Hc. reflexivity. }
    now rewrite Hs.
Qed.

Lemma cut_none (text : string) : noBacktick text = true -> cut text = None.
Proof.
  induction text as [|c text IH]; intros Hplain; [reflexivity |].
  simpl in Hplain. apply andb_true_iff in Hplain as [Hc Hplain].
  apply negb_true_iff in Hc.
  change (cut (String c text))
    with (if startsWith (String c text) fence
          then Some (EmptyString, substring 3 (String c text))
          else match cut text with
               | Some (before, after) => Some (String c before, after)
               | None => None
               end).
  rewrite (IH Hplain).
  assert (Hs : startsWith (String c text) fence = false).
  { unfold fence. cbn [startsWith]. rewrite Ascii.eqb_sym, Hc. reflexivity. }
  now rewrite Hs.
Qed.

Lemma cut_includes (s : string) : cut s = None -> includes s fence = false.
Proof.
  induction s as [|c s IH]; [reflexivity |].
  change (cut (String c s))
    with (if startsWith (String c s) fence
          then Some (EmptyString, substring 3 (String c s))
          else match cut s with
               | Some (before, after) => Some (String c before, after)
               | None => None
               end).
  change (includes (String c s) fence)
    with (startsWith (String c s) fence || includes s fence).
  destruct (startsWith (String c s) fence); [discriminate |].
  destruct (cut s) as [[before after]|]; [discriminate |].
  intros _. now apply IH.
Qed.

Lemma splitParts_fenced (blocks : list (string * string)) (closing : string) :
  plain blocks = true -> noBacktick closing = true ->
  forall fuel, length blocks <= fuel ->
  splitParts fuel (fenced blocks closing)
  = flat_map (fun block => [fst block; snd block]) blocks ++ [closing].
Proof.
  intros Hplain Hclosing.
  induction blocks as [|[text code] blocks IH]; intros fuel Hfuel.
  - destruct fuel; [reflexivity |]. simpl. now rewrite (cut_none closing Hclosing).
  - simpl in Hplain. apply andb_true_iff in Hplain as [Hblock Hplain].
    apply andb_true_iff in Hblock as [Htext Hcode].
    destruct fuel as [|fuel]; [simpl in Hfuel; lia |].
    cbn [fenced splitParts].
    rewrite (cut_found text _ Htext), (cut_found code _ Hcode).
    rewrite (IH Hplain fuel) by (simpl in Hfuel; lia).
    reflexivity.
Qed.

Lemma length_fenced (blocks : list (string * string)) (closing : string) :
  length blocks <= String.length (fenced blocks closing).
Proof.
  induction blocks as [|[text code] blocks IH]; simpl; [lia |].
  rewrite !length_app. simpl. rewrite !length_app. simpl. lia.
Qed.

Lemma formatParts_blocks (blocks : list (string * string)) (closing : string) :
  formatParts false
    (flat_map (fun block => [fst block; snd block]) blocks ++ [closing])
  = rendered blocks closing.
Proof.
  induction blocks as [|[text code] blocks IH]; simpl.
  - apply append_empty.
  - simpl in IH. now rewrite IH.
Qed.

Lemma noNewline_trimStart (s : string) :
  noNewline s = true -> noNewline (trimStart s) = true.
Proof.
  induction s as [|c s IH]; [reflexivity |].
  intros H. simpl. destruct (isWhiteSpace c); [| exact H].
  simpl in H. apply andb_true_iff in H as [_ H]. exact (IH H).
Qed.

Lemma noNewline_trimEnd (s : string) :
  noNewline s = true -> noNewline (trimEnd s) = true.
Proof.
  induction s as [|c s IH]; [reflexivity |].
  intros H. simpl in H. apply andb_true_iff in H as [Hc H].
  specialize (IH H). simpl.
  destruct (trimEnd s) as [|k kept].
  - destruct (isWhiteSpace c); [reflexivity |]. simpl. now rewrite Hc.
  - change (noNewline (String c (String k kept)))
      with (negb (Ascii.eqb c newline) && noNewline (String k kept)).
    now rewrite Hc, IH.
Qed.

Lemma firstLine_whole (s : string) : noNewline s = true -> firstLine s = s.
Proof.
  induction s as [|c s IH]; [reflexivity |].
  intros H. simpl in H. apply andb_true_iff in H as [Hc H].
  apply negb_true_iff in Hc. simpl. now rewrite Hc, (IH H).
Qed.

Lemma firstLine_app (a b : string) :
  noNewline a = true -> firstLine (a ++ String newline b) = a.
Proof.
  induction a as [|c a IH]; intros H.
  - reflexivity.
  - simpl in H. apply andb_true_iff in H as [Hc H].
    apply negb_true_iff in Hc. simpl. now rewrite Hc, (IH H).
Qed.

Lemma substring_length (a b : string) : substring (String.length a) (a ++ b) = b.
Proof. induction a as [|c a IH]; [now destruct b | exact IH]. Qed.

Lemma trimEnd_empty_trim (s : string) : trimEnd s = "" -> trim s = "".
Proof.
  unfold trim. induction s as [|c s IH]; [reflexivity |].
  intros H. simpl in H. simpl.
  destruct (trimEnd s) as [|k kept]; [| discriminate H].
  destruct (isWhiteSpace c); [| discriminate H]. now apply IH.
Qed.

Lemma trimStart_trimEnd (s : string) : trimStart (trimEnd s) = trimEnd (trimStart s).
Proof.
  induction s as [|c s IH]; [reflexivity |].
  destruct (isWhiteSpace c) eqn:W.
  - change (trimStart (String c s)) with (if isWhiteSpace c then trimStart s else String c s).
    rewrite W. simpl. destruct (trimEnd s) as [|k kept] eqn:E.
    + rewrite W. symmetry. exact (trimEnd_empty_trim s E).
    + rewrite <- IH. simpl. now rewrite W.
  - rewrite (trimEnd_keeps_head c s W). simpl. rewrite W.
    now rewrite (trimEnd_keeps_head c s W).
Qed.

Lemma trimEnd_app (a b : string) :
  trimEnd a = a -> trimEnd (a ++ b) = (a ++ trimEnd b)%string.
Proof.
  induction a as [|d a IH]; [reflexivity |].
  intros H. simpl in H. destruct (trimEnd a) as [|k kept] eqn:E.
  - destruct (isWhiteSpace d) eqn:W; [discriminate H |].
    injection H as <-. simpl. rewrite W. now destruct (trimEnd b).
  - injection H as H. specialize (IH H).
    change (trimEnd (String d a ++ b))
      with (match trimEnd (a ++ b) with
            | EmptyString => if isWhiteSpace d then EmptyString else String d EmptyString
            | kept => String d kept
            end).
    rewrite IH, <- H. reflexivity.
Qed.

Lemma length_trimStart (s : string) : String.length (trimStart s) <= String.length s.
Proof.
  induction s as [|c s IH]; simpl; [lia |].
  destruct (isWhiteSpace c); simpl; lia.
Qed.

Lemma length_trimEnd (s : string) : String.length (trimEnd s) <= String.length s.
Proof.
  induction s as [|c s IH]; simpl; [lia |].
  destruct (trimEnd s); [destruct (isWhiteSpace c) |]; simpl in *; lia.
Qed.

(** A text that [trim] leaves as it is starts with no white space. *)
Lemma trim_fixed (s : string) :
  trim s = s -> trimStart s = s /\ trimEnd s = s.
Proof.
  intros H. assert (Hs : trimStart s = s).
  { destruct s as [|c s]; [reflexivity |]. simpl.
    destruct (isWhiteSpace c) eqn:W; [| reflexivity].
    exfalso. unfold trim in H. simpl in H. rewrite W in H.
    pose proof (length_trimEnd (trimStart s)) as H1.
    pose proof (length_trimStart s) as H2.
    rewrite H in H1. simpl in H1. lia. }
  split; [exact Hs |]. unfold trim in H. now rewrite Hs in H.
Qed.

(** X21.  A message of texts and fenced blocks free of backticks is cut at
    its fences: with no block it becomes the bubble's text unchanged; with
    blocks it becomes markup in which every text stays where it was and
    every block is replaced by its [pre] element, in order. *)
Theorem fenced_message_rendering
    (blocks : list (string * string)) (closing : string) :
  plain blocks = true ->
  noBacktick closing = true ->
  split (fenced blocks closing)
  = flat_map (fun block => [fst block; snd block]) blocks ++ [closing]
  /\ createMessageBubble (fenced blocks closing)
     = match blocks with
       | [] => InnerText closing
       | _ :: _ => InnerHTML (rendered blocks closing)
       end.
Proof.
  intros Hplain Hclosing.
  assert (Hsplit : split (fenced blocks closing)
                   = flat_map (fun block => [fst block; snd block]) blocks
                     ++ [closing]).
  { unfold split. apply (splitParts_fenced blocks closing Hplain Hclosing).
    apply length_fenced. }
  split; [exact Hsplit |].
  unfold createMessageBubble. rewrite Hsplit, formatParts_blocks.
  destruct blocks as [|[text code] blocks].
  - cbn [fenced]. now rewrite (cut_includes closing (cut_none closing Hclosing)).
  - assert (Hin : includes (fenced ((text, code) :: blocks) closing) fence = true).
    { apply includes_spec. exists text, (code ++ fence ++ fenced blocks closing)%string.
      reflexivity. }
    now rewrite Hin.
Qed.

Lemma fenced_message_rendering_witness :
  let blocks := [("Run ", ("sql" ++ String newline "SELECT 1")%string)] in
  split (fenced blocks " now")
  = flat_map (fun block => [fst block; snd block]) blocks ++ [" now"]
  /\ createMessageBubble (fenced blocks " now")
     = match blocks with
       | [] => InnerText " now"
       | _ :: _ => InnerHTML (rendered blocks " now")
       end.
Proof.
  exact (fenced_message_rendering
           [("Run ", ("sql" ++ String newline "SELECT 1")%string)] " now"
           eq_refl eq_refl).
Defined.

(** X22.  A fenced block written on one line is rendered as an empty
    [pre] element: its whole content is taken for the language tag and
    dropped. *)
Theorem one_line_block_is_emptied (part : string) :
  noNewline part = true ->
  formatCode part = (preOpen ++ preClose)%string.
Proof.
  intros Hline. unfold formatCode.
  assert (Hc : noNewline (trim part) = true).
  { unfold trim. apply noNewline_trimEnd, noNewline_trimStart, Hline. }
  rewrite (firstLine_whole _ Hc), trim_idempotent.
  destruct (trim part) as [|c rest] eqn:E; [reflexivity |].
  cbn [truthy]. rewrite <- (append_empty (String c rest)) at 2.
  rewrite substring_length. reflexivity.
Qed.

Lemma one_line_block_is_emptied_witness :
  formatCode "npm install" = (preOpen ++ preClose)%string.
Proof. exact (one_line_block_is_emptied "npm install" eq_refl). Defined.

(** X23.  When the first line of a fenced block is a language tag, the
    [pre] element holds the trimmed rest of the block, without the tag. *)
Theorem language_line_is_dropped (language body : string) :
  trim language = language ->
  language <> "" ->
  noNewline language = true ->
  formatCode (language ++ String newline body)
  = (preOpen ++ trim body ++ preClose)%string.
Proof.
  intros Htrim Hne Hline.
  destruct (trim_fixed language Htrim) as [Hstart Hend].
  assert (Hws : isWhiteSpace newline = true) by reflexivity.
  assert (Hcontent : trim (language ++ String newline body)
                     = (language ++ trimEnd (String newline body))%string).
  { unfold trim.
    assert (Hs : trimStart (language ++ String newline body)
                 = (language ++ String newline body)%string).
    { destruct language as [|c l]; [contradiction |].
      simpl in Hstart. simpl. destruct (isWhiteSpace c) eqn:W; [| reflexivity].
      exfalso. pose proof (length_trimStart l) as Hl.
      rewrite Hstart in Hl. simpl in Hl. lia. }
    rewrite Hs. exact (trimEnd_app language _ Hend). }
  unfold formatCode. rewrite Hcontent.
  assert (Hfirst : firstLine (language ++ trimEnd (String newline body)) = language).
  { simpl trimEnd. destruct (trimEnd body) as [|k kept].
    - rewrite ?Hws, append_empty. exact (firstLine_whole language Hline).
    - exact (firstLine_app language _ Hline). }
  rewrite Hfirst, Htrim.
  assert (Ht : truthy language = true) by (destruct language; [contradiction | reflexivity]).
  rewrite Ht, substring_length. do 2 f_equal.
  unfold trim. rewrite <- !trimStart_trimEnd, trimEnd_idempotent.
  simpl trimEnd. destruct (trimEnd body) as [|k kept] eqn:E.
  - rewrite ?Hws. reflexivity.
  - simpl. rewrite ?Hws. reflexivity.
Qed.

Lemma language_line_is_dropped_witness :
  "sql" <> "" /\
  formatCode ("sql" ++ String newline "SELECT 1  ")
  = (preOpen ++ trim "SELECT 1  " ++ preClose)%string.
Proof.
  split; [discriminate |].
  apply (language_line_is_dropped "sql" "SELECT 1  ");
    [reflexivity | discriminate | reflexivity].
Defined.

(** X24.  A message with one fence only, which nothing closes, has no
    code block: the whole message, fence included, becomes the bubble's
    markup. *)
Theorem unclosed_fence_is_kept (text rest : string) :
  noBacktick text = true ->
  noBacktick rest = true ->
  createMessageBubble (text ++ fence ++ rest)
  = InnerHTML (text ++ fence ++ rest)%string.
Proof.
  intros Htext Hrest. unfold createMessageBubble.
  assert (Hin : includes (text ++ fence ++ rest) fence = true).
  { apply includes_spec. now exists text, rest. }
  rewrite Hin. f_equal. unfold split.
  assert (Hlen : exists n, String.length (text ++ fence ++ rest) = S n).
  { rewrite length_app. simpl. exists (String.length text + S (S (String.length rest))). lia. }
  destruct Hlen as [n ->]. cbn [splitParts].
  rewrite (cut_found text rest Htext), (cut_none rest Hrest).
  cbn [formatParts]. apply append_empty.
Qed.

Lemma unclosed_fence_is_kept_witness :
  createMessageBubble ("see " ++ fence ++ "js")
  = InnerHTML ("see " ++ fence ++ "js")%string.
Proof. exact (unclosed_fence_is_kept "see " "js" eq_refl eq_refl). Defined.

End BubbleFacts.

(** ** Follow-up questions *)

Module FollowUpFacts.
Import Js Csv FollowUp CsvFacts.

Lemma occurrences_replaceAll (c d : ascii) (replacement s : string) :
  occurrences c (replaceAll d replacement s)
  = occurrences c (replaceAll d "" s)
    + occurrences d s * occurrences c replacement.
Proof.
  induction s as [|x s IH]; [reflexivity |].
  simpl. destruct (Ascii.eqb x d) eqn:E.
  - rewrite occurrences_app, IH. simpl. lia.
  - simpl. rewrite IH. lia.
Qed.

Lemma occurrences_removed (c : ascii) (s : string) :
  occurrences c (replaceAll c "" s) = 0.
Proof.
  induction s as [|x s IH]; [reflexivity |].
  simpl. destruct (Ascii.eqb x c) eqn:E; [exact IH |].
  simpl. now rewrite E, IH.
Qed.

Lemma occurrences_kept (c d : ascii) (s : string) :
  Ascii.eqb c d = false ->
  occurrences c (replaceAll d "" s) = occurrences c s.
Proof.
  intros Hne. induction s as [|x s IH]; [reflexivity |].
  simpl. destruct (Ascii.eqb x d) eqn:E.
  - apply Ascii.eqb_eq in E. subst x. rewrite Ascii.eqb_sym, Hne. exact IH.
  - simpl. now rewrite IH.
Qed.

Lemma replaceAll_absent (c : ascii) (replacement s : string) :
  occurrences c s = 0 -> replaceAll c replacement s = s.
Proof.
  induction s as [|x s IH]; [reflexivity |].
  simpl. destruct (Ascii.eqb x c); [discriminate |].
  intros H. now rewrite (IH H).
Qed.

(** X25.  The value of a question's [data-question] attribute holds no
    double quote and no apostrophe, whatever the question; a question
    without them is written as it is; the items are numbered from 1 in
    the order of the questions. *)
Theorem question_attribute_has_no_quote (questions : list string) :
  (forall question,
     occurrences quoteChar (dataQuestion question) = 0
     /\ occurrences apostrophe (dataQuestion question) = 0
     /\ (occurrences quoteChar question = 0 ->
         occurrences apostrophe question = 0 ->
         dataQuestion question = question))
  /\ length (createFollowUpQuestionsBubble questions) = length questions
  /\ (forall i question,
        questions !! i = Some question ->
        createFollowUpQuestionsBubble questions !! i
        = Some {| number := i + 1; text := question;
                  attribute := dataQuestion question |}).
Proof.
  split; [| split].
  - intros question. unfold dataQuestion. split; [| split].
    + rewrite occurrences_replaceAll, occurrences_kept by reflexivity.
      rewrite occurrences_replaceAll, occurrences_removed. simpl. lia.
    + rewrite occurrences_replaceAll, occurrences_removed. simpl. lia.
    + intros Hq Ha. rewrite (replaceAll_absent quoteChar _ question Hq).
      exact (replaceAll_absent apostrophe _ question Ha).
  - apply length_imap.
  - intros i question Hq. unfold createFollowUpQuestionsBubble.
    now rewrite list_lookup_imap, Hq.
Qed.

Lemma question_attribute_has_no_quote_witness :
  let question := ("What's " ++ quote ++ "net" ++ quote ++ " revenue?")%string in
  occurrences quoteChar (dataQuestion question) = 0
  /\ occurrences apostrophe (dataQuestion question) = 0
  /\ (occurrences quoteChar question = 0 ->
      occurrences apostrophe question = 0 ->
      dataQuestion question = question).
Proof.
  exact (proj1 (question_attribute_has_no_quote [])
           ("What's " ++ quote ++ "net" ++ quote ++ " revenue?")%string).
Defined.

End FollowUpFacts.
